(** * Course recommender: a shallow embedding of [app/recommender.py]

    The scoring engine of the course recommender (profile construction,
    content and collaborative scorers, normalisation, blending, ranking and
    explanation synthesis) is embedded function by function, over the
    [SyntheticDataset] snapshot declared in [app/data_loader.py].  The
    snapshot [get_dataset()] hands out is a parameter of the two entry
    points, [recommend_for_student] and [recommend_for_interests].
    The loader of that snapshot, [_build_dataset] of [app/data_loader.py],
    is embedded over a data directory given as a map from file names to
    parsed rows.

    Modelling conventions.
    - A Python [dict] with string keys is a [gmap string _], a [set] of
      strings a [gset string].  A [for] loop over a set walks [elements],
      a loop over [d.items()] walks [map_to_list]; the bodies of the loops
      that proofs reason about are named functions.
    - A Python [float] is an exact rational of [Q]; float equality is [Qeq].
      Decimal literals stand for the decimal they spell.  Rounding error of
      binary64 arithmetic, infinities and NaN are outside the model.
    - [d[k]] on a missing key raises [KeyError]: fallible functions return
      in the [result] monad.
    - A [str] is a [string] of bytes; the byte order of UTF-8 text is its
      code point order.  [strip] and [lower] are modelled on ASCII. *)

From Stdlib Require Import ZArith QArith Qround Qminmax Lqa Lia.
From stdpp Require Import base option list gmap strings sorting pretty
  fin_maps fin_sets.

(** ** Python runtime pieces used by the recommender *)

(** Exceptions: the only one the engine can raise is [KeyError]. *)
Inductive result (A : Type) : Type :=
  | Ok (a : A)
  | KeyError (key : string).
Arguments Ok {A} a.
Arguments KeyError {A} key.

Global Instance result_ret : MRet result := λ A, Ok.
Global Instance result_bind : MBind result := λ A B f m,
  match m with
  | Ok a => f a
  | KeyError key => KeyError key
  end.

(** A [for] loop whose body may raise, threading the loop state. *)
Fixpoint for_each {A S : Type} (body : S → A → result S) (l : list A) (s : S)
    : result S :=
  match l with
  | [] => Ok s
  | x :: l' => s' ← body s x; for_each body l' s'
  end.

(** A comprehension [[x for x in l if p(x)]] whose condition may raise. *)
Fixpoint filter_each {A : Type} (p : A → result bool) (l : list A)
    : result (list A) :=
  match l with
  | [] => Ok []
  | x :: l' =>
      b ← p x;
      keep ← filter_each p l';
      Ok (if b : bool then x :: keep else keep)
  end.

Module Py.

(** [d[k]] *)
Definition item {V : Type} (d : gmap string V) (k : string) : result V :=
  match d !! k with
  | Some v => Ok v
  | None => KeyError k
  end.

(** [d.get(k, dflt)] *)
Definition get {V : Type} (d : gmap string V) (k : string) (dflt : V) : V :=
  default dflt (d !! k).

(** [c[k] += w] on a [Counter] or a [defaultdict(float)]: a missing key
    reads as [0]. *)
Definition add_to (c : gmap string Q) (k : string) (w : Q) : gmap string Q :=
  <[k := (get c k 0 + w)%Q]> c.

(** Truth value of a float: non-zero. *)
Definition truthy (x : Q) : bool := negb (Qeq_bool x 0).

(** [l[:n]], where a negative [n] counts from the end. *)
Definition slice_to {A : Type} (l : list A) (n : Z) : list A :=
  if (n <? 0)%Z then take (Z.to_nat (Z.of_nat (length l) + n)) l
  else take (Z.to_nat n) l.

(** Nearest integer, ties to the even one. *)
Definition round_half_even (x : Q) : Z :=
  let f := Qfloor x in
  match (x - inject_Z f ?= 1 # 2)%Q with
  | Lt => f
  | Gt => (f + 1)%Z
  | Eq => if Z.even f then f else (f + 1)%Z
  end.

(** [round(x, ndigits)] *)
Definition round (x : Q) (ndigits : nat) : Q :=
  let scale := inject_Z (10 ^ Z.of_nat ndigits) in
  (inject_Z (round_half_even (x * scale)) / scale)%Q.

(** Whitespace removed by [str.strip()], within ASCII. *)
Definition is_space (c : Ascii.ascii) : bool :=
  let n := Ascii.N_of_ascii c in
  ((9 <=? n) && (n <=? 13) || (28 <=? n) && (n <=? 32))%N.

Fixpoint lstrip (s : string) : string :=
  match s with
  | String c s' => if is_space c then lstrip s' else s
  | EmptyString => EmptyString
  end.

Fixpoint rstrip (s : string) : string :=
  match s with
  | String c s' =>
      match rstrip s' with
      | EmptyString => if is_space c then EmptyString else String c EmptyString
      | t => String c t
      end
  | EmptyString => EmptyString
  end.

Definition strip (s : string) : string := rstrip (lstrip s).

(** [s.split(sep)] for a one-character separator: never empty. *)
Fixpoint split (sep : Ascii.ascii) (s : string) : list string :=
  match s with
  | EmptyString => [EmptyString]
  | String c s' =>
      if Ascii.eqb c sep then EmptyString :: split sep s'
      else match split sep s' with
           | piece :: pieces => String c piece :: pieces
           | [] => [String c EmptyString]
           end
  end.

Definition lower_ascii (c : Ascii.ascii) : Ascii.ascii :=
  let n := Ascii.N_of_ascii c in
  if ((65 <=? n) && (n <=? 90))%N then Ascii.ascii_of_N (n + 32) else c.

Fixpoint lower (s : string) : string :=
  match s with
  | String c s' => String (lower_ascii c) (lower s')
  | EmptyString => EmptyString
  end.

(** [sep.join(l)] *)
Fixpoint join (sep : string) (l : list string) : string :=
  match l with
  | [] => EmptyString
  | [x] => x
  | x :: l' => x +:+ sep +:+ join sep l'
  end.

(** [sorted(s)] on strings: ascending code point order. *)
Definition str_le (a b : string) : Prop := String.leb a b = true.
Global Instance str_le_dec : RelDecision str_le.
Proof. intros a b. unfold str_le. apply _. Defined.

Definition sorted_strs (l : list string) : list string := merge_sort str_le l.

End Py.

(** ** The dataset snapshot ([data_loader.SyntheticDataset]) *)

Record SyntheticDataset : Type := {
  courses : gmap string (gmap string string);
  students : gmap string (gmap string string);
  enrollments : list (gmap string string);
  preferences : gmap string (list (gmap string string));
  performance : gmap string (gmap string string);
  student_completed_courses : gmap string (gset string);
  student_interest_tags : gmap string (gset string);
  course_skill_tags : gmap string (gset string);
  collaborative_matrix : gmap string (gset string);
  interest_catalog : list string;
}.

(** One element of the list a recommendation call returns. *)
Record Recommendation : Type := {
  course_id : string;
  course_code : option string;
  title : option string;
  category : option string;
  delivery_mode : option string;
  combined_score : Q;
  content_score : Q;
  collab_score : Q;
  skills : list string;
  description : option string;
  explanation : string;
}.

(** ** The recommender ([app/recommender.py]) *)

Definition _normalize (scores : gmap string Q) : gmap string Q :=
  match (map_to_list scores).*2 with
  | [] => ∅
  | v :: vs =>
      let min_score := foldl Qmin v vs in
      let max_score := foldl Qmax v vs in
      if Qeq_bool max_score min_score then (λ _, 1%Q) <$> scores
      else
        let spread := (max_score - min_score)%Q in
        (λ value, ((value - min_score) / spread)%Q) <$> scores
  end.

(** The separator of list-valued fields, the character [|]. *)
Definition pipe : Ascii.ascii := Ascii.ascii_of_nat 124.

Definition _split_to_set (value : string) : gset string :=
  list_to_set
    (filter (λ item, item ≠ EmptyString) (Py.strip <$> Py.split pipe value)).

Definition _prerequisites_met (course_id : string)
    (completed_courses : gset string) (dataset : SyntheticDataset)
    : result bool :=
  course ← Py.item (courses dataset) course_id;
  let prereqs := Py.get course "prerequisites" EmptyString in
  if decide (prereqs = EmptyString) then Ok true
  else Ok (bool_decide (_split_to_set prereqs ⊆ completed_courses)).

Definition _content_profile_from_courses (course_ids : gset string)
    (dataset : SyntheticDataset) : result (gmap string Q) :=
  for_each
    (λ profile course_id,
       let skills := Py.get (course_skill_tags dataset) course_id ∅ in
       let profile :=
         foldl (λ profile skill, Py.add_to profile skill 1) profile
           (elements skills) in
       match courses dataset !! course_id with
       | Some course =>
           if decide (course = ∅) then Ok profile
           else
             category ← Py.item course "category";
             let profile :=
               Py.add_to profile ("category::" +:+ category) 0.6 in
             let profile :=
               foldl
                 (λ profile term,
                    Py.add_to profile ("term::" +:+ Py.lower term) 0.2)
                 profile
                 (elements
                    (_split_to_set (Py.get course "term_patterns" EmptyString)))
             in
             Ok (Py.add_to profile
                   ("delivery::" +:+ Py.get course "delivery_mode" EmptyString)
                   0.4)
       | None => Ok profile
       end)
    (elements course_ids) ∅.

Definition _content_profile_from_interests (interests : list string)
    : gmap string Q :=
  foldl (λ profile interest, Py.add_to profile interest 1) ∅ interests.

(** The body of the loop of [_score_content] over the candidate courses. *)
Definition score_course (profile : gmap string Q) (dataset : SyntheticDataset)
    (scores : gmap string Q) (course_id : string) : result (gmap string Q) :=
  course ← Py.item (courses dataset) course_id;
  let score := 0%Q in
  let score :=
    foldl (λ score skill, (score + Py.get profile skill 0)%Q) score
      (elements (Py.get (course_skill_tags dataset) course_id ∅)) in
  category ← Py.item course "category";
  let score := (score + Py.get profile ("category::" +:+ category) 0)%Q in
  let score :=
    (score
     + Py.get profile
         ("delivery::" +:+ Py.get course "delivery_mode" EmptyString) 0)%Q in
  let score :=
    foldl
      (λ score term,
         (score + 0.1 * Py.get profile ("term::" +:+ Py.lower term) 0)%Q)
      score
      (elements (_split_to_set (Py.get course "term_patterns" EmptyString)))
  in
  Ok (<[course_id := score]> scores).

Definition _score_content (candidate_courses : gset string)
    (profile : gmap string Q) (dataset : SyntheticDataset)
    : result (gmap string Q) :=
  for_each (score_course profile dataset) (elements candidate_courses) ∅.

(** The body of the loop of [_score_collaborative_history] over
    [dataset.student_completed_courses.items()]. *)
Definition peer_step (student_id : string)
    (candidate_courses completed_courses : gset string)
    (collab_scores : gmap string Q) (peer : string * gset string)
    : gmap string Q :=
  let '(other_student, other_courses) := peer in
  if decide (other_student = student_id) then collab_scores
  else
    let intersection := size (completed_courses ∩ other_courses) in
    if decide (intersection = 0%nat) then collab_scores
    else
      let union := size (completed_courses ∪ other_courses) in
      if decide (union = 0%nat) then collab_scores
      else
        let similarity :=
          (inject_Z (Z.of_nat intersection) / inject_Z (Z.of_nat union))%Q in
        if Qle_bool similarity 0 then collab_scores
        else
          foldl
            (λ collab_scores course_id,
               if decide (course_id ∈ completed_courses
                          ∨ course_id ∉ candidate_courses)
               then collab_scores
               else Py.add_to collab_scores course_id similarity)
            collab_scores (elements other_courses).

Definition _score_collaborative_history (student_id : string)
    (candidate_courses completed_courses : gset string)
    (dataset : SyntheticDataset) : gmap string Q :=
  foldl (peer_step student_id candidate_courses completed_courses) ∅
    (map_to_list (student_completed_courses dataset)).

Definition _score_collaborative_interests (candidate_courses : gset string)
    (interest_tags : gset string) (dataset : SyntheticDataset)
    : gmap string Q :=
  if decide (interest_tags = ∅) then ∅
  else
    foldl
      (λ collab_scores '(student_id, tags),
         let overlap := size (tags ∩ interest_tags) in
         if decide (overlap = 0%nat) then collab_scores
         else
           let similarity :=
             (inject_Z (Z.of_nat overlap)
              / inject_Z (Z.of_nat (size interest_tags)))%Q in
           if Qle_bool similarity 0 then collab_scores
           else
             foldl
               (λ collab_scores course_id,
                  if decide (course_id ∉ candidate_courses) then collab_scores
                  else Py.add_to collab_scores course_id similarity)
               collab_scores
               (elements
                  (Py.get (student_completed_courses dataset) student_id ∅)))
      ∅ (map_to_list (student_interest_tags dataset)).

Definition _candidate_courses (completed_courses : gset string)
    (dataset : SyntheticDataset) : gset string :=
  filter (λ course_id, course_id ∉ completed_courses) (dom (courses dataset)).

Definition _build_explanation (course_id : string)
    (content_score collab_score : Q) (skills : list string)
    (dataset : SyntheticDataset) : string :=
  let fragments : list string := [] in
  let fragments :=
    if Py.truthy content_score then
      let highlighted_skills :=
        match skills with
        | [] => "related skills"
        | _ => Py.join ", " (take 3 skills)
        end in
      fragments ++ ["matches your focus on " +:+ highlighted_skills]
    else fragments in
  let fragments :=
    if Py.truthy collab_score then
      let peers := size (Py.get (collaborative_matrix dataset) course_id ∅) in
      fragments ++ ["popular with " +:+ pretty peers +:+ " similar students"]
    else fragments in
  let fragments :=
    match fragments with
    | [] => ["broadens your MAC coursework"]
    | _ => fragments
    end in
  Py.join " and " fragments.

(** The sort key [(-item[1], item[0])] and Python's [<] on such tuples:
    the first components decide unless they are equal. *)
Definition rank_key (item : string * Q) : Q * string := ((- item.2)%Q, item.1).

Definition key_lt (k1 k2 : Q * string) : bool :=
  match (k1.1 ?= k2.1)%Q with
  | Lt => true
  | Gt => false
  | Eq => String.ltb k1.2 k2.2
  end.

(** [sorted] may leave [x] before [y] when [key y < key x] is false. *)
Definition ranks_before (x y : string * Q) : Prop :=
  key_lt (rank_key y) (rank_key x) = false.
Global Instance ranks_before_dec : RelDecision ranks_before.
Proof. intros x y. unfold ranks_before. apply _. Defined.

Definition build_record (course_id : string) (score : Q)
    (content_scores collab_scores : gmap string Q)
    (dataset : SyntheticDataset) : result Recommendation :=
  course ← Py.item (courses dataset) course_id;
  let skills :=
    Py.sorted_strs (elements (Py.get (course_skill_tags dataset) course_id ∅))
  in
  let explanation :=
    _build_explanation course_id (Py.get content_scores course_id 0%Q)
      (Py.get collab_scores course_id 0%Q) skills dataset in
  Ok {| course_id := course_id;
        course_code := course !! "course_code";
        title := course !! "title";
        category := course !! "category";
        delivery_mode := course !! "delivery_mode";
        combined_score := Py.round score 3;
        content_score := Py.round (Py.get content_scores course_id 0%Q) 3;
        collab_score := Py.round (Py.get collab_scores course_id 0%Q) 3;
        skills := skills;
        description := course !! "description";
        explanation := explanation |}.

Definition _build_recommendation_payload
    (combined_scores content_scores collab_scores : gmap string Q)
    (dataset : SyntheticDataset) (top_n : Z) : result (list Recommendation) :=
  let ranked :=
    Py.slice_to (merge_sort ranks_before (map_to_list combined_scores)) top_n
  in
  for_each
    (λ results '(course_id, score),
       record ←
         build_record course_id score content_scores collab_scores dataset;
       Ok (results ++ [record]))
    ranked [].

(** The blend of the two normalised score maps over the candidates. *)
Definition combine (w_content w_collab : Q) (candidate : gset string)
    (content_scores collab_scores : gmap string Q) : gmap string Q :=
  foldl
    (λ combined_scores course_id,
       let content := Py.get content_scores course_id 0%Q in
       let collab := Py.get collab_scores course_id 0%Q in
       <[course_id := (w_content * content + w_collab * collab)%Q]>
         combined_scores)
    ∅ (elements candidate).

(** The comprehension bound to [candidate] in [recommend_for_student]. *)
Definition eligible_courses (completed_courses : gset string)
    (dataset : SyntheticDataset) : result (gset string) :=
  kept ←
    filter_each
      (λ course_id, _prerequisites_met course_id completed_courses dataset)
      (elements (_candidate_courses completed_courses dataset));
  Ok (list_to_set kept).

(** The scoring steps of [recommend_for_student], run once the candidate
    set is known to be non-empty: the normalised content and collaborative
    maps and their blend [0.6 * content + 0.4 * collab]. *)
Definition history_scores (dataset : SyntheticDataset) (student_id : string)
    (completed_courses candidate : gset string)
    : result (gmap string Q * gmap string Q * gmap string Q) :=
  content_profile ← _content_profile_from_courses completed_courses dataset;
  raw_content ← _score_content candidate content_profile dataset;
  let content_scores := _normalize raw_content in
  let collab_scores :=
    _normalize
      (_score_collaborative_history student_id candidate completed_courses
         dataset) in
  let combined_scores :=
    combine 0.6%Q 0.4%Q candidate content_scores collab_scores in
  Ok (combined_scores, content_scores, collab_scores).

Definition recommend_for_student (dataset : SyntheticDataset)
    (student_id : string) (top_n : Z) : result (list Recommendation) :=
  let completed_courses :=
    Py.get (student_completed_courses dataset) student_id ∅ in
  candidate ← eligible_courses completed_courses dataset;
  if decide (candidate = ∅) then Ok []
  else
    '(combined_scores, content_scores, collab_scores) ←
      history_scores dataset student_id completed_courses candidate;
    _build_recommendation_payload combined_scores content_scores collab_scores
      dataset top_n.

(** [{tag for tag in interest_tags if tag}] *)
Definition cleaned_interests (interest_tags : list string) : gset string :=
  list_to_set (filter (λ tag, tag ≠ EmptyString) interest_tags).

(** The profile [recommend_for_interests] scores content against:
    [_content_profile_from_interests(tuple(cleaned_interests))]. *)
Definition interest_profile (interest_tags : list string) : gmap string Q :=
  _content_profile_from_interests (elements (cleaned_interests interest_tags)).

(** The scoring steps of [recommend_for_interests], with the blend
    [0.7 * content + 0.3 * collab]. *)
Definition interest_scores (dataset : SyntheticDataset)
    (interest_tags : list string) (candidate : gset string)
    : result (gmap string Q * gmap string Q * gmap string Q) :=
  let content_profile := interest_profile interest_tags in
  raw_content ← _score_content candidate content_profile dataset;
  let content_scores := _normalize raw_content in
  let collab_scores :=
    _normalize
      (_score_collaborative_interests candidate
         (cleaned_interests interest_tags) dataset) in
  let combined_scores :=
    combine 0.7%Q 0.3%Q candidate content_scores collab_scores in
  Ok (combined_scores, content_scores, collab_scores).

Definition recommend_for_interests (dataset : SyntheticDataset)
    (interest_tags : list string) (top_n : Z) : result (list Recommendation) :=
  let candidate := _candidate_courses ∅ dataset in
  if decide (candidate = ∅) then Ok []
  else
    '(combined_scores, content_scores, collab_scores) ←
      interest_scores dataset interest_tags candidate;
    _build_recommendation_payload combined_scores content_scores collab_scores
      dataset top_n.

(** ** Notions the statements are phrased with *)

(** Every course row carries the [category] column the scorers index. *)
Definition well_formed (dataset : SyntheticDataset) : Prop :=
  map_Forall (λ _ course, is_Some (course !! "category")) (courses dataset).

(** The prerequisite set a course row declares. *)
Definition prerequisites_of (course : gmap string string) : gset string :=
  _split_to_set (Py.get course "prerequisites" EmptyString).

(** The smallest and the largest value of a score map. *)
Definition lowest (scores : gmap string Q) (lo : Q) : Prop :=
  (∃ key, scores !! key = Some lo) ∧
  ∀ key value, scores !! key = Some value → (lo <= value)%Q.

Definition highest (scores : gmap string Q) (hi : Q) : Prop :=
  (∃ key, scores !! key = Some hi) ∧
  ∀ key value, scores !! key = Some value → (value <= hi)%Q.

(** The raw content score [_score_content] gives one candidate. *)
Definition content_score_of (profile : gmap string Q)
    (dataset : SyntheticDataset) (course_id : string)
    (course : gmap string string) (category : string) : Q :=
  (foldl
    (λ score term,
       score + 0.1 * Py.get profile ("term::" +:+ Py.lower term) 0)
    (foldl (λ score skill, score + Py.get profile skill 0) 0
       (elements (Py.get (course_skill_tags dataset) course_id ∅))
     + Py.get profile ("category::" +:+ category) 0
     + Py.get profile
         ("delivery::" +:+ Py.get course "delivery_mode" EmptyString) 0)
    (elements (_split_to_set (Py.get course "term_patterns" EmptyString))))%Q.

(** The three maps a request ranks with: [content] and [collab] are
    normalised, [content] covers the candidates, [combined] is their blend. *)
Record blended (w_content w_collab : Q) (candidate : gset string)
    (combined content collab : gmap string Q) : Prop := {
  blended_content : ∃ raw, content = _normalize raw ∧ dom raw = candidate;
  blended_collab : ∃ raw, collab = _normalize raw;
  blended_combined :
    combined = combine w_content w_collab candidate content collab;
}.

(** The items [_build_recommendation_payload] walks: sorted, then cut. *)
Definition ranked_items (combined_scores : gmap string Q) (top_n : Z)
    : list (string * Q) :=
  Py.slice_to (merge_sort ranks_before (map_to_list combined_scores)) top_n.

(** [a] is ranked above [b]: a higher combined score, or the same score
    and the smaller identifier. *)
Definition outranks (combined : gmap string Q) (a b : string) : Prop :=
  (Py.get combined b 0 < Py.get combined a 0)%Q ∨
  ((Py.get combined a 0 == Py.get combined b 0)%Q ∧ String.ltb a b = true).

(** [ids] is the [top_n] cut of an arrangement of all scored courses in
    which every course outranks the ones after it. *)
Definition is_ranking (combined : gmap string Q) (top_n : Z)
    (ids : list string) : Prop :=
  ∃ full,
    full ≡ₚ elements (dom combined) ∧
    StronglySorted (outranks combined) full ∧
    ids = Py.slice_to full top_n.

(** A small snapshot: four courses, [ml201] gated on [cs101] and [ai301]
    on [cs101] and [ml201]; four students, one with nothing completed. *)
Definition sample_row (category skills prerequisites : string)
    : gmap string string :=
  <["category" := category]>
    (<["skills" := skills]>
       (<["prerequisites" := prerequisites]>
          (<["term_patterns" := "Fall|Winter"]>
             (<["delivery_mode" := "online"]> ∅)))).

Definition sample : SyntheticDataset := {|
  courses :=
    <["cs101" := sample_row "core" "python|stats" EmptyString]>
      (<["ml201" := sample_row "ai" "ml|python" "cs101"]>
         (<["ai301" := sample_row "ai" "ml|search" "cs101 | ml201"]>
            (<["db110" := sample_row "data" "sql|stats" EmptyString]> ∅)));
  students := ∅;
  enrollments := [];
  preferences := ∅;
  performance := ∅;
  student_completed_courses :=
    <["ann" := {["cs101"]}]>
      (<["bob" := {["cs101"; "ml201"]}]>
         (<["cyd" := {["cs101"; "ml201"; "ai301"; "db110"]}]>
            (<["dee" := ∅]> ∅)));
  student_interest_tags :=
    <["ann" := {["python"]}]> (<["bob" := {["ml"; "python"]}]> ∅);
  course_skill_tags :=
    <["cs101" := {["python"; "stats"]}]>
      (<["ml201" := {["ml"; "python"]}]>
         (<["ai301" := {["ml"; "search"]}]>
            (<["db110" := {["sql"; "stats"]}]> ∅)));
  collaborative_matrix :=
    <["cs101" := {["ann"; "bob"; "cyd"]}]>
      (<["ml201" := {["bob"; "cyd"]}]>
         (<["ai301" := {["cyd"]}]> (<["db110" := {["cyd"]}]> ∅)));
  interest_catalog := ["ml"; "python"];
|}.

(** The returned records carry the rounded score of their course. *)
Definition scored_by (combined : gmap string Q) (l : list Recommendation)
    : Prop :=
  ∀ r, r ∈ l →
    ∃ score,
      combined !! course_id r = Some score ∧
      combined_score r = Py.round score 3.

(** What a record's [combined_score] is made of. *)
Definition unit_blend (w_content w_collab : Q)
    (content collab : gmap string Q) (r : Recommendation) : Prop :=
  let c := Py.get content (course_id r) 0%Q in
  let k := Py.get collab (course_id r) 0%Q in
  combined_score r = Py.round (w_content * c + w_collab * k) 3 ∧
  (0 <= c <= 1)%Q ∧ (0 <= k <= 1)%Q ∧ (0 <= combined_score r <= 1)%Q.

(** The explanation sentence as the design describes it: a skills fragment
    when the content score is positive, a peers fragment when the
    collaborative score is positive, a fixed sentence when neither is, the
    fragments joined by [" and "]. *)
Definition explanation_spec (content collab : Q) (skills : list string)
    (peers : nat) : string :=
  let skills_fragment :=
    if Qlt_le_dec 0 content then
      ["matches your focus on "
       +:+ match skills with
           | [] => "related skills"
           | _ => Py.join ", " (take 3 skills)
           end]
    else [] in
  let peers_fragment :=
    if Qlt_le_dec 0 collab then
      ["popular with " +:+ pretty peers +:+ " similar students"]
    else [] in
  match (skills_fragment ++ peers_fragment)%list with
  | [] => "broadens your MAC coursework"
  | fragments => Py.join " and " fragments
  end.

(** A record's skill list and explanation, given the score maps used. *)
Definition explained (dataset : SyntheticDataset)
    (content collab : gmap string Q) (r : Recommendation) : Prop :=
  skills r ≡ₚ elements (Py.get (course_skill_tags dataset) (course_id r) ∅) ∧
  StronglySorted Py.str_le (skills r) ∧
  explanation r =
    explanation_spec (Py.get content (course_id r) 0%Q)
      (Py.get collab (course_id r) 0%Q) (skills r)
      (size (Py.get (collaborative_matrix dataset) (course_id r) ∅)).

(** How many times [tag] occurs in a sequence of tags. *)
Definition occurrences (tag : string) (tags : list string) : nat :=
  length (filter (λ t, t = tag) tags).

(** Jaccard similarity of two completed-course sets. *)
Definition jaccard (a b : gset string) : Q :=
  (inject_Z (Z.of_nat (size (a ∩ b))) / inject_Z (Z.of_nat (size (a ∪ b))))%Q.

Definition Qsum (l : list Q) : Q := foldr Qplus 0%Q l.

(** The students whose similarity reaches course [id]: every student of the
    snapshot other than the requester whose completed set meets the
    requester's and holds [id]. *)
Definition contributing_peers (student_id : string) (completed : gset string)
    (dataset : SyntheticDataset) (id : string) : list (string * gset string) :=
  filter
    (λ peer, peer.1 ≠ student_id ∧ completed ∩ peer.2 ≠ ∅ ∧ id ∈ peer.2)
    (map_to_list (student_completed_courses dataset)).

(** The history-variant collaborative score as the design states it. *)
Definition collaborative_history_spec (student_id : string)
    (candidate completed : gset string) (dataset : SyntheticDataset)
    (id : string) : Q :=
  if decide (id ∈ candidate ∧ id ∉ completed) then
    Qsum ((λ peer, jaccard completed peer.2)
            <$> contributing_peers student_id completed dataset id)
  else 0%Q.

(** What one student adds to the score of course [id]. *)
Definition contribution (student_id : string) (completed : gset string)
    (id : string) (peer : string * gset string) : Q :=
  if decide (peer.1 ≠ student_id ∧ completed ∩ peer.2 ≠ ∅ ∧ id ∈ peer.2)
  then jaccard completed peer.2 else 0%Q.

(** The visible scores never increase down the list. *)
Definition scores_descend (l : list Recommendation) : Prop :=
  StronglySorted (λ r1 r2, (combined_score r2 <= combined_score r1)%Q) l.

(** Identifiers in strictly ascending order. *)
Definition ascending (ids : list string) : Prop :=
  StronglySorted (λ a b, String.ltb a b = true) ids.

(** ** Loop bodies of the recommender, by name *)

(** The body of the loop of [_content_profile_from_courses]. *)
Definition profile_course (dataset : SyntheticDataset)
    (profile : gmap string Q) (course_id : string) : result (gmap string Q) :=
  let skills := Py.get (course_skill_tags dataset) course_id ∅ in
  let profile :=
    foldl (λ profile skill, Py.add_to profile skill 1) profile
      (elements skills) in
  match courses dataset !! course_id with
  | Some course =>
      if decide (course = ∅) then Ok profile
      else
        category ← Py.item course "category";
        let profile :=
          Py.add_to profile ("category::" +:+ category) 0.6 in
        let profile :=
          foldl
            (λ profile term,
               Py.add_to profile ("term::" +:+ Py.lower term) 0.2)
            profile
            (elements
               (_split_to_set (Py.get course "term_patterns" EmptyString)))
        in
        Ok (Py.add_to profile
              ("delivery::" +:+ Py.get course "delivery_mode" EmptyString)
              0.4)
  | None => Ok profile
  end.

(** The body of the loop of [_score_collaborative_interests] over
    [dataset.student_interest_tags.items()]. *)
Definition interest_peer_step (candidate_courses interest_tags : gset string)
    (dataset : SyntheticDataset) (collab_scores : gmap string Q)
    (peer : string * gset string) : gmap string Q :=
  let '(student_id, tags) := peer in
  let overlap := size (tags ∩ interest_tags) in
  if decide (overlap = 0%nat) then collab_scores
  else
    let similarity :=
      (inject_Z (Z.of_nat overlap)
       / inject_Z (Z.of_nat (size interest_tags)))%Q in
    if Qle_bool similarity 0 then collab_scores
    else
      foldl
        (λ collab_scores course_id,
           if decide (course_id ∉ candidate_courses) then collab_scores
           else Py.add_to collab_scores course_id similarity)
        collab_scores
        (elements (Py.get (student_completed_courses dataset) student_id ∅)).

(** ** The loader ([app/data_loader.py])

    The data directory is a finite map from file names to the rows
    [csv.DictReader] yields for them, each row a [dict] from column names to
    strings; the parsing of the CSV text itself is the library's.  A file
    that is not a key of the map does not exist.  Every cell is a string:
    a row shorter or longer than the header, which [DictReader] completes
    with [None], is outside the model, and so is what the engine does with
    a snapshot that holds such a row. *)

(** Exceptions of the loader: [FileNotFoundError] for a missing file, and
    the [KeyError] of [row[key]] on a row without that column. *)
Inductive loaded (A : Type) : Type :=
  | Loaded (a : A)
  | FileNotFoundError (filename : string)
  | RowKeyError (key : string).
Arguments Loaded {A} a.
Arguments FileNotFoundError {A} filename.
Arguments RowKeyError {A} key.

Global Instance loaded_ret : MRet loaded := λ A, Loaded.
Global Instance loaded_bind : MBind loaded := λ A B f m,
  match m with
  | Loaded a => f a
  | FileNotFoundError filename => FileNotFoundError filename
  | RowKeyError key => RowKeyError key
  end.

(** A [KeyError] of the engine's monad, propagated by the loader. *)
Definition raised {A : Type} (r : result A) : loaded A :=
  match r with
  | Ok a => Loaded a
  | KeyError key => RowKeyError key
  end.

Definition _read_csv (files : gmap string (list (gmap string string)))
    (filename : string) : loaded (list (gmap string string)) :=
  match files !! filename with
  | Some rows => Loaded rows
  | None => FileNotFoundError filename
  end.

Definition _split_tags (value : string) : gset string :=
  if decide (value = EmptyString) then ∅
  else
    list_to_set
      (filter (λ item, item ≠ EmptyString) (Py.strip <$> Py.split pipe value)).

(** [{row[key]: row for row in rows}] *)
Definition index_by (key : string) (rows : list (gmap string string))
    : result (gmap string (gmap string string)) :=
  for_each
    (λ index row, k ← Py.item row key; Ok (<[k := row]> index)) rows ∅.

(** [preferences.setdefault(row["student_id"], []).append(row)] *)
Definition group_preference
    (preferences : gmap string (list (gmap string string)))
    (row : gmap string string)
    : result (gmap string (list (gmap string string))) :=
  student_id ← Py.item row "student_id";
  Ok (<[student_id := Py.get preferences student_id [] ++ [row]]> preferences).

(** [index.setdefault(k, set()).add(x)] *)
Definition add_member (index : gmap string (gset string)) (k x : string)
    : gmap string (gset string) :=
  <[k := Py.get index k ∅ ∪ {[x]}]> index.

(** The body of the loop over the enrollment rows; the state is the pair
    [(student_completed_courses, collaborative_matrix)]. *)
Definition record_enrollment
    (indexes : gmap string (gset string) * gmap string (gset string))
    (row : gmap string string)
    : result (gmap string (gset string) * gmap string (gset string)) :=
  if decide (row !! "completion_status" ≠ Some "completed") then Ok indexes
  else
    student_id ← Py.item row "student_id";
    course_id ← Py.item row "course_id";
    Ok (add_member indexes.1 student_id course_id,
        add_member indexes.2 course_id student_id).

(** The set comprehension [pref_tags] over the preference rows of one
    student. *)
Definition preference_tags (prefs : list (gmap string string))
    : gset string :=
  ⋃ ((λ pref, _split_tags (Py.get pref "preference_value" EmptyString))
       <$> filter
             (λ pref,
                pref !! "preference_type" = Some "skills_to_build"
                ∨ pref !! "preference_type" = Some "career_goal")
             prefs).

(** The body of the loop over [students.items()]. *)
Definition interest_tags_of
    (preferences : gmap string (list (gmap string string)))
    (student_id : string) (student : gmap string string) : gset string :=
  let tags := _split_tags (Py.get student "interests" EmptyString) in
  let pref_tags := preference_tags (Py.get preferences student_id []) in
  tags ∪ pref_tags.

Definition _build_dataset (files : gmap string (list (gmap string string)))
    : loaded SyntheticDataset :=
  courses_rows ← _read_csv files "courses.csv";
  students_rows ← _read_csv files "students.csv";
  enrollments_rows ← _read_csv files "enrollments.csv";
  preferences_rows ← _read_csv files "student_preferences.csv";
  performance_rows ← _read_csv files "student_performance.csv";
  courses ← raised (index_by "course_id" courses_rows);
  students ← raised (index_by "student_id" students_rows);
  performance ← raised (index_by "student_id" performance_rows);
  preferences ← raised (for_each group_preference preferences_rows ∅);
  let course_skill_tags :=
    (λ row, _split_tags (Py.get row "skills" EmptyString)) <$> courses in
  indexes ← raised (for_each record_enrollment enrollments_rows (∅, ∅));
  let student_interest_tags :=
    map_imap
      (λ student_id student,
         Some (interest_tags_of preferences student_id student))
      students in
  let interest_catalog :=
    Py.sorted_strs
      (elements (⋃ (map_to_list student_interest_tags).*2 : gset string)) in
  Loaded {|
    courses := courses;
    students := students;
    enrollments := enrollments_rows;
    preferences := preferences;
    performance := performance;
    student_completed_courses := indexes.1;
    student_interest_tags := student_interest_tags;
    course_skill_tags := course_skill_tags;
    collaborative_matrix := indexes.2;
    interest_catalog := interest_catalog;
  |}.

(** ** Further notions *)

(** A tag as [_split_to_set] produces them: not empty, nothing to strip,
    no separator inside. *)
Definition clean_tag (tag : string) : Prop :=
  tag ≠ EmptyString ∧ Py.strip tag = tag ∧
  pipe ∉ String.list_ascii_of_string tag.

(** A string with no whitespace in front. *)
Definition starts_clean (s : string) : Prop :=
  match s with
  | String c _ => Py.is_space c = false
  | EmptyString => True
  end.

(** The row of a course can be scored: it is there and has a category. *)
Definition scorable (dataset : SyntheticDataset) (id : string) : Prop :=
  ∃ course,
    courses dataset !! id = Some course ∧ is_Some (course !! "category").

(** The row of a completed course can be profiled: missing and empty rows
    are passed over, any other row must have a category. *)
Definition profilable (dataset : SyntheticDataset) (id : string) : Prop :=
  ∀ course,
    courses dataset !! id = Some course → course ≠ ∅ →
    is_Some (course !! "category").

(** Maps without negative values, and maps with only positive ones. *)
Definition nonneg (m : gmap string Q) : Prop :=
  ∀ key w, m !! key = Some w → (0 <= w)%Q.

Definition positive (m : gmap string Q) : Prop :=
  ∀ key w, m !! key = Some w → (0 < w)%Q.

(** The share of the supplied tags a student holds. *)
Definition tag_overlap (tags interest_tags : gset string) : Q :=
  (inject_Z (Z.of_nat (size (tags ∩ interest_tags)))
   / inject_Z (Z.of_nat (size interest_tags)))%Q.

(** The students whose interests reach course [id]: those who share a tag
    with the request and have completed [id]. *)
Definition interested_peers (interest_tags : gset string)
    (dataset : SyntheticDataset) (id : string) : list (string * gset string) :=
  filter
    (λ peer,
       peer.2 ∩ interest_tags ≠ ∅ ∧
       id ∈ Py.get (student_completed_courses dataset) peer.1 ∅)
    (map_to_list (student_interest_tags dataset)).

(** The interest-variant collaborative score, course by course. *)
Definition collaborative_interests_spec (candidate interest_tags : gset string)
    (dataset : SyntheticDataset) (id : string) : Q :=
  if decide (id ∈ candidate) then
    Qsum ((λ peer, tag_overlap peer.2 interest_tags)
            <$> interested_peers interest_tags dataset id)
  else 0%Q.

(** What one student adds to the score of course [id]. *)
Definition interest_contribution (interest_tags : gset string)
    (dataset : SyntheticDataset) (id : string) (peer : string * gset string)
    : Q :=
  if decide (peer.2 ∩ interest_tags ≠ ∅
             ∧ id ∈ Py.get (student_completed_courses dataset) peer.1 ∅)
  then tag_overlap peer.2 interest_tags else 0%Q.

(** *** Notions about the data directory *)



(** An enrollment row that counts: its status is [completed]. *)
Definition completed_row (row : gmap string string) : Prop :=
  row !! "completion_status" = Some "completed".

(** A completed enrollment of [student_id] in [course_id]. *)
Definition completion (student_id course_id : string)
    (row : gmap string string) : Prop :=
  completed_row row ∧ row !! "student_id" = Some student_id
  ∧ row !! "course_id" = Some course_id.

(** A preference row whose tags count as interests. *)
Definition interest_preference (pref : gmap string string) : Prop :=
  pref !! "preference_type" = Some "skills_to_build"
  ∨ pref !! "preference_type" = Some "career_goal".


(** A small data directory. *)
Definition sample_course (course_id category skills : string)
    : gmap string string :=
  <["course_id" := course_id]>
    (<["category" := category]> (<["skills" := skills]> ∅)).

Definition sample_student (student_id interests : string)
    : gmap string string :=
  <["student_id" := student_id]> (<["interests" := interests]> ∅).

Definition sample_enrollment (student_id course_id status : string)
    : gmap string string :=
  <["student_id" := student_id]>
    (<["course_id" := course_id]> (<["completion_status" := status]> ∅)).

Definition sample_preference (student_id type value : string)
    : gmap string string :=
  <["student_id" := student_id]>
    (<["preference_type" := type]> (<["preference_value" := value]> ∅)).

Definition sample_courses_rows : list (gmap string string) :=
  [sample_course "cs101" "core" "python|stats";
   sample_course "ml201" "ai" "ml | python";
   sample_course "cs101" "core" "python|logic"].

Definition sample_students_rows : list (gmap string string) :=
  [sample_student "ann" "ml|python"; sample_student "bob" EmptyString].

Definition sample_enrollments_rows : list (gmap string string) :=
  [sample_enrollment "ann" "cs101" "completed";
   sample_enrollment "bob" "cs101" "completed";
   sample_enrollment "bob" "ml201" "in_progress"].

Definition sample_preferences_rows : list (gmap string string) :=
  [sample_preference "bob" "career_goal" "data science|ml";
   sample_preference "bob" "schedule" "evening";
   sample_preference "ann" "skills_to_build" "sql"].

Definition sample_performance_rows : list (gmap string string) :=
  [sample_student "ann" EmptyString].

Definition sample_files : gmap string (list (gmap string string)) :=
  <["courses.csv" := sample_courses_rows]>
    (<["students.csv" := sample_students_rows]>
       (<["enrollments.csv" := sample_enrollments_rows]>
          (<["student_preferences.csv" := sample_preferences_rows]>
             (<["student_performance.csv" := sample_performance_rows]> ∅)))).

(** The snapshot the loader builds from it. *)
Definition sample_loaded : SyntheticDataset := {|
  courses :=
    <["cs101" := sample_course "cs101" "core" "python|logic"]>
      (<["ml201" := sample_course "ml201" "ai" "ml | python"]> ∅);
  students :=
    <["ann" := sample_student "ann" "ml|python"]>
      (<["bob" := sample_student "bob" EmptyString]> ∅);
  enrollments := sample_enrollments_rows;
  preferences :=
    <["bob" :=
        [sample_preference "bob" "career_goal" "data science|ml";
         sample_preference "bob" "schedule" "evening"]]>
      (<["ann" := [sample_preference "ann" "skills_to_build" "sql"]]> ∅);
  performance := <["ann" := sample_student "ann" EmptyString]> ∅;
  student_completed_courses :=
    <["ann" := {["cs101"]}]> (<["bob" := {["cs101"]}]> ∅);
  student_interest_tags :=
    <["ann" := {["ml"; "python"; "sql"]}]>
      (<["bob" := {["data science"; "ml"]}]> ∅);
  course_skill_tags :=
    <["cs101" := {["logic"; "python"]}]>
      (<["ml201" := {["ml"; "python"]}]> ∅);
  collaborative_matrix := <["cs101" := {["ann"; "bob"]}]> ∅;
  interest_catalog := ["data science"; "ml"; "python"; "sql"];
|}.

(** A small score map. *)
Definition sample_scores : gmap string Q :=
  <["a" := 1%Q]> (<["b" := 3%Q]> (<["c" := 2%Q]> ∅)).

(** * Proofs *)

(** ** The [result] monad and the loops *)

Lemma bind_Ok_inv {A B : Type} (m : result A) (k : A → result B) (b : B) :
  m ≫= k = Ok b → ∃ a, m = Ok a ∧ k a = Ok b.
Proof. destruct m as [a|key]; simpl; [eauto | discriminate]. Qed.

Tactic Notation "inv_bind" ident(H) :=
  let a := fresh "a" in
  let E := fresh "E" in
  apply bind_Ok_inv in H; destruct H as (a & E & H).

Lemma for_each_ext {A S : Type} (body1 body2 : S → A → result S)
    (l : list A) (s : S) :
  (∀ s x, body1 s x = body2 s x) → for_each body1 l s = for_each body2 l s.
Proof.
  intros Hext. revert s. induction l as [|x l IH]; intros s; simpl; [done|].
  rewrite Hext. destruct (body2 s x); simpl; [apply IH | done].
Qed.

Lemma for_each_collect_inv {A B : Type} (f : A → result B) (l : list A)
    (acc out : list B) :
  for_each (λ results x, r ← f x; Ok (results ++ [r])) l acc = Ok out →
  ∃ rs, out = acc ++ rs ∧ Forall2 (λ x r, f x = Ok r) l rs.
Proof.
  revert acc. induction l as [|x l IH]; intros acc H; simpl in H.
  - injection H as <-. exists []. by rewrite app_nil_r.
  - inv_bind H. inv_bind E. injection E as <-.
    apply IH in H as (rs & -> & Hrs). exists (a0 :: rs). split.
    + by rewrite <- app_assoc.
    + by constructor.
Qed.

Lemma for_each_collect_total {A B : Type} (f : A → result B) (l : list A)
    (acc : list B) :
  Forall (λ x, ∃ r, f x = Ok r) l →
  ∃ out, for_each (λ results x, r ← f x; Ok (results ++ [r])) l acc = Ok out.
Proof.
  intros Hl. revert acc. induction Hl as [|x l [r Hr] _ IH]; intros acc; simpl.
  - eauto.
  - rewrite Hr. simpl. apply IH.
Qed.

Lemma filter_each_inv {A : Type} (p : A → result bool) (l kept : list A) :
  filter_each p l = Ok kept →
  ∀ x, x ∈ kept ↔ x ∈ l ∧ p x = Ok true.
Proof.
  revert kept. induction l as [|y l IH]; intros kept H; simpl in H.
  - injection H as <-. intros x.
    split; [by intros ?%elem_of_nil | by intros [?%elem_of_nil _]].
  - inv_bind H. inv_bind H. injection H as <-. intros x.
    specialize (IH _ E0 x). destruct a.
    + rewrite !elem_of_cons, IH. split.
      * intros [-> | [? ?]]; eauto.
      * intros [[-> | ?] ?]; eauto.
    + rewrite elem_of_cons, IH. split.
      * intros [? ?]; eauto.
      * intros [[-> | ?] ?]; [congruence | eauto].
Qed.

Lemma filter_each_total {A : Type} (p : A → result bool) (l : list A) :
  Forall (λ x, ∃ b, p x = Ok b) l → ∃ kept, filter_each p l = Ok kept.
Proof.
  induction 1 as [|x l [b Hb] _ [kept IH]]; simpl; [eauto|].
  rewrite Hb, IH. simpl. eauto.
Qed.

Lemma item_Some {V : Type} (d : gmap string V) (k : string) (v : V) :
  d !! k = Some v → Py.item d k = Ok v.
Proof. intros H. unfold Py.item. by rewrite H. Qed.

Lemma item_Ok_inv {V : Type} (d : gmap string V) (k : string) (v : V) :
  Py.item d k = Ok v → d !! k = Some v.
Proof. unfold Py.item. destruct (d !! k); [congruence | discriminate]. Qed.

(** ** Slices *)

Lemma slice_to_sublist {A : Type} (l : list A) (n : Z) :
  ∃ k, Py.slice_to l n = take k l.
Proof. unfold Py.slice_to. destruct (n <? 0)%Z; eauto. Qed.

Lemma elem_of_slice_to {A : Type} (l : list A) (n : Z) (x : A) :
  x ∈ Py.slice_to l n → x ∈ l.
Proof.
  destruct (slice_to_sublist l n) as [k ->]. intros H.
  apply elem_of_take in H as (i & Hi & _). by eapply list_elem_of_lookup_2.
Qed.

Lemma fmap_slice_to {A B : Type} (f : A → B) (l : list A) (n : Z) :
  f <$> Py.slice_to l n = Py.slice_to (f <$> l) n.
Proof.
  unfold Py.slice_to. rewrite length_fmap. destruct (n <? 0)%Z; apply fmap_take.
Qed.

Lemma length_slice_to_nonneg {A : Type} (l : list A) (n : Z) :
  (0 ≤ n)%Z → length (Py.slice_to l n) = Nat.min (Z.to_nat n) (length l).
Proof.
  intros Hn. unfold Py.slice_to.
  destruct (n <? 0)%Z eqn:E; [apply Z.ltb_lt in E; lia|].
  apply length_take.
Qed.

Lemma slice_to_all {A : Type} (l : list A) (n : Z) :
  (Z.of_nat (length l) ≤ n)%Z → Py.slice_to l n = l.
Proof.
  intros Hn. unfold Py.slice_to.
  destruct (n <? 0)%Z eqn:E; [apply Z.ltb_lt in E; lia|].
  apply take_ge. lia.
Qed.

Lemma StronglySorted_take {A : Type} (R : relation A) (l : list A) (k : nat) :
  StronglySorted R l → StronglySorted R (take k l).
Proof.
  intros H. rewrite <- (take_drop k l) in H.
  by apply StronglySorted_app_1_l in H.
Qed.

Lemma StronglySorted_slice_to {A : Type} (R : relation A) (l : list A) (n : Z) :
  StronglySorted R l → StronglySorted R (Py.slice_to l n).
Proof.
  destruct (slice_to_sublist l n) as [k ->]. apply StronglySorted_take.
Qed.

(** ** Rounding *)

Section rounding.
Local Open Scope Q_scope.

Lemma round_half_even_floor (x : Q) :
(Qfloor x ≤ Py.round_half_even x ≤ Qfloor x + 1)%Z.
Proof.
unfold Py.round_half_even.
destruct (x - inject_Z (Qfloor x) ?= 1 # 2); [destruct (Z.even _)| |]; lia.
Qed.

Lemma round_half_even_ge (x : Q) (a : Z) :
  inject_Z a <= x → (a ≤ Py.round_half_even x)%Z.
Proof.
  intros Ha. assert (Hf : (a ≤ Qfloor x)%Z).
  { rewrite <- (Qfloor_Z a). by apply Qfloor_resp_le. }
  unfold Py.round_half_even.
  destruct (x - inject_Z (Qfloor x) ?= 1 # 2); [destruct (Z.even _)| |]; lia.
Qed.

Lemma round_half_even_le (x : Q) (b : Z) :
  x <= inject_Z b → (Py.round_half_even x ≤ b)%Z.
Proof.
  intros Hb. assert (Hf : (Qfloor x ≤ b)%Z).
  { rewrite <- (Qfloor_Z b). by apply Qfloor_resp_le. }
  destruct (decide (Qfloor x = b)) as [Heq | Hne].
  - unfold Py.round_half_even. rewrite Heq.
    destruct (x - inject_Z b ?= 1 # 2) eqn:E; [|lia|].
    + apply Qeq_alt in E. lra.
    + apply Qgt_alt in E. lra.
  - unfold Py.round_half_even.
    destruct (x - inject_Z (Qfloor x) ?= 1 # 2); [destruct (Z.even _)| |]; lia.
Qed.

Lemma round_half_even_mono (x y : Q) :
x <= y → (Py.round_half_even x ≤ Py.round_half_even y)%Z.
Proof.
intros Hxy. pose proof (Qfloor_resp_le _ _ Hxy) as Hf.
destruct (decide (Qfloor x = Qfloor y)) as [Heq | Hne].
- unfold Py.round_half_even. rewrite <- Heq.
  destruct (Qcompare_spec (x - inject_Z (Qfloor x)) (1 # 2));
    destruct (Qcompare_spec (y - inject_Z (Qfloor x)) (1 # 2));
    try (destruct (Z.even (Qfloor x))); try lia; exfalso; lra.
- pose proof (round_half_even_floor x). pose proof (round_half_even_floor y).
  lia.
Qed.

Lemma round_unit (x : Q) : 0 <= x <= 1 → 0 <= Py.round x 3 <= 1.
Proof.
  intros [H0 H1]. unfold Py.round.
  change (inject_Z (10 ^ Z.of_nat 3)) with (inject_Z 1000).
  assert (Hlo : (0 ≤ Py.round_half_even (x * inject_Z 1000))%Z).
  { apply round_half_even_ge. change (inject_Z 0) with 0.
    change (inject_Z 1000) with (1000 # 1). lra. }
  assert (Hhi : (Py.round_half_even (x * inject_Z 1000) ≤ 1000)%Z).
  { apply round_half_even_le. change (inject_Z 1000) with (1000 # 1). lra. }
  set (z := Py.round_half_even (x * inject_Z 1000)) in *.
  assert (0 <= inject_Z z)
    by (change 0 with (inject_Z 0); by rewrite <- Zle_Qle).
  assert (inject_Z z <= inject_Z 1000) by (by rewrite <- Zle_Qle).
  change (inject_Z 1000) with (1000 # 1) in *.
  split.
  - apply Qle_shift_div_l; lra.
  - apply Qle_shift_div_r; lra.
Qed.

Lemma round_mono (x y : Q) : x <= y → Py.round x 3 <= Py.round y 3.
Proof.
intros Hxy. unfold Py.round.
change (inject_Z (10 ^ Z.of_nat 3)) with (1000 # 1).
assert (Hz : (Py.round_half_even (x * (1000 # 1))
              ≤ Py.round_half_even (y * (1000 # 1)))%Z).
{ apply round_half_even_mono. lra. }
rewrite Zle_Qle in Hz.
apply Qle_shift_div_l; [lra|].
set (a := inject_Z (Py.round_half_even (x * (1000 # 1)))) in *.
set (b := inject_Z (Py.round_half_even (y * (1000 # 1)))) in *.
field_simplify. lra.
Qed.

End rounding.

(** ** The order on strings *)

Lemma ascii_compare_Lt_trans (a b c : Ascii.ascii) :
  Ascii.compare a b = Lt → Ascii.compare b c = Lt → Ascii.compare a c = Lt.
Proof.
  unfold Ascii.compare. rewrite !N.compare_lt_iff. lia.
Qed.

Lemma string_compare_Lt_trans (s1 s2 s3 : string) :
  String.compare s1 s2 = Lt → String.compare s2 s3 = Lt →
  String.compare s1 s3 = Lt.
Proof.
  revert s2 s3. induction s1 as [|a s1 IH]; intros [|b s2] [|c s3]; simpl;
    try done.
  destruct (Ascii.compare a b) eqn:Hab; try done;
    destruct (Ascii.compare b c) eqn:Hbc; try done; intros H12 H23.
  - apply Ascii.compare_eq_iff in Hab, Hbc. subst.
    assert (Ascii.compare c c = Eq) as ->
      by (unfold Ascii.compare; apply N.compare_refl).
    eauto.
  - apply Ascii.compare_eq_iff in Hab. subst. by rewrite Hbc.
  - apply Ascii.compare_eq_iff in Hbc. subst. by rewrite Hab.
  - by rewrite (ascii_compare_Lt_trans _ _ _ Hab Hbc).
Qed.

Lemma string_compare_refl (s : string) : String.compare s s = Eq.
Proof.
  induction s as [|a s IH]; simpl; [done|].
  assert (Ascii.compare a a = Eq) as ->
    by (unfold Ascii.compare; apply N.compare_refl).
  done.
Qed.

Lemma string_ltb_irrefl (s : string) : String.ltb s s = false.
Proof. unfold String.ltb. by rewrite string_compare_refl. Qed.

Lemma string_ltb_trans (s1 s2 s3 : string) :
  String.ltb s1 s2 = true → String.ltb s2 s3 = true → String.ltb s1 s3 = true.
Proof.
  unfold String.ltb. intros H12 H23.
  destruct (String.compare s1 s2) eqn:E12; try done.
  destruct (String.compare s2 s3) eqn:E23; try done.
  by rewrite (string_compare_Lt_trans _ _ _ E12 E23).
Qed.

Lemma string_ltb_asym (s1 s2 : string) :
  String.ltb s1 s2 = true → String.ltb s2 s1 = false.
Proof.
  unfold String.ltb. rewrite (String.compare_antisym s2 s1).
  by destruct (String.compare s1 s2).
Qed.

Lemma string_ltb_total (s1 s2 : string) :
  s1 ≠ s2 → String.ltb s1 s2 = true ∨ String.ltb s2 s1 = true.
Proof.
  intros Hne. unfold String.ltb. rewrite (String.compare_antisym s2 s1).
  destruct (String.compare s1 s2) eqn:E; simpl; auto.
  by apply String.compare_eq_iff in E.
Qed.

Global Instance str_le_trans : Transitive Py.str_le.
Proof.
  intros s1 s2 s3. unfold Py.str_le, String.leb. intros H12 H23.
  destruct (String.compare s1 s2) eqn:E12; try done.
  - apply String.compare_eq_iff in E12. by subst.
  - destruct (String.compare s2 s3) eqn:E23; try done.
    + apply String.compare_eq_iff in E23. subst. by rewrite E12.
    + by rewrite (string_compare_Lt_trans _ _ _ E12 E23).
Qed.

Global Instance str_le_total : Total Py.str_le.
Proof. intros s1 s2. apply String.leb_total. Qed.

(** ** The normaliser *)

Section normalize.
Local Open Scope Q_scope.

Lemma foldl_Qmin_le (vs : list Q) (v : Q) :
  foldl Qmin v vs <= v ∧ Forall (λ x, foldl Qmin v vs <= x) vs.
Proof.
  revert v. induction vs as [|x vs IH]; intros v; simpl.
  - split; [apply Qle_refl | constructor].
  - destruct (IH (Qmin v x)) as [H1 H2]. split.
    + eapply Qle_trans; [exact H1 | apply Q.le_min_l].
    + constructor; [|exact H2].
      eapply Qle_trans; [exact H1 | apply Q.le_min_r].
Qed.

Lemma foldl_Qmin_in (vs : list Q) (v : Q) : foldl Qmin v vs ∈ v :: vs.
Proof.
  revert v. induction vs as [|x vs IH]; intros v; simpl.
  - left.
  - specialize (IH (Qmin v x)). apply elem_of_cons in IH as [IH | IH].
    + rewrite IH. unfold Qmin, GenericMinMax.gmin.
      destruct (v ?= x); [left | left | right; left].
    + right; right; exact IH.
Qed.

Lemma foldl_Qmax_ge (vs : list Q) (v : Q) :
  v <= foldl Qmax v vs ∧ Forall (λ x, x <= foldl Qmax v vs) vs.
Proof.
  revert v. induction vs as [|x vs IH]; intros v; simpl.
  - split; [apply Qle_refl | constructor].
  - destruct (IH (Qmax v x)) as [H1 H2]. split.
    + eapply Qle_trans; [apply Q.le_max_l | exact H1].
    + constructor; [|exact H2].
      eapply Qle_trans; [apply Q.le_max_r | exact H1].
Qed.

Lemma foldl_Qmax_in (vs : list Q) (v : Q) : foldl Qmax v vs ∈ v :: vs.
Proof.
  revert v. induction vs as [|x vs IH]; intros v; simpl.
  - left.
  - specialize (IH (Qmax v x)). apply elem_of_cons in IH as [IH | IH].
    + rewrite IH. unfold Qmax, GenericMinMax.gmax.
      destruct (v ?= x); [left | right; left | left].
    + right; right; exact IH.
Qed.

Lemma value_in_values (scores : gmap string Q) (v : Q) :
  v ∈ (map_to_list scores).*2 ↔ ∃ key, scores !! key = Some v.
Proof.
  rewrite list_elem_of_fmap. split.
  - intros [[k w] [-> Hin]]. exists k. by apply elem_of_map_to_list.
  - intros [k Hk]. exists (k, v). split; [done|]. by apply elem_of_map_to_list.
Qed.

(** What [_normalize] computes on a non-empty map. *)
Lemma normalize_nonempty (scores : gmap string Q) :
  scores ≠ ∅ →
  ∃ lo hi, lowest scores lo ∧ highest scores hi ∧
    _normalize scores =
      if Qeq_bool hi lo then (λ _, 1) <$> scores
      else (λ value, (value - lo) / (hi - lo)) <$> scores.
Proof.
  intros Hne. unfold _normalize.
  destruct ((map_to_list scores).*2) as [|v vs] eqn:Hvals.
  { apply fmap_nil_inv in Hvals. by apply map_to_list_empty_iff in Hvals. }
  exists (foldl Qmin v vs), (foldl Qmax v vs). split_and!; [| |done].
  - split.
    + apply value_in_values. rewrite Hvals. apply foldl_Qmin_in.
    + intros k w Hk. assert (Hin : w ∈ v :: vs).
      { rewrite <- Hvals. apply value_in_values. eauto. }
      destruct (foldl_Qmin_le vs v) as [H1 H2].
      apply elem_of_cons in Hin as [-> | Hin]; [done|].
      rewrite Forall_forall in H2. by apply H2.
  - split.
    + apply value_in_values. rewrite Hvals. apply foldl_Qmax_in.
    + intros k w Hk. assert (Hin : w ∈ v :: vs).
      { rewrite <- Hvals. apply value_in_values. eauto. }
      destruct (foldl_Qmax_ge vs v) as [H1 H2].
      apply elem_of_cons in Hin as [-> | Hin]; [done|].
      rewrite Forall_forall in H2. by apply H2.
Qed.

Lemma lowest_unique scores lo lo' :
  lowest scores lo → lowest scores lo' → lo == lo'.
Proof.
  intros [[k Hk] Hlo] [[k' Hk'] Hlo']. apply Qle_antisym; eauto.
Qed.

Lemma highest_unique scores hi hi' :
  highest scores hi → highest scores hi' → hi == hi'.
Proof.
  intros [[k Hk] Hhi] [[k' Hk'] Hhi']. apply Qle_antisym; eauto.
Qed.

Lemma dom_normalize (scores : gmap string Q) :
  dom (_normalize scores) = dom scores.
Proof.
  destruct (decide (scores = ∅)) as [-> | Hne]; [done|].
  destruct (normalize_nonempty scores Hne) as (lo & hi & _ & _ & ->).
  destruct (Qeq_bool hi lo); apply dom_fmap_L.
Qed.

Lemma normalize_lookup (scores : gmap string Q) (key : string) (value : Q) :
  scores !! key = Some value →
  ∃ lo hi w, lowest scores lo ∧ highest scores hi ∧
    _normalize scores !! key = Some w ∧
    (lo == hi → w = 1) ∧ (¬ lo == hi → w = (value - lo) / (hi - lo)).
Proof.
  intros Hk.
  assert (Hne : scores ≠ ∅) by (intros ->; by rewrite lookup_empty in Hk).
  destruct (normalize_nonempty scores Hne) as (lo & hi & Hlo & Hhi & ->).
  exists lo, hi. destruct (Qeq_bool hi lo) eqn:E.
  - exists 1. split_and!; try done.
    + by rewrite lookup_fmap, Hk.
    + intros Hn. apply Qeq_bool_iff in E. symmetry in E. done.
  - exists ((value - lo) / (hi - lo)). split_and!; try done.
    + by rewrite lookup_fmap, Hk.
    + intros Heq. apply Qeq_bool_neq in E. symmetry in Heq. done.
Qed.

Lemma normalize_range (scores : gmap string Q) (key : string) (w : Q) :
  _normalize scores !! key = Some w → 0 <= w <= 1.
Proof.
  intros Hw.
  destruct (scores !! key) as [value|] eqn:Hk.
  2:{ apply not_elem_of_dom in Hk. rewrite <- dom_normalize in Hk.
      apply not_elem_of_dom in Hk. congruence. }
  destruct (normalize_lookup scores key value Hk)
    as (lo & hi & w' & Hlo & Hhi & Hw' & Heq & Hneq).
  rewrite Hw in Hw'. injection Hw' as <-.
  destruct (Qeq_dec lo hi) as [E | E].
  - rewrite (Heq E). lra.
  - rewrite (Hneq E).
    assert (lo <= value) by (eapply Hlo; eauto).
    assert (value <= hi) by (eapply Hhi; eauto).
    assert (0 < hi - lo)
      by (destruct (Qlt_le_dec lo hi); [lra | exfalso; apply E; lra]).
    split.
    + apply Qle_shift_div_l; [done | lra].
    + apply Qle_shift_div_r; [done | lra].
Qed.

Lemma get_normalize_range (raw : gmap string Q) (key : string) :
  0 <= Py.get (_normalize raw) key 0 <= 1.
Proof.
  unfold Py.get. destruct (_normalize raw !! key) as [w|] eqn:Hw; simpl.
  - by eapply normalize_range.
  - lra.
Qed.

Lemma normalize_flat (scores : gmap string Q) (c : Q) (key : string) :
  (∀ k v, scores !! k = Some v → v == c) → is_Some (scores !! key) →
  _normalize scores !! key = Some 1.
Proof.
  intros Hflat [value Hk].
  destruct (normalize_lookup scores key value Hk)
    as (lo & hi & w & [[klo Hlo] _] & [[khi Hhi] _] & Hw & Heq & _).
  rewrite Hw. f_equal. apply Heq.
  rewrite (Hflat _ _ Hlo), (Hflat _ _ Hhi). reflexivity.
Qed.

End normalize.

(** C2: the normaliser returns the empty map on the empty map; on a map
    whose values are all equal it sends every key to 1; otherwise it sends
    the value [v] of each key to [(v - lo) / (hi - lo)], [lo] and [hi] being
    the smallest and the largest value; every value it returns lies in
    [[0,1]], and it keeps the keys. *)
Theorem normalize_contract (scores : gmap string Q) :
  (scores = ∅ → _normalize scores = ∅) ∧
  (scores ≠ ∅ → ∃ lo hi, lowest scores lo ∧ highest scores hi) ∧
  ((∀ key1 value1 key2 value2,
      scores !! key1 = Some value1 → scores !! key2 = Some value2 →
      (value1 == value2)%Q) →
   ∀ key, is_Some (scores !! key) → _normalize scores !! key = Some 1%Q) ∧
  (∀ lo hi, lowest scores lo → highest scores hi → ¬ (lo == hi)%Q →
   ∀ key value, scores !! key = Some value →
     ∃ w, _normalize scores !! key = Some w ∧
          (w == (value - lo) / (hi - lo))%Q) ∧
  (∀ key w, _normalize scores !! key = Some w → (0 <= w <= 1)%Q) ∧
  dom (_normalize scores) = dom scores.
Proof.
  split_and!.
  - by intros ->.
  - intros Hne.
    destruct (normalize_nonempty scores Hne) as (lo & hi & ? & ? & _).
    eauto.
  - intros Hflat key [value Hk].
    destruct (normalize_lookup scores key value Hk)
      as (lo & hi & w & [[klo Hlo] _] & [[khi Hhi] _] & Hw & Heq & _).
    rewrite Hw. f_equal. apply Heq. eauto.
  - intros lo hi Hlo Hhi Hne key value Hk.
    destruct (normalize_lookup scores key value Hk)
      as (lo' & hi' & w & Hlo' & Hhi' & Hw & _ & Hneq).
    exists w. split; [done|].
    pose proof (lowest_unique _ _ _ Hlo Hlo') as El.
    pose proof (highest_unique _ _ _ Hhi Hhi') as Eh.
    rewrite Hneq.
    + by rewrite El, Eh.
    + intros E. apply Hne. by rewrite El, Eh.
  - apply normalize_range.
  - apply dom_normalize.
Qed.

(** ** Candidates and prerequisite gating *)

Lemma split_to_set_empty : _split_to_set EmptyString = ∅.
Proof. reflexivity. Qed.

Lemma elem_of_candidate_courses completed dataset course_id :
  course_id ∈ _candidate_courses completed dataset ↔
  is_Some (courses dataset !! course_id) ∧ course_id ∉ completed.
Proof.
  unfold _candidate_courses. rewrite elem_of_filter, elem_of_dom. tauto.
Qed.

Lemma candidate_courses_subseteq completed dataset :
  _candidate_courses completed dataset ⊆ dom (courses dataset).
Proof.
  intros cid Hin. apply elem_of_candidate_courses in Hin as [Hin _].
  by apply elem_of_dom.
Qed.

Lemma prerequisites_met_spec course_id completed dataset course :
  courses dataset !! course_id = Some course →
  _prerequisites_met course_id completed dataset =
    Ok (bool_decide (prerequisites_of course ⊆ completed)).
Proof.
  intros Hc. unfold _prerequisites_met, Py.item, prerequisites_of.
  rewrite Hc. simpl.
  case_decide as Hp; [|done].
  rewrite Hp, split_to_set_empty. f_equal. symmetry. apply bool_decide_eq_true.
  set_solver.
Qed.

Lemma eligible_courses_spec completed dataset :
  ∃ candidate,
    eligible_courses completed dataset = Ok candidate ∧
    ∀ course_id,
      course_id ∈ candidate ↔
      (∃ course, courses dataset !! course_id = Some course ∧
         (course_id ∉ completed) ∧ prerequisites_of course ⊆ completed).
Proof.
  unfold eligible_courses.
  destruct (filter_each_total
    (λ course_id, _prerequisites_met course_id completed dataset)
    (elements (_candidate_courses completed dataset))) as [kept Hkept].
  { apply Forall_forall. intros cid Hin. apply elem_of_elements in Hin.
    apply elem_of_candidate_courses in Hin as [[course Hc] _].
    rewrite (prerequisites_met_spec _ _ _ _ Hc). eauto. }
  exists (list_to_set kept). rewrite Hkept. simpl. split; [done|].
  intros cid. rewrite elem_of_list_to_set, (filter_each_inv _ _ _ Hkept).
  rewrite elem_of_elements, elem_of_candidate_courses. split.
  - intros [[[course Hc] Hn] Hmet]. exists course.
    rewrite (prerequisites_met_spec _ _ _ _ Hc) in Hmet.
    injection Hmet as Hmet. apply bool_decide_eq_true in Hmet. done.
  - intros (course & Hc & Hn & Hsub). split; [eauto|].
    rewrite (prerequisites_met_spec _ _ _ _ Hc). f_equal.
    by apply bool_decide_eq_true.
Qed.

Lemma eligible_courses_subseteq completed dataset candidate :
  eligible_courses completed dataset = Ok candidate →
  candidate ⊆ dom (courses dataset).
Proof.
  intros H.
  destruct (eligible_courses_spec completed dataset) as (c & Hc & Hspec).
  rewrite H in Hc. injection Hc as <-. intros cid Hin.
  apply Hspec in Hin as (course & Hcourse & _). apply elem_of_dom. eauto.
Qed.

(** ** The content scorer *)

Section content_scorer.
Local Open Scope Q_scope.

Lemma get_empty (key : string) : Py.get (∅ : gmap string Q) key 0 = 0.
Proof. unfold Py.get. by rewrite lookup_empty. Qed.

Lemma foldl_add_zero {A : Type} (g : A → Q) (l : list A) (init : Q) :
  (∀ x, g x == 0) → foldl (λ score x, score + g x) init l == init.
Proof.
  intros Hg. revert init. induction l as [|x l IH]; intros init; simpl.
  - reflexivity.
  - rewrite IH, Hg. lra.
Qed.

Lemma content_score_of_empty dataset id course category :
  content_score_of ∅ dataset id course category == 0.
Proof.
  unfold content_score_of.
  rewrite (foldl_add_zero
    (λ term, 0.1 * Py.get ∅ ("term::" +:+ Py.lower term) 0)).
  2:{ intros term. rewrite get_empty. lra. }
  rewrite (foldl_add_zero (λ skill, Py.get ∅ skill 0)).
  2:{ intros skill. by rewrite get_empty. }
  rewrite !get_empty. lra.
Qed.

End content_scorer.

Lemma score_course_Ok profile dataset scores course_id course category :
  courses dataset !! course_id = Some course →
  course !! "category" = Some category →
  score_course profile dataset scores course_id =
    Ok (<[course_id :=
            content_score_of profile dataset course_id course category]>
          scores).
Proof.
  intros Hc Hcat. unfold score_course.
  rewrite (item_Some _ _ _ Hc). simpl.
  by rewrite (item_Some _ _ _ Hcat).
Qed.

Lemma score_content_loop profile dataset (l : list string)
    (scores out : gmap string Q) :
  for_each (score_course profile dataset) l scores = Ok out →
  ∀ course_id,
    (course_id ∈ l →
     ∃ course category,
       courses dataset !! course_id = Some course ∧
       course !! "category" = Some category ∧
       out !! course_id =
         Some (content_score_of profile dataset course_id course category)) ∧
    (course_id ∉ l → out !! course_id = scores !! course_id).
Proof.
  revert scores. induction l as [|x l IH]; intros scores H cid; simpl in H.
  - injection H as <-.
    split; [intros Hin; by apply not_elem_of_nil in Hin | done].
  - inv_bind H. rename a into scores'. unfold score_course in E.
    inv_bind E. rename a into course, E0 into Hx.
    inv_bind E. rename a into category, E0 into Hcat.
    simpl in E. injection E as <-.
    unfold Py.item in Hx, Hcat.
    destruct (courses dataset !! x) as [c|] eqn:Hcx; [|discriminate].
    injection Hx as ->.
    destruct (course !! "category") as [c|] eqn:Hcc; [|discriminate].
    injection Hcat as ->.
    destruct (IH _ H cid) as [IH1 IH2]. split.
    + intros Hin. destruct (decide (cid ∈ l)) as [Hl | Hl]; [by apply IH1|].
      apply elem_of_cons in Hin as [Heq | Hin]; [subst cid|done].
      exists course, category. split_and!; try done.
      rewrite (IH2 Hl). by rewrite lookup_insert_eq.
    + intros Hnin. rewrite not_elem_of_cons in Hnin.
      destruct Hnin as [Hne Hnin].
      rewrite (IH2 Hnin). by rewrite lookup_insert_ne.
Qed.

Lemma score_content_inv candidate profile dataset raw :
  _score_content candidate profile dataset = Ok raw →
  ∀ course_id,
    (course_id ∈ candidate →
     ∃ course category,
       courses dataset !! course_id = Some course ∧
       course !! "category" = Some category ∧
       raw !! course_id =
         Some (content_score_of profile dataset course_id course category)) ∧
    (course_id ∉ candidate → raw !! course_id = None).
Proof.
  intros H cid. destruct (score_content_loop _ _ _ _ _ H cid) as [H1 H2].
  rewrite elem_of_elements in H1, H2. split; [done|].
  intros Hn. by rewrite (H2 Hn), lookup_empty.
Qed.

Lemma dom_score_content candidate profile dataset raw :
  _score_content candidate profile dataset = Ok raw → dom raw = candidate.
Proof.
  intros H. apply set_eq. intros cid. rewrite elem_of_dom.
  destruct (score_content_inv _ _ _ _ H cid) as [H1 H2].
  destruct (decide (cid ∈ candidate)) as [Hin | Hnin].
  - destruct (H1 Hin) as (? & ? & _ & _ & ->). split; eauto.
  - rewrite (H2 Hnin). split; [by intros [? ?] | done].
Qed.

Lemma score_content_total candidate profile dataset :
  well_formed dataset → candidate ⊆ dom (courses dataset) →
  ∃ raw, _score_content candidate profile dataset = Ok raw.
Proof.
  intros Hwf Hsub. unfold _score_content.
  assert (Hl : Forall (λ cid, cid ∈ dom (courses dataset))
                 (elements candidate)).
  { apply Forall_forall. intros cid Hin. apply Hsub.
    by apply elem_of_elements. }
  generalize (∅ : gmap string Q).
  induction Hl as [|x l Hx _ IH]; intros scores; simpl; [eauto|].
  apply elem_of_dom in Hx as [course Hc].
  destruct (Hwf _ _ Hc) as [category Hcat].
  rewrite (score_course_Ok _ _ _ _ _ _ Hc Hcat). simpl. apply IH.
Qed.

Lemma content_profile_total course_ids dataset :
  well_formed dataset →
  ∃ profile, _content_profile_from_courses course_ids dataset = Ok profile.
Proof.
  intros Hwf. unfold _content_profile_from_courses.
  generalize (∅ : gmap string Q).
  induction (elements course_ids) as [|x l IH]; intros profile; simpl; [eauto|].
  destruct (courses dataset !! x) as [course|] eqn:Hc; simpl; [|apply IH].
  case_decide; simpl; [apply IH|].
  destruct (Hwf _ _ Hc) as [category Hcat].
  rewrite (item_Some _ _ _ Hcat). simpl. apply IH.
Qed.

(** ** The blend *)

Lemma foldl_insert_lookup {V : Type} (f : string → V) (l : list string)
    (m : gmap string V) (k : string) :
  foldl (λ acc x, <[x := f x]> acc) m l !! k =
    if decide (k ∈ l) then Some (f k) else m !! k.
Proof.
  revert m. induction l as [|x l IH]; intros m; simpl.
  - done.
  - rewrite IH. destruct (decide (k ∈ l)) as [Hin | Hnin].
    + by rewrite decide_True by (by right).
    + destruct (decide (k = x)) as [-> | Hne].
      * rewrite decide_True by left. by rewrite lookup_insert_eq.
      * rewrite decide_False by (rewrite elem_of_cons; tauto).
        by rewrite lookup_insert_ne.
Qed.

Lemma combine_lookup w_content w_collab candidate content collab course_id :
  combine w_content w_collab candidate content collab !! course_id =
    if decide (course_id ∈ candidate)
    then Some (w_content * Py.get content course_id 0
               + w_collab * Py.get collab course_id 0)%Q
    else None.
Proof.
  unfold combine.
  rewrite (foldl_insert_lookup
    (λ x, (w_content * Py.get content x 0 + w_collab * Py.get collab x 0)%Q)).
  rewrite lookup_empty.
  destruct (decide (course_id ∈ candidate)) as [H|H].
  - by rewrite decide_True by (by apply elem_of_elements).
  - by rewrite decide_False by (by rewrite elem_of_elements).
Qed.

Lemma dom_combine w_content w_collab candidate content collab :
  dom (combine w_content w_collab candidate content collab) = candidate.
Proof.
  apply set_eq. intros cid. rewrite elem_of_dom, combine_lookup.
  case_decide; split; try done; eauto.
Qed.

(** ** The ranking order *)

Section ranking.
Local Open Scope Q_scope.

Lemma key_lt_spec (k1 k2 : Q * string) :
  key_lt k1 k2 = true ↔
  k1.1 < k2.1 ∨ (k1.1 == k2.1 ∧ String.ltb k1.2 k2.2 = true).
Proof.
  unfold key_lt. destruct (k1.1 ?= k2.1) eqn:E.
  - apply Qeq_alt in E. split; [auto|]. intros [H | [_ H]]; [lra | done].
  - apply Qlt_alt in E. split; [auto | done].
  - apply Qgt_alt in E. split; [done|]. intros [H | [H _]]; lra.
Qed.

Global Instance ranks_before_total : Total ranks_before.
Proof.
  intros x y. unfold ranks_before.
  destruct (key_lt (rank_key y) (rank_key x)) eqn:E; [right | by left].
  apply key_lt_spec in E.
  destruct (key_lt (rank_key x) (rank_key y)) eqn:E'; [|done].
  apply key_lt_spec in E'. exfalso.
  destruct E as [E | [E1 E2]], E' as [E' | [E1' E2']]; try lra.
  apply string_ltb_asym in E2. congruence.
Qed.

Global Instance ranks_before_trans : Transitive ranks_before.
Proof.
  intros x y z. unfold ranks_before. intros Hxy Hyz.
  destruct (key_lt (rank_key z) (rank_key x)) eqn:E; [|done]. exfalso.
  apply key_lt_spec in E.
  apply not_true_iff_false in Hxy, Hyz. rewrite key_lt_spec in Hxy, Hyz.
  destruct (Qlt_le_dec (rank_key y).1 (rank_key x).1) as [H1 | H1]; [tauto|].
  destruct (Qlt_le_dec (rank_key z).1 (rank_key y).1) as [H2 | H2]; [tauto|].
  destruct E as [E | [E1 E2]]; [lra|].
  assert (Hxy1 : (rank_key y).1 == (rank_key x).1) by lra.
  assert (Hyz1 : (rank_key z).1 == (rank_key y).1) by lra.
  destruct (decide ((rank_key y).2 = (rank_key x).2)) as [Heq | Hne].
  { rewrite <- Heq in E2. tauto. }
  destruct (string_ltb_total _ _ Hne) as [Hlt | Hlt]; [tauto|].
  pose proof (string_ltb_trans _ _ _ E2 Hlt). tauto.
Qed.

Lemma ranks_before_score (x y : string * Q) : ranks_before x y → y.2 <= x.2.
Proof.
unfold ranks_before. intros H.
apply not_true_iff_false in H. rewrite key_lt_spec in H.
unfold rank_key in H. simpl in H.
destruct (Qlt_le_dec x.2 y.2) as [Hlt | Hle]; [|done].
exfalso. apply H. left. lra.
Qed.

Lemma ranks_before_outranks (combined : gmap string Q) (x y : string * Q) :
  combined !! x.1 = Some x.2 → combined !! y.1 = Some y.2 → x.1 ≠ y.1 →
  ranks_before x y → outranks combined x.1 y.1.
Proof.
  intros Hx Hy Hne. unfold ranks_before, outranks, Py.get.
  rewrite Hx, Hy. simpl. intros H.
  apply not_true_iff_false in H. rewrite key_lt_spec in H.
  unfold rank_key in H. simpl in H.
  destruct (Qlt_le_dec y.2 x.2) as [Hlt | Hle]; [by left|].
  right. assert (Heq : x.2 == y.2).
  { apply Qle_antisym; [done|].
    destruct (Qlt_le_dec x.2 y.2) as [Hlt|]; [|done].
    exfalso. apply H. left. lra. }
  split; [done|].
  destruct (string_ltb_total _ _ Hne) as [Hlt | Hlt]; [done|].
  exfalso. apply H. right. split; [lra | done].
Qed.

Global Instance outranks_antisymm combined : AntiSymm (=) (outranks combined).
Proof.
  intros a b [H1 | [H1 H1']] [H2 | [H2 H2']]; try lra.
  apply string_ltb_asym in H1'. congruence.
Qed.

Global Instance outranks_trans combined : Transitive (outranks combined).
Proof.
  intros a b c [H1 | [H1 H1']] [H2 | [H2 H2']]; unfold outranks.
  - left; lra.
  - left; lra.
  - left; lra.
  - right. split; [lra|]. by eapply string_ltb_trans.
Qed.

Lemma outranks_irrefl combined a : ¬ outranks combined a a.
Proof. intros [H | [_ H]]; [lra | by rewrite string_ltb_irrefl in H]. Qed.

Lemma outranks_total combined a b :
  a ≠ b → outranks combined a b ∨ outranks combined b a.
Proof.
  intros Hne. unfold outranks.
  destruct (Qlt_le_dec (Py.get combined b 0) (Py.get combined a 0)); [auto|].
  destruct (Qlt_le_dec (Py.get combined a 0) (Py.get combined b 0)); [auto|].
  destruct (string_ltb_total _ _ Hne); [left | right]; right; split;
    (lra || done).
Qed.

(** The ranked identifiers before truncation. *)
Lemma ranked_ids_sorted (combined : gmap string Q) :
  let ranked := merge_sort ranks_before (map_to_list combined) in
  ranked.*1 ≡ₚ elements (dom combined) ∧
  StronglySorted (outranks combined) ranked.*1.
Proof.
  intros ranked.
  assert (Hperm : ranked ≡ₚ map_to_list combined)
    by apply merge_sort_Permutation.
  assert (Hnd : NoDup ranked.*1).
  { rewrite Hperm. apply NoDup_fst_map_to_list. }
  assert (Hin : ∀ x, x ∈ ranked → combined !! x.1 = Some x.2).
  { intros [k v] Hx. rewrite Hperm in Hx. by apply elem_of_map_to_list. }
  split.
  - rewrite Hperm. apply NoDup_Permutation.
    + apply NoDup_fst_map_to_list.
    + apply NoDup_elements.
    + intros k. rewrite elem_of_elements, elem_of_dom, list_elem_of_fmap.
      split.
      * intros [[k' v] [-> Hkv]]. apply elem_of_map_to_list in Hkv. eauto.
      * intros [v Hv]. exists (k, v). split; [done|].
        by apply elem_of_map_to_list.
  - assert (Hs : StronglySorted ranks_before ranked).
    { apply StronglySorted_merge_sort; apply _. }
    clearbody ranked. clear Hperm.
    induction Hs as [|x l Hs IH Hall]; simpl; [constructor|].
    apply NoDup_cons in Hnd as [Hx Hnd]. constructor.
    + apply IH; [done|]. intros y Hy. apply Hin. by right.
    + apply Forall_fmap. rewrite Forall_forall in Hall |- *.
      intros y Hy. simpl. apply ranks_before_outranks.
      * apply Hin. left.
      * apply Hin. by right.
      * intros Heq. apply Hx. rewrite Heq. by apply list_elem_of_fmap_2.
      * by apply Hall.
Qed.

End ranking.

Lemma is_ranking_unique combined top_n ids ids' :
  is_ranking combined top_n ids → is_ranking combined top_n ids' → ids = ids'.
Proof.
  intros (full & Hp & Hs & ->) (full' & Hp' & Hs' & ->).
  f_equal. apply (StronglySorted_unique (outranks combined)); [done | done|].
  by rewrite Hp, Hp'.
Qed.

Lemma is_ranking_sorted combined top_n ids :
  is_ranking combined top_n ids → StronglySorted (outranks combined) ids.
Proof. intros (full & _ & Hs & ->). by apply StronglySorted_slice_to. Qed.

(** ** The payload builder *)

Lemma payload_unfold combined content collab dataset top_n :
  _build_recommendation_payload combined content collab dataset top_n =
  for_each
    (λ results item,
       record ← build_record item.1 item.2 content collab dataset;
       Ok (results ++ [record]))
    (ranked_items combined top_n) [].
Proof.
  unfold _build_recommendation_payload, ranked_items.
  apply for_each_ext. by intros results [cid score].
Qed.

Lemma payload_inv combined content collab dataset top_n l :
  _build_recommendation_payload combined content collab dataset top_n = Ok l →
  Forall2 (λ item r, build_record item.1 item.2 content collab dataset = Ok r)
    (ranked_items combined top_n) l.
Proof.
  rewrite payload_unfold. intros H.
  apply (for_each_collect_inv
    (λ item, build_record item.1 item.2 content collab dataset)) in H
    as (rs & -> & Hrs).
  done.
Qed.

Lemma build_record_inv cid score content collab dataset r :
  build_record cid score content collab dataset = Ok r →
  ∃ course, courses dataset !! cid = Some course ∧
    course_id r = cid ∧
    combined_score r = Py.round score 3 ∧
    content_score r = Py.round (Py.get content cid 0%Q) 3 ∧
    collab_score r = Py.round (Py.get collab cid 0%Q) 3 ∧
    skills r =
      Py.sorted_strs (elements (Py.get (course_skill_tags dataset) cid ∅)) ∧
    explanation r =
      _build_explanation cid (Py.get content cid 0%Q) (Py.get collab cid 0%Q)
        (skills r) dataset.
Proof.
  unfold build_record. intros H. inv_bind H. apply item_Ok_inv in E.
  simpl in H. injection H as <-. exists a. by split_and!.
Qed.

Lemma ranked_items_in combined top_n item :
  item ∈ ranked_items combined top_n → combined !! item.1 = Some item.2.
Proof.
  intros H. apply elem_of_slice_to in H.
  rewrite merge_sort_Permutation in H. destruct item.
  by apply elem_of_map_to_list.
Qed.

Lemma payload_ids combined content collab dataset top_n l :
  _build_recommendation_payload combined content collab dataset top_n = Ok l →
  course_id <$> l = (ranked_items combined top_n).*1.
Proof.
  intros H. apply payload_inv in H.
  induction H as [|item r items l Hr _ IH]; [done|].
  rewrite !fmap_cons, IH.
  apply build_record_inv in Hr as (_ & _ & -> & _). done.
Qed.

Lemma payload_total combined content collab dataset top_n :
  dom combined ⊆ dom (courses dataset) →
  ∃ l, _build_recommendation_payload combined content collab dataset top_n
       = Ok l.
Proof.
  intros Hsub. rewrite payload_unfold.
  apply (for_each_collect_total
    (λ item, build_record item.1 item.2 content collab dataset)).
  apply Forall_forall. intros item Hin. apply ranked_items_in in Hin.
  assert (Hd : item.1 ∈ dom (courses dataset)).
  { apply Hsub. apply elem_of_dom. eauto. }
  apply elem_of_dom in Hd as [course Hc].
  unfold build_record. rewrite (item_Some _ _ _ Hc). simpl. eauto.
Qed.

Lemma payload_record combined content collab dataset top_n l r :
  _build_recommendation_payload combined content collab dataset top_n = Ok l →
  r ∈ l →
  ∃ score, combined !! course_id r = Some score ∧
    build_record (course_id r) score content collab dataset = Ok r.
Proof.
  intros H Hr. apply payload_inv in H.
  apply list_elem_of_lookup in Hr as [i Hi].
  destruct (Forall2_lookup_r _ _ _ _ _ H Hi) as (item & Hitem & Hrec).
  pose proof Hrec as Hrec'.
  apply build_record_inv in Hrec' as (_ & _ & Hid & _).
  rewrite Hid. exists item.2. split; [|done].
  apply (ranked_items_in _ top_n). by eapply list_elem_of_lookup_2.
Qed.

Lemma payload_is_ranking combined content collab dataset top_n l :
  _build_recommendation_payload combined content collab dataset top_n = Ok l →
  is_ranking combined top_n (course_id <$> l).
Proof.
  intros H. apply payload_ids in H. rewrite H. unfold ranked_items.
  destruct (ranked_ids_sorted combined) as [Hperm Hsorted].
  exists (merge_sort ranks_before (map_to_list combined)).*1.
  split_and!; [done | done | apply fmap_slice_to].
Qed.

Lemma payload_length combined content collab dataset top_n l :
  _build_recommendation_payload combined content collab dataset top_n = Ok l →
  (0 ≤ top_n)%Z →
  length l = Nat.min (Z.to_nat top_n) (size (dom combined)).
Proof.
  intros H Hn. apply payload_ids in H.
  rewrite <- (length_fmap course_id), H, length_fmap. unfold ranked_items.
  rewrite length_slice_to_nonneg by done.
  rewrite merge_sort_Permutation, length_map_to_list. by rewrite size_dom.
Qed.

Lemma payload_all combined content collab dataset top_n l :
  _build_recommendation_payload combined content collab dataset top_n = Ok l →
  (Z.of_nat (size (dom combined)) ≤ top_n)%Z →
  course_id <$> l ≡ₚ elements (dom combined).
Proof.
  intros H Hn. apply payload_ids in H. rewrite H. unfold ranked_items.
  rewrite slice_to_all.
  - apply ranked_ids_sorted.
  - rewrite merge_sort_Permutation, length_map_to_list. by rewrite <- size_dom.
Qed.

Lemma payload_scored_by combined content collab dataset top_n l :
  _build_recommendation_payload combined content collab dataset top_n = Ok l →
  scored_by combined l.
Proof.
  intros H r Hr.
  destruct (payload_record _ _ _ _ _ _ _ H Hr) as (score & Hs & Hb).
  exists score. split; [done|].
  by apply build_record_inv in Hb as (_ & _ & _ & ? & _).
Qed.

Lemma payload_scores_descend combined content collab dataset top_n l :
_build_recommendation_payload combined content collab dataset top_n = Ok l →
scores_descend l.
Proof.
intros H. apply payload_inv in H.
assert (Hs : StronglySorted ranks_before (ranked_items combined top_n)).
{ apply StronglySorted_slice_to, StronglySorted_merge_sort; apply _. }
unfold scores_descend.
induction H as [|item r items l Hr Hrest IH]; [constructor|].
apply StronglySorted_cons in Hs as [Hall Hs].
constructor; [by apply IH|].
apply build_record_inv in Hr as (_ & _ & _ & Hr & _).
clear IH Hs. induction Hrest as [|item' r' items l Hr' _ IH]; [constructor|].
apply Forall_cons in Hall as [Hfirst Hall].
constructor; [|by apply IH].
apply build_record_inv in Hr' as (_ & _ & _ & Hr' & _).
rewrite Hr, Hr'. apply round_mono. by apply ranks_before_score.
Qed.

(** ** The two entry points *)

Lemma history_scores_blended dataset student_id completed candidate
    combined content collab :
  history_scores dataset student_id completed candidate
    = Ok (combined, content, collab) →
  blended 0.6 0.4 candidate combined content collab.
Proof.
  unfold history_scores. intros H. inv_bind H. inv_bind H.
  simpl in H. injection H as <- <- <-. split; [|eauto|done].
  eexists. split; [done|]. by eapply dom_score_content.
Qed.

Lemma interest_scores_blended dataset interest_tags candidate
    combined content collab :
  interest_scores dataset interest_tags candidate
    = Ok (combined, content, collab) →
  blended 0.7 0.3 candidate combined content collab.
Proof.
  unfold interest_scores. intros H. inv_bind H.
  simpl in H. injection H as <- <- <-. split; [|eauto|done].
  eexists. split; [done|]. by eapply dom_score_content.
Qed.

Lemma history_scores_total dataset student_id completed candidate :
  well_formed dataset → candidate ⊆ dom (courses dataset) →
  ∃ scores, history_scores dataset student_id completed candidate = Ok scores.
Proof.
  intros Hwf Hsub. unfold history_scores.
  destruct (content_profile_total completed dataset Hwf) as [profile ->]. simpl.
  destruct (score_content_total candidate profile dataset Hwf Hsub) as [raw ->].
  simpl. eauto.
Qed.

Lemma interest_scores_total dataset interest_tags candidate :
  well_formed dataset → candidate ⊆ dom (courses dataset) →
  ∃ scores, interest_scores dataset interest_tags candidate = Ok scores.
Proof.
  intros Hwf Hsub. unfold interest_scores.
  destruct (score_content_total candidate (interest_profile interest_tags)
              dataset Hwf Hsub) as [raw ->].
  simpl. eauto.
Qed.

Lemma recommend_for_student_inv dataset student_id top_n l :
  recommend_for_student dataset student_id top_n = Ok l →
  ∃ candidate,
    eligible_courses
      (Py.get (student_completed_courses dataset) student_id ∅) dataset
      = Ok candidate ∧
    ((candidate = ∅ ∧ l = []) ∨
     (candidate ≠ ∅ ∧
      ∃ combined content collab,
        history_scores dataset student_id
          (Py.get (student_completed_courses dataset) student_id ∅) candidate
          = Ok (combined, content, collab) ∧
        _build_recommendation_payload combined content collab dataset top_n
          = Ok l)).
Proof.
  unfold recommend_for_student. intros H. inv_bind H. exists a. split; [done|].
  case_decide as Hc.
  - left. by injection H as <-.
  - right. split; [done|]. inv_bind H.
    destruct a0 as [[combined content] collab].
    eauto.
Qed.

Lemma recommend_for_interests_inv dataset interest_tags top_n l :
  recommend_for_interests dataset interest_tags top_n = Ok l →
  (_candidate_courses ∅ dataset = ∅ ∧ l = []) ∨
  (_candidate_courses ∅ dataset ≠ ∅ ∧
   ∃ combined content collab,
     interest_scores dataset interest_tags (_candidate_courses ∅ dataset)
       = Ok (combined, content, collab) ∧
     _build_recommendation_payload combined content collab dataset top_n
       = Ok l).
Proof.
  unfold recommend_for_interests. intros H. case_decide as Hc.
  - left. by injection H as <-.
  - right. split; [done|]. inv_bind H.
    destruct a as [[combined content] collab].
    eauto.
Qed.

Lemma recommend_for_student_total dataset student_id top_n :
  well_formed dataset →
  ∃ l, recommend_for_student dataset student_id top_n = Ok l.
Proof.
  intros Hwf. unfold recommend_for_student.
  destruct (eligible_courses_spec
    (Py.get (student_completed_courses dataset) student_id ∅) dataset)
    as (candidate & Hc & _).
  rewrite Hc. simpl. case_decide; [eauto|].
  pose proof (eligible_courses_subseteq _ _ _ Hc) as Hsub.
  destruct (history_scores_total dataset student_id
    (Py.get (student_completed_courses dataset) student_id ∅) candidate Hwf
    Hsub)
    as [[[combined content] collab] Hs].
  rewrite Hs. simpl. apply payload_total.
  apply history_scores_blended in Hs as [_ _ ->]. by rewrite dom_combine.
Qed.

Lemma recommend_for_interests_total dataset interest_tags top_n :
  well_formed dataset →
  ∃ l, recommend_for_interests dataset interest_tags top_n = Ok l.
Proof.
  intros Hwf. unfold recommend_for_interests. case_decide; [eauto|].
  pose proof (candidate_courses_subseteq ∅ dataset) as Hsub.
  destruct (interest_scores_total dataset interest_tags _ Hwf Hsub)
    as [[[combined content] collab] Hs].
  rewrite Hs. simpl. apply payload_total.
  apply interest_scores_blended in Hs as [_ _ ->]. by rewrite dom_combine.
Qed.

Lemma sample_well_formed : well_formed sample.
Proof.
  unfold well_formed. apply (bool_decide_unpack _). vm_compute. exact I.
Qed.

(** ** Ranking and truncation *)

(** C3: in both entry modes the returned list follows the combined score
    the request computed, highest first, equal scores by ascending course
    identifier: it is the [top_n] cut of an arrangement of all candidates in
    which each one outranks those after it.  That order is total on
    distinct identifiers and asymmetric, so the arrangement, and with it the
    answer, is unique.  The rounded scores shown in the records never
    increase down the list. *)
Theorem ranking_total_and_deterministic (dataset : SyntheticDataset)
    (top_n : Z) :
  (∀ student_id l,
     recommend_for_student dataset student_id top_n = Ok l →
     l = [] ∨
     ∃ candidate combined content collab,
       eligible_courses
         (Py.get (student_completed_courses dataset) student_id ∅) dataset
         = Ok candidate ∧
       history_scores dataset student_id
         (Py.get (student_completed_courses dataset) student_id ∅) candidate
         = Ok (combined, content, collab) ∧
       scored_by combined l ∧
       is_ranking combined top_n (course_id <$> l) ∧
       scores_descend l) ∧
  (∀ interest_tags l,
     recommend_for_interests dataset interest_tags top_n = Ok l →
     l = [] ∨
     ∃ combined content collab,
       interest_scores dataset interest_tags (_candidate_courses ∅ dataset)
         = Ok (combined, content, collab) ∧
       scored_by combined l ∧
       is_ranking combined top_n (course_id <$> l) ∧
       scores_descend l) ∧
  (∀ combined ids,
     is_ranking combined top_n ids → StronglySorted (outranks combined) ids) ∧
  (∀ combined ids ids',
     is_ranking combined top_n ids → is_ranking combined top_n ids' →
     ids = ids') ∧
  (∀ combined a b, a ≠ b → outranks combined a b ∨ outranks combined b a) ∧
  (∀ combined a b, outranks combined a b → ¬ outranks combined b a).
Proof.
  split_and!.
  - intros student_id l H.
    apply recommend_for_student_inv in H
      as (candidate & Hc
          & [[_ ->] | (_ & combined & content & collab & Hs & Hp)]);
      [by left | right].
    exists candidate, combined, content, collab.
    split_and!; [done | done | | |].
    + by eapply payload_scored_by.
    + by eapply payload_is_ranking.
    + by eapply payload_scores_descend.
  - intros interest_tags l H.
    apply recommend_for_interests_inv in H
      as [[_ ->] | (_ & combined & content & collab & Hs & Hp)];
      [by left | right].
    exists combined, content, collab. split_and!; [done | | |].
    + by eapply payload_scored_by.
    + by eapply payload_is_ranking.
    + by eapply payload_scores_descend.
  - intros combined ids. apply is_ranking_sorted.
  - intros combined ids ids'. apply is_ranking_unique.
  - intros combined a b. apply outranks_total.
  - intros combined a b Hab Hba.
    pose proof (anti_symm (outranks combined) a b Hab Hba) as ->.
    by apply outranks_irrefl in Hab.
Qed.

(** C5: for [top_n >= 0] a request returns [min(top_n, candidates)]
    records: none for [top_n = 0], and when [top_n] reaches the number of
    candidates exactly the candidates, each once, with no padding.  In
    history mode the candidates are the eligible courses, in interest mode
    all courses. *)
Theorem top_n_truncation (dataset : SyntheticDataset) (top_n : Z) :
  well_formed dataset → (0 ≤ top_n)%Z →
  (∀ student_id,
     ∃ candidate l,
       eligible_courses
         (Py.get (student_completed_courses dataset) student_id ∅) dataset
         = Ok candidate ∧
       recommend_for_student dataset student_id top_n = Ok l ∧
       length l = Nat.min (Z.to_nat top_n) (size candidate) ∧
       (top_n = 0%Z → l = []) ∧
       ((Z.of_nat (size candidate) ≤ top_n)%Z →
        length l = size candidate ∧ course_id <$> l ≡ₚ elements candidate)) ∧
  (∀ interest_tags,
     ∃ l,
       recommend_for_interests dataset interest_tags top_n = Ok l ∧
       length l
         = Nat.min (Z.to_nat top_n) (size (_candidate_courses ∅ dataset)) ∧
       (top_n = 0%Z → l = []) ∧
       ((Z.of_nat (size (_candidate_courses ∅ dataset)) ≤ top_n)%Z →
        length l = size (_candidate_courses ∅ dataset) ∧
        course_id <$> l ≡ₚ elements (_candidate_courses ∅ dataset))).
Proof.
  intros Hwf Hn. split.
  - intros student_id.
    destruct (recommend_for_student_total dataset student_id top_n Hwf)
      as [l Hl].
    pose proof Hl as Hl'.
    apply recommend_for_student_inv in Hl'
      as (candidate & Hc
          & [[-> ->] | (_ & combined & content & collab & Hs & Hp)]).
    { exists ∅, []. rewrite size_empty, elements_empty.
      split_and!; try done. simpl; lia. }
    exists candidate, l.
    apply history_scores_blended in Hs as [_ _ Hcomb].
    assert (Hdom : dom combined = candidate)
      by (rewrite Hcomb; apply dom_combine).
    assert (Hlen : length l = Nat.min (Z.to_nat top_n) (size candidate)).
    { rewrite <- Hdom. by eapply payload_length. }
    split_and!; try done.
    + intros ->. destruct l; [done | simpl in Hlen; lia].
    + intros Hge. split; [lia|]. rewrite <- Hdom. eapply payload_all; [done|].
      by rewrite Hdom.
  - intros interest_tags.
    destruct (recommend_for_interests_total dataset interest_tags top_n Hwf)
      as [l Hl].
    pose proof Hl as Hl'.
    apply recommend_for_interests_inv in Hl'
      as [[Hc ->] | (_ & combined & content & collab & Hs & Hp)].
    { exists []. rewrite Hc, size_empty, elements_empty.
      split_and!; try done. simpl; lia. }
    exists l.
    apply interest_scores_blended in Hs as [_ _ Hcomb].
    assert (Hdom : dom combined = _candidate_courses ∅ dataset)
      by (rewrite Hcomb; apply dom_combine).
    assert (Hlen : length l
      = Nat.min (Z.to_nat top_n) (size (_candidate_courses ∅ dataset))).
    { rewrite <- Hdom. by eapply payload_length. }
    split_and!; try done.
    + intros ->. destruct l; [done | simpl in Hlen; lia].
    + intros Hge. split; [lia|]. rewrite <- Hdom. eapply payload_all; [done|].
      by rewrite Hdom.
Qed.

(** On the sample, with [top_n = 1]: one record in either mode. *)
Lemma top_n_truncation_witness :
  (∃ candidate l,
     eligible_courses (Py.get (student_completed_courses sample) "ann" ∅) sample
       = Ok candidate ∧
     recommend_for_student sample "ann" 1 = Ok l ∧
     length l = Nat.min (Z.to_nat 1) (size candidate)) ∧
  (∃ l,
     recommend_for_interests sample ["ml"] 1 = Ok l ∧
     length l = Nat.min (Z.to_nat 1) (size (_candidate_courses ∅ sample))).
Proof.
  destruct (top_n_truncation sample 1 sample_well_formed ltac:(lia)) as [Hs Hi].
  split.
  - destruct (Hs "ann") as (candidate & l & ? & ? & ? & _). eauto.
  - destruct (Hi ["ml"]) as (l & ? & ? & _). eauto.
Defined.

(** ** Requests without evidence *)

Lemma StronglySorted_impl_elem {A : Type} (R R' : relation A) (l : list A) :
  (∀ a b, a ∈ l → b ∈ l → R a b → R' a b) →
  StronglySorted R l → StronglySorted R' l.
Proof.
  intros Himpl Hs. induction Hs as [|x l Hs IH Hall]; [constructor|].
  constructor.
  - apply IH. intros a b Ha Hb. apply Himpl; by right.
  - rewrite Forall_forall in Hall |- *. intros y Hy.
    apply Himpl; [left | by right | by apply Hall].
Qed.

Lemma StronglySorted_NoDup_impl {A : Type} (R R' : relation A) (l : list A) :
  (∀ a b, a ≠ b → R a b → R' a b) →
  NoDup l → StronglySorted R l → StronglySorted R' l.
Proof.
  intros Himpl Hnd Hs. induction Hs as [|x l Hs IH Hall]; [constructor|].
  apply NoDup_cons in Hnd as [Hx Hnd]. constructor; [by apply IH|].
  rewrite Forall_forall in Hall |- *. intros y Hy.
  apply Himpl; [|by apply Hall]. intros ->. done.
Qed.

Lemma sorted_strs_ascending (tags : gset string) :
  ascending (Py.sorted_strs (elements tags)).
Proof.
  unfold ascending, Py.sorted_strs.
  apply (StronglySorted_NoDup_impl Py.str_le).
  - intros a b Hne Hle.
    destruct (string_ltb_total a b Hne) as [Hlt | Hgt]; [done|].
    unfold Py.str_le, String.leb in Hle. unfold String.ltb in Hgt |- *.
    rewrite (String.compare_antisym a b) in Hle.
    by destruct (String.compare b a).
  - rewrite merge_sort_Permutation. apply NoDup_elements.
  - apply StronglySorted_merge_sort; apply _.
Qed.

Lemma elem_of_sorted_strs (tags : gset string) (tag : string) :
  tag ∈ Py.sorted_strs (elements tags) ↔ tag ∈ tags.
Proof.
  unfold Py.sorted_strs. by rewrite merge_sort_Permutation, elem_of_elements.
Qed.

Section cold_start.
Local Open Scope Q_scope.

(** When every candidate has content score 1 and no collaborative score,
    every record shows the content weight and the list runs by identifier. *)
Lemma flat_request w_content w_collab candidate combined content collab
    dataset top_n l :
  blended w_content w_collab candidate combined content collab →
  (∀ id, id ∈ candidate → content !! id = Some 1) → collab = ∅ →
  _build_recommendation_payload combined content collab dataset top_n = Ok l →
  (∀ r, r ∈ l →
     content_score r = Py.round 1 3 ∧ collab_score r = Py.round 0 3 ∧
     combined_score r = Py.round (w_content * 1 + w_collab * 0) 3) ∧
  ascending (course_id <$> l).
Proof.
  intros [_ _ Hcomb] Hone -> Hp.
  assert (Hscore : ∀ id, id ∈ candidate →
            combined !! id = Some (w_content * 1 + w_collab * 0)).
  { intros id Hid. rewrite Hcomb, combine_lookup, decide_True by done.
    unfold Py.get. by rewrite (Hone _ Hid), lookup_empty. }
  assert (Hdom : dom combined = candidate)
    by (rewrite Hcomb; apply dom_combine).
  split.
  - intros r Hr.
    destruct (payload_record _ _ _ _ _ _ _ Hp Hr) as (score & Hs & Hb).
    assert (Hin : course_id r ∈ candidate).
    { rewrite <- Hdom. apply elem_of_dom. eauto. }
    apply build_record_inv in Hb
      as (_ & _ & _ & Hcs & Hcontent & Hcollab & _).
    rewrite (Hscore _ Hin) in Hs. injection Hs as <-.
    rewrite Hcontent, Hcollab, Hcs. unfold Py.get.
    by rewrite (Hone _ Hin), lookup_empty.
  - pose proof (payload_is_ranking _ _ _ _ _ _ Hp) as Hrank.
    pose proof (is_ranking_sorted _ _ _ Hrank) as Hsorted.
    destruct Hrank as (full & Hperm & _ & Hids).
    unfold ascending.
    apply (StronglySorted_impl_elem (outranks combined)); [|done].
    assert (Hmem : ∀ a, a ∈ course_id <$> l → a ∈ candidate).
    { intros a Ha. rewrite Hids in Ha. apply elem_of_slice_to in Ha.
      rewrite Hperm, elem_of_elements, Hdom in Ha. done. }
    intros a b Ha Hb. unfold outranks, Py.get.
    rewrite (Hscore _ (Hmem _ Ha)), (Hscore _ (Hmem _ Hb)). simpl.
    intros [Hlt | [_ Hab]]; [lra | done].
Qed.

(** With equal scores throughout, the answer is the candidates sorted by
    identifier, cut at [top_n]. *)
Lemma flat_request_ids w_content w_collab candidate combined content collab
    dataset top_n l :
  blended w_content w_collab candidate combined content collab →
  (∀ id, id ∈ candidate → content !! id = Some 1) → collab = ∅ →
  _build_recommendation_payload combined content collab dataset top_n = Ok l →
  course_id <$> l = Py.slice_to (Py.sorted_strs (elements candidate)) top_n.
Proof.
  intros [_ _ Hcomb] Hone -> Hp.
  assert (Hscore : ∀ id, id ∈ candidate →
            combined !! id = Some (w_content * 1 + w_collab * 0)).
  { intros id Hid. rewrite Hcomb, combine_lookup, decide_True by done.
    unfold Py.get. by rewrite (Hone _ Hid), lookup_empty. }
  assert (Hdom : dom combined = candidate)
    by (rewrite Hcomb; apply dom_combine).
  apply (is_ranking_unique combined top_n);
    [by eapply payload_is_ranking|].
  exists (Py.sorted_strs (elements candidate)). split_and!; [| |done].
  - rewrite Hdom. apply merge_sort_Permutation.
  - apply (StronglySorted_impl_elem (λ a b, String.ltb a b = true));
      [|apply sorted_strs_ascending].
    intros a b Ha%elem_of_sorted_strs Hb%elem_of_sorted_strs Hab.
    right. unfold Py.get. rewrite (Hscore _ Ha), (Hscore _ Hb). simpl.
    split; [reflexivity | done].
Qed.

Lemma content_profile_of_nothing dataset :
  _content_profile_from_courses ∅ dataset = Ok ∅.
Proof. unfold _content_profile_from_courses. by rewrite elements_empty. Qed.

Lemma flat_content candidate dataset raw :
  _score_content candidate ∅ dataset = Ok raw →
  ∀ id, id ∈ candidate → _normalize raw !! id = Some 1.
Proof.
  intros E id Hid. apply (normalize_flat _ 0).
  - intros k v Hv.
    destruct (score_content_inv _ _ _ _ E k) as [Hin Hout].
    destruct (decide (k ∈ candidate)) as [Hk | Hk].
    + destruct (Hin Hk) as (course & category & _ & _ & Hkv).
      rewrite Hkv in Hv. injection Hv as <-. apply content_score_of_empty.
    + rewrite (Hout Hk) in Hv. done.
  - destruct (score_content_inv _ _ _ _ E id) as [Hin _].
    destruct (Hin Hid) as (course & category & _ & _ & ->). eauto.
Qed.

End cold_start.

Lemma collaborative_history_no_history student_id candidate dataset :
  _score_collaborative_history student_id candidate ∅ dataset = ∅.
Proof.
  unfold _score_collaborative_history.
  induction (map_to_list (student_completed_courses dataset))
    as [|[other other_courses] l IH] using rev_ind; [done|].
  rewrite foldl_app. simpl. rewrite IH.
  case_decide; [done|].
  rewrite (left_absorb_L ∅ (∩)), size_empty. done.
Qed.

(** The answer to a student with nothing completed: the candidates in the
    order of their identifiers, cut at [top_n]. *)
Lemma cold_start_ids dataset student_id top_n candidate l :
  Py.get (student_completed_courses dataset) student_id ∅ = ∅ →
  eligible_courses ∅ dataset = Ok candidate →
  recommend_for_student dataset student_id top_n = Ok l →
  course_id <$> l = Py.slice_to (Py.sorted_strs (elements candidate)) top_n.
Proof.
  intros Hnone Hcand Hl.
  apply recommend_for_student_inv in Hl
    as (candidate' & Hc
        & [[Hempty ->] | (_ & combined & content & collab & Hs & Hp)]);
    rewrite Hnone, Hcand in Hc; injection Hc as <-.
  { rewrite Hempty, elements_empty.
    change (Py.sorted_strs []) with (@nil string).
    unfold Py.slice_to. destruct (top_n <? 0)%Z; by rewrite take_nil. }
  rewrite Hnone in Hs.
  pose proof (history_scores_blended _ _ _ _ _ _ _ Hs) as Hb.
  unfold history_scores in Hs. rewrite content_profile_of_nothing in Hs.
  simpl in Hs. inv_bind Hs. simpl in Hs.
  rewrite collaborative_history_no_history in Hs. injection Hs as _ <- <-.
  exact (flat_request_ids _ _ _ _ _ _ _ _ _ Hb (flat_content _ _ _ E)
           eq_refl Hp).
Qed.

(** ** History mode: eligibility and unknown students *)

(** C4: in history mode no returned course is one the requester has
    completed, and every prerequisite a returned course declares is in the
    requester's completed set; a course that is not completed and declares
    no prerequisite is always among the candidates. *)
Theorem history_results_are_eligible (dataset : SyntheticDataset)
    (student_id : string) :
  let completed := Py.get (student_completed_courses dataset) student_id ∅ in
  (∀ top_n l r,
     recommend_for_student dataset student_id top_n = Ok l → r ∈ l →
     (course_id r ∉ completed) ∧
     ∃ course,
       courses dataset !! course_id r = Some course ∧
       prerequisites_of course ⊆ completed) ∧
  (∀ id course,
     courses dataset !! id = Some course → id ∉ completed →
     prerequisites_of course = ∅ →
     ∃ candidate,
       eligible_courses completed dataset = Ok candidate ∧ id ∈ candidate).
Proof.
  intros completed. split.
  - intros top_n l r H Hr.
    apply recommend_for_student_inv in H
      as (candidate & Hc
          & [[_ ->] | (_ & combined & content & collab & Hs & Hp)]).
    { by apply not_elem_of_nil in Hr. }
    destruct (payload_record _ _ _ _ _ _ _ Hp Hr) as (score & Hscore & _).
    apply history_scores_blended in Hs as [_ _ ->].
    assert (Hin : course_id r ∈ candidate).
    { rewrite <- (dom_combine 0.6 0.4 candidate content collab).
      apply elem_of_dom. eauto. }
    destruct (eligible_courses_spec completed dataset) as (c & Hc' & Hspec).
    fold completed in Hc. rewrite Hc in Hc'. injection Hc' as Heq.
    rewrite <- Heq in Hspec.
    destruct (proj1 (Hspec _) Hin) as (course & ? & ? & ?). eauto.
  - intros id course Hcourse Hn Hp.
    destruct (eligible_courses_spec completed dataset) as (c & Hc & Hspec).
    exists c. split; [done|]. apply (proj2 (Hspec id)). exists course.
    split_and!; [done | done | rewrite Hp; apply empty_subseteq].
Qed.

(** C8: a student identifier the snapshot does not know is no error: the
    request returns what it returns for any student whose completed set is
    empty (absent from the completion index, or mapped to the empty set)
    and succeeds on a well-formed snapshot; its candidates are the courses
    that declare no prerequisite, and the list it returns is those
    candidates in the order of their identifiers, cut at [top_n]. *)
Theorem unknown_student_has_empty_history (dataset : SyntheticDataset)
    (student_id : string) (top_n : Z) :
  student_completed_courses dataset !! student_id = None →
  (∀ other,
     Py.get (student_completed_courses dataset) other ∅ = ∅ →
     recommend_for_student dataset student_id top_n
     = recommend_for_student dataset other top_n) ∧
  (well_formed dataset →
   ∃ l, recommend_for_student dataset student_id top_n = Ok l) ∧
  (∃ candidate,
     eligible_courses
       (Py.get (student_completed_courses dataset) student_id ∅) dataset
       = Ok candidate ∧
     (∀ id, id ∈ candidate ↔
        ∃ course,
          courses dataset !! id = Some course ∧
          prerequisites_of course = ∅) ∧
     (∀ l,
        recommend_for_student dataset student_id top_n = Ok l →
        course_id <$> l
        = Py.slice_to (Py.sorted_strs (elements candidate)) top_n)).
Proof.
  intros Hnone.
  assert (Hget : Py.get (student_completed_courses dataset) student_id ∅ = ∅).
  { unfold Py.get. by rewrite Hnone. }
  split_and!.
  - intros other Hother. unfold recommend_for_student, history_scores.
    rewrite Hother, Hget.
    destruct (eligible_courses ∅ dataset) as [candidate|]; [|done]. simpl.
    case_decide; [done|].
    by rewrite !collaborative_history_no_history.
  - apply recommend_for_student_total.
  - rewrite Hget.
    destruct (eligible_courses_spec ∅ dataset) as (candidate & Hc & Hspec).
    exists candidate. split_and!; [done| |].
    + intros id. rewrite Hspec. split.
      * intros (course & ? & _ & Hsub). exists course. split; [done|].
        apply (anti_symm (⊆)); [done | apply empty_subseteq].
      * intros (course & ? & Hp). exists course. split_and!; [done | | ].
        -- apply not_elem_of_empty.
        -- rewrite Hp. done.
    + intros l Hl. by apply (cold_start_ids dataset student_id).
Qed.

(** On the sample: ["zed"] is unknown, ["dee"] has completed nothing; the
    two courses without a prerequisite are returned. *)
Lemma unknown_student_has_empty_history_witness :
  recommend_for_student sample "zed" 6 = recommend_for_student sample "dee" 6 ∧
  ∃ l,
    recommend_for_student sample "zed" 6 = Ok l ∧
    course_id <$> l = ["cs101"; "db110"].
Proof.
  assert (Hnone : student_completed_courses sample !! "zed" = None)
    by (vm_compute; reflexivity).
  destruct (unknown_student_has_empty_history sample "zed" 6 Hnone)
    as (Hsame & Hok & candidate & Hc & _ & Hids).
  split.
  - apply Hsame. vm_compute. reflexivity.
  - destruct (Hok sample_well_formed) as [l Hl]. exists l. split; [done|].
    rewrite (Hids l Hl). vm_compute in Hc. injection Hc as <-.
    vm_compute. reflexivity.
Defined.

(** ** The combined score *)

Section unit_interval.
Local Open Scope Q_scope.

Lemma blended_unit w_content w_collab candidate combined content collab
    dataset top_n l r :
  0 <= w_content → 0 <= w_collab → w_content + w_collab == 1 →
  blended w_content w_collab candidate combined content collab →
  _build_recommendation_payload combined content collab dataset top_n = Ok l →
  r ∈ l →
  unit_blend w_content w_collab content collab r.
Proof.
  intros Hw1 Hw2 Hsum [[raw1 [-> _]] [raw2 ->] Hcomb] Hp Hr.
  destruct (payload_record _ _ _ _ _ _ _ Hp Hr) as (score & Hs & Hb).
  apply build_record_inv in Hb as (_ & _ & _ & Hcs & _).
  rewrite Hcomb, combine_lookup in Hs.
  case_decide; [|done]. injection Hs as <-.
  pose proof (get_normalize_range raw1 (course_id r)) as Hc.
  pose proof (get_normalize_range raw2 (course_id r)) as Hk.
  unfold unit_blend. cbv zeta. split_and!; try done; try tauto.
  all: rewrite Hcs; apply round_unit.
  all: set (c := Py.get (_normalize raw1) (course_id r) 0) in *.
  all: set (k := Py.get (_normalize raw2) (course_id r) 0) in *.
  all: split; nra.
Qed.

End unit_interval.

(** C10: the [combined_score] of every returned record, in either mode,
    lies in [[0,1]]: it is the rounding to three decimals of
    [w1 * content + w2 * collab], where the weights ([0.6] and [0.4], or
    [0.7] and [0.3]) sum to one and the two normalised scores, read as 0
    when the course has no entry, lie in [[0,1]]. *)
Theorem combined_score_in_unit_interval (dataset : SyntheticDataset)
    (top_n : Z) (l : list Recommendation) (r : Recommendation) :
  r ∈ l →
  ((0.6 + 0.4 == 1)%Q ∧ (0.7 + 0.3 == 1)%Q) ∧
  (∀ student_id,
     recommend_for_student dataset student_id top_n = Ok l →
     (0 <= combined_score r <= 1)%Q ∧
     ∃ candidate combined content collab,
       eligible_courses
         (Py.get (student_completed_courses dataset) student_id ∅) dataset
         = Ok candidate ∧
       history_scores dataset student_id
         (Py.get (student_completed_courses dataset) student_id ∅) candidate
         = Ok (combined, content, collab) ∧
       unit_blend 0.6 0.4 content collab r) ∧
  (∀ interest_tags,
     recommend_for_interests dataset interest_tags top_n = Ok l →
     (0 <= combined_score r <= 1)%Q ∧
     ∃ combined content collab,
       interest_scores dataset interest_tags (_candidate_courses ∅ dataset)
         = Ok (combined, content, collab) ∧
       unit_blend 0.7 0.3 content collab r).
Proof.
  intros Hr. split_and!.
  - reflexivity.
  - reflexivity.
  - intros student_id H.
    apply recommend_for_student_inv in H
      as (candidate & Hc
          & [[_ ->] | (_ & combined & content & collab & Hs & Hp)]).
    { by apply not_elem_of_nil in Hr. }
    assert (Hu : unit_blend 0.6 0.4 content collab r).
    { eapply blended_unit; [..| exact Hp | exact Hr].
      4: by eapply history_scores_blended. all: by compute. }
    split; [apply Hu|]. by exists candidate, combined, content, collab.
  - intros interest_tags H.
    apply recommend_for_interests_inv in H
      as [[_ ->] | (_ & combined & content & collab & Hs & Hp)].
    { by apply not_elem_of_nil in Hr. }
    assert (Hu : unit_blend 0.7 0.3 content collab r).
    { eapply blended_unit; [..| exact Hp | exact Hr].
      4: by eapply interest_scores_blended. all: by compute. }
    split; [apply Hu|]. by exists combined, content, collab.
Qed.

(** On the sample: the first record returned to ["ann"]. *)
Lemma combined_score_in_unit_interval_witness :
  ∃ l r,
    recommend_for_student sample "ann" 6 = Ok l ∧ r ∈ l ∧
    (0 <= combined_score r <= 1)%Q.
Proof.
  eexists _, _. split; [vm_compute; reflexivity|]. split; [left|].
  refine (proj1 (proj1 (proj2 (combined_score_in_unit_interval sample 6 _ _ _))
                   "ann" _)).
  - left.
  - vm_compute. reflexivity.
Defined.

(** ** Explanations *)

Section explanation.
Local Open Scope Q_scope.

Lemma truthy_nonneg (x : Q) :
  0 <= x → Py.truthy x = if Qlt_le_dec 0 x then true else false.
Proof.
  intros Hx. unfold Py.truthy. destruct (Qlt_le_dec 0 x) as [Hlt | Hle].
  - destruct (Qeq_bool x 0) eqn:E; [|done].
    apply Qeq_bool_iff in E. lra.
  - assert (E : x == 0) by lra. apply Qeq_bool_iff in E. by rewrite E.
Qed.

Lemma build_explanation_spec id content collab skills dataset :
  0 <= content → 0 <= collab →
  _build_explanation id content collab skills dataset =
  explanation_spec content collab skills
    (size (Py.get (collaborative_matrix dataset) id ∅)).
Proof.
  intros Hc Hk. unfold _build_explanation, explanation_spec.
  rewrite (truthy_nonneg _ Hc), (truthy_nonneg _ Hk).
  destruct (Qlt_le_dec 0 content), (Qlt_le_dec 0 collab); reflexivity.
Qed.

Lemma blended_explained w_content w_collab candidate combined content collab
    dataset top_n l r :
  blended w_content w_collab candidate combined content collab →
  _build_recommendation_payload combined content collab dataset top_n = Ok l →
  r ∈ l →
  explained dataset content collab r.
Proof.
  intros [[raw1 [-> _]] [raw2 ->] _] Hp Hr.
  destruct (payload_record _ _ _ _ _ _ _ Hp Hr) as (score & _ & Hb).
  apply build_record_inv in Hb as (_ & _ & _ & _ & _ & _ & Hsk & Hex).
  split_and!.
  - rewrite Hsk. apply merge_sort_Permutation.
  - rewrite Hsk. apply StronglySorted_merge_sort; apply _.
  - rewrite Hex. apply build_explanation_spec; apply get_normalize_range.
Qed.

End explanation.

(** C9: the explanation of every returned record is the sentence the
    design describes, built from the normalised content and collaborative
    scores of its course: the skills fragment (the first three of the
    course's sorted skills, or "related skills") when the content score is
    positive, the peers fragment (the number of students who completed the
    course) when the collaborative score is positive, the fixed sentence
    when neither is, joined by " and ".  The skill list of the record is the
    course's skill set in ascending order. *)
Theorem explanation_synthesis (dataset : SyntheticDataset) (top_n : Z)
    (l : list Recommendation) (r : Recommendation) :
  r ∈ l →
  (∀ student_id,
     recommend_for_student dataset student_id top_n = Ok l →
     ∃ candidate combined content collab,
       eligible_courses
         (Py.get (student_completed_courses dataset) student_id ∅) dataset
         = Ok candidate ∧
       history_scores dataset student_id
         (Py.get (student_completed_courses dataset) student_id ∅) candidate
         = Ok (combined, content, collab) ∧
       explained dataset content collab r) ∧
  (∀ interest_tags,
     recommend_for_interests dataset interest_tags top_n = Ok l →
     ∃ combined content collab,
       interest_scores dataset interest_tags (_candidate_courses ∅ dataset)
         = Ok (combined, content, collab) ∧
       explained dataset content collab r).
Proof.
  intros Hr. split.
  - intros student_id H.
    apply recommend_for_student_inv in H
      as (candidate & Hc
          & [[_ ->] | (_ & combined & content & collab & Hs & Hp)]).
    { by apply not_elem_of_nil in Hr. }
    exists candidate, combined, content, collab. split_and!; [done | done|].
    eapply blended_explained; [by eapply history_scores_blended | done | done].
  - intros interest_tags H.
    apply recommend_for_interests_inv in H
      as [[_ ->] | (_ & combined & content & collab & Hs & Hp)].
    { by apply not_elem_of_nil in Hr. }
    exists combined, content, collab. split; [done|].
    eapply blended_explained; [by eapply interest_scores_blended | done | done].
Qed.

(** On the sample: the first record returned for the interest ["ml"]. *)
Lemma explanation_synthesis_witness :
  ∃ l r,
    recommend_for_interests sample ["ml"] 6 = Ok l ∧ r ∈ l ∧
    ∃ combined content collab,
      interest_scores sample ["ml"] (_candidate_courses ∅ sample)
        = Ok (combined, content, collab) ∧
      explained sample content collab r.
Proof.
  eexists _, _. split; [vm_compute; reflexivity|]. split; [left|].
  refine (proj2 (explanation_synthesis sample 6 _ _ _) ["ml"] _).
  - left.
  - vm_compute. reflexivity.
Defined.

(** ** Interest mode: the profile and the empty request *)

Section interest_profile.
Local Open Scope Q_scope.

Lemma get_add_to (c : gmap string Q) (k key : string) (w : Q) :
  Py.get (Py.add_to c k w) key 0 =
    if decide (k = key) then Py.get c k 0 + w else Py.get c key 0.
Proof.
  unfold Py.add_to, Py.get. case_decide as H.
  - subst. by rewrite lookup_insert_eq.
  - by rewrite lookup_insert_ne.
Qed.

Lemma profile_from_interests_loop (interests : list string)
    (profile : gmap string Q) (tag : string) :
  Py.get
    (foldl (λ profile interest, Py.add_to profile interest 1) profile
       interests) tag 0
  == Py.get profile tag 0 + inject_Z (Z.of_nat (occurrences tag interests)).
Proof.
  revert profile. unfold occurrences.
  induction interests as [|t interests IH]; intros profile; simpl.
  - change (inject_Z (Z.of_nat 0)) with 0. lra.
  - rewrite IH, get_add_to. rewrite filter_cons.
    destruct (decide (t = tag)) as [-> | Hne]; simpl.
    + rewrite Nat2Z.inj_succ, <- Z.add_1_r, inject_Z_plus.
      change (inject_Z 1) with 1. lra.
    + lra.
Qed.

Lemma occurrences_NoDup (tag : string) (tags : list string) :
  NoDup tags →
  occurrences tag tags = if decide (tag ∈ tags) then 1%nat else 0%nat.
Proof.
  unfold occurrences. induction 1 as [|t tags Ht _ IH]; simpl.
  - done.
  - rewrite filter_cons. destruct (decide (t = tag)) as [-> | Hne]; simpl.
    + rewrite IH. rewrite decide_False by done.
      by rewrite decide_True by left.
    + rewrite IH. destruct (decide (tag ∈ tags)) as [Hin | Hnin].
      * by rewrite decide_True by (by right).
      * rewrite decide_False; [done|]. rewrite not_elem_of_cons. split; done.
Qed.

Lemma elem_of_cleaned_interests (tag : string) (interest_tags : list string) :
  tag ∈ cleaned_interests interest_tags ↔
  tag ∈ interest_tags ∧ tag ≠ EmptyString.
Proof.
  unfold cleaned_interests. rewrite elem_of_list_to_set, list_elem_of_filter.
  tauto.
Qed.

End interest_profile.

(** C6, amended: the profile builder adds 1 per occurrence of each tag of
    the sequence it is given; interest mode hands it the set of non-empty
    supplied tags, so in the profile content is scored against, a supplied
    non-empty tag weighs exactly 1 however often it occurs, and any other
    tag 0. *)
Theorem interest_profile_weights (interest_tags : list string) (tag : string) :
  (Py.get (_content_profile_from_interests interest_tags) tag 0
   == inject_Z (Z.of_nat (occurrences tag interest_tags)))%Q ∧
  (Py.get (interest_profile interest_tags) tag 0
   == if decide (tag ∈ interest_tags ∧ tag ≠ EmptyString) then 1 else 0)%Q.
Proof.
  split.
  - unfold _content_profile_from_interests.
    rewrite profile_from_interests_loop, get_empty. lra.
  - unfold interest_profile, _content_profile_from_interests.
    rewrite profile_from_interests_loop, get_empty.
    rewrite occurrences_NoDup by apply NoDup_elements.
    destruct (decide (tag ∈ elements (cleaned_interests interest_tags)))
      as [Hin | Hnin];
      rewrite elem_of_elements, elem_of_cleaned_interests in *.
    + rewrite decide_True by done. reflexivity.
    + rewrite decide_False by done. reflexivity.
Qed.

(** C6 as stated fails: a tag supplied twice weighs 1, not 2, in the
    profile content is scored against. *)
Lemma interest_profile_duplicates_counterexample :
  occurrences "ml" ["ml"; "ml"] = 2%nat ∧
  (Py.get (interest_profile ["ml"; "ml"]) "ml" 0 == 1)%Q ∧
  ¬ (Py.get (interest_profile ["ml"; "ml"]) "ml" 0 == 2)%Q.
Proof. split; [reflexivity|]. split; [reflexivity | discriminate]. Qed.

Section empty_interests.
Local Open Scope Q_scope.

Lemma interest_profile_nil : interest_profile [] = ∅.
Proof.
  unfold interest_profile, cleaned_interests. simpl.
  by rewrite elements_empty.
Qed.

Lemma interest_scores_nil dataset candidate combined content collab :
  interest_scores dataset [] candidate = Ok (combined, content, collab) →
  collab = ∅ ∧ ∀ id, id ∈ candidate → content !! id = Some 1.
Proof.
  unfold interest_scores. rewrite interest_profile_nil. intros H.
  inv_bind H. simpl in H. injection H as _ <- <-. split; [done|].
  intros id Hid. apply (normalize_flat _ 0).
  - intros k v Hv.
    destruct (score_content_inv _ _ _ _ E k) as [Hin Hout].
    destruct (decide (k ∈ candidate)) as [Hk | Hk].
    + destruct (Hin Hk) as (course & category & _ & _ & Hkv).
      rewrite Hkv in Hv. injection Hv as <-. apply content_score_of_empty.
    + rewrite (Hout Hk) in Hv. done.
  - destruct (score_content_inv _ _ _ _ E id) as [Hin _].
    destruct (Hin Hid) as (course & category & _ & _ & ->). eauto.
Qed.

End empty_interests.

(** C1, amended: with an empty list of interest tags a request succeeds on
    a well-formed snapshot, and every record it returns has [collab_score]
    0 and [content_score] 1: the raw content scores are all 0, and the
    normaliser sends a flat non-empty map to 1. *)
Theorem empty_interests_scores (dataset : SyntheticDataset) (top_n : Z) :
  well_formed dataset →
  ∃ l,
    recommend_for_interests dataset [] top_n = Ok l ∧
    ∀ r, r ∈ l → (collab_score r == 0)%Q ∧ (content_score r == 1)%Q.
Proof.
  intros Hwf.
  destruct (recommend_for_interests_total dataset [] top_n Hwf) as [l Hl].
  exists l. split; [done|]. intros r Hr.
  apply recommend_for_interests_inv in Hl
    as [[_ ->] | (_ & combined & content & collab & Hs & Hp)].
  { by apply not_elem_of_nil in Hr. }
  destruct (payload_record _ _ _ _ _ _ _ Hp Hr) as (score & Hscore & Hb).
  apply build_record_inv in Hb as (_ & _ & _ & _ & Hcontent & Hcollab & _).
  pose proof (interest_scores_blended _ _ _ _ _ _ Hs) as [_ _ Hcomb].
  apply interest_scores_nil in Hs as [-> Hone].
  assert (Hin : course_id r ∈ _candidate_courses ∅ dataset).
  { rewrite <- (dom_combine 0.7 0.3 _ content ∅), <- Hcomb.
    apply elem_of_dom. eauto. }
  rewrite Hcontent, Hcollab. unfold Py.get.
  rewrite (Hone _ Hin), lookup_empty. simpl. split; reflexivity.
Qed.

(** On the sample, with [top_n = 2]. *)
Lemma empty_interests_scores_witness :
  ∃ l,
    recommend_for_interests sample [] 2 = Ok l ∧
    ∀ r, r ∈ l → (collab_score r == 0)%Q ∧ (content_score r == 1)%Q.
Proof. exact (empty_interests_scores sample 2 sample_well_formed). Defined.

(** C1 as stated fails: on the sample snapshot the request with no
    interest tag returns a record whose [content_score] is 1, not 0. *)
Lemma empty_interests_content_score_counterexample :
  ∃ l r,
    recommend_for_interests sample [] 5 = Ok l ∧ r ∈ l ∧
    (content_score r == 1)%Q ∧ ¬ (content_score r == 0)%Q.
Proof.
  eexists _, _. split; [vm_compute; reflexivity|].
  split; [left|]. split; [reflexivity | discriminate].
Qed.

(** ** The history-variant collaborative scorer *)

Section collaborative_history.
Local Open Scope Q_scope.
Context (student_id : string) (candidate completed : gset string).

Lemma Qsum_cons (x : Q) (l : list Q) : Qsum (x :: l) = x + Qsum l.
Proof. reflexivity. Qed.

(** The inner loop over one peer's courses. *)
Lemma peer_courses_loop (similarity : Q) (l : list string)
    (scores : gmap string Q) (id : string) :
  NoDup l →
  Py.get
    (foldl
       (λ collab_scores course_id,
          if decide (course_id ∈ completed ∨ course_id ∉ candidate)
          then collab_scores
          else Py.add_to collab_scores course_id similarity)
       scores l) id 0
  == Py.get scores id 0
     + (if decide (id ∈ l ∧ id ∈ candidate ∧ id ∉ completed)
        then similarity else 0).
Proof.
  intros Hnd. revert scores.
  induction Hnd as [|x l Hx _ IH]; intros scores; cbn [foldl].
  - rewrite decide_False; [lra|]. intros [H _]. by apply not_elem_of_nil in H.
  - rewrite IH.
    destruct (decide (id = x)) as [-> | Hne].
    + rewrite (decide_False (P := x ∈ l ∧ _)) by tauto.
      destruct (decide (x ∈ completed ∨ x ∉ candidate)) as [Hskip | Hadd].
      * rewrite decide_False by tauto. lra.
      * rewrite get_add_to, decide_True by done.
        rewrite decide_True; [lra|].
        split_and!; [left | | tauto].
        destruct (decide (x ∈ candidate)); tauto.
    + assert (Hsame :
        Py.get
          (if decide (x ∈ completed ∨ x ∉ candidate) then scores
           else Py.add_to scores x similarity) id 0
        = Py.get scores id 0).
      { destruct (decide (x ∈ completed ∨ x ∉ candidate)); [reflexivity|].
        rewrite get_add_to. by rewrite decide_False by done. }
      rewrite Hsame.
      destruct (decide (id ∈ l ∧ id ∈ candidate ∧ id ∉ completed))
        as [Hin | Hnin].
      * rewrite decide_True; [lra|]. rewrite elem_of_cons. tauto.
      * rewrite decide_False; [lra|]. rewrite elem_of_cons. tauto.
Qed.

Lemma jaccard_pos (other : gset string) :
  completed ∩ other ≠ ∅ → 0 < jaccard completed other.
Proof.
  intros Hne. unfold jaccard.
  assert (Hi : (0 < size (completed ∩ other))%nat).
  { assert (size (completed ∩ other) ≠ 0%nat); [|lia].
    rewrite size_non_empty_iff. by intros ?%leibniz_equiv. }
  assert (Hu : (size (completed ∩ other) ≤ size (completed ∪ other))%nat).
  { apply subseteq_size. intros y Hy.
    apply elem_of_intersection in Hy as [Hy _]. apply elem_of_union. by left. }
  apply Qlt_shift_div_l.
  - change 0 with (inject_Z 0). rewrite <- Zlt_Qlt. lia.
  - rewrite Qmult_0_l. change 0 with (inject_Z 0). rewrite <- Zlt_Qlt. lia.
Qed.

Lemma peer_step_get (scores : gmap string Q) (peer : string * gset string)
    (id : string) :
  Py.get (peer_step student_id candidate completed scores peer) id 0
  == Py.get scores id 0
     + (if decide (id ∈ candidate ∧ id ∉ completed)
        then contribution student_id completed id peer else 0).
Proof.
  destruct peer as [other other_courses]. unfold peer_step, contribution.
  simpl.
  destruct (decide (other = student_id)) as [Heq | Hne].
  { rewrite (decide_False (P := other ≠ student_id ∧ _)) by tauto.
    case_decide; lra. }
  destruct (decide (size (completed ∩ other_courses) = 0%nat)) as [Hz | Hnz].
  { apply size_empty_iff, leibniz_equiv in Hz.
    rewrite (decide_False (P := other ≠ student_id ∧ _)) by tauto.
    case_decide; lra. }
  assert (Hmeet : completed ∩ other_courses ≠ ∅).
  { intros E. apply Hnz. by rewrite E, size_empty. }
  destruct (decide (size (completed ∪ other_courses) = 0%nat)) as [Hu | Hu].
  { exfalso. apply Hnz.
    assert (size (completed ∩ other_courses)
            ≤ size (completed ∪ other_courses))%nat; [|lia].
    apply subseteq_size. intros y Hy.
    apply elem_of_intersection in Hy as [Hy _]. apply elem_of_union. by left. }
  pose proof (jaccard_pos other_courses Hmeet) as Hpos.
  unfold jaccard in Hpos.
  destruct (Qle_bool _ 0) eqn:Hle.
  { apply Qle_bool_iff in Hle. lra. }
  rewrite peer_courses_loop by apply NoDup_elements.
  unfold jaccard.
  destruct (decide (id ∈ candidate ∧ id ∉ completed)) as [Hc | Hc].
  - destruct (decide (id ∈ other_courses)) as [Hin | Hnin].
    + rewrite decide_True by (rewrite elem_of_elements; tauto).
      rewrite decide_True by tauto. lra.
    + rewrite decide_False by (rewrite elem_of_elements; tauto).
      rewrite decide_False by tauto. lra.
  - rewrite decide_False by tauto. lra.
Qed.

Lemma peers_loop_get (peers : list (string * gset string))
    (scores : gmap string Q) (id : string) :
  Py.get (foldl (peer_step student_id candidate completed) scores peers) id 0
  == Py.get scores id 0
     + (if decide (id ∈ candidate ∧ id ∉ completed)
        then Qsum (contribution student_id completed id <$> peers) else 0).
Proof.
  revert scores. induction peers as [|peer peers IH]; intros scores.
  - simpl. case_decide; lra.
  - rewrite fmap_cons, Qsum_cons. cbn [foldl].
    rewrite IH, peer_step_get. case_decide; lra.
Qed.

Lemma Qsum_contribution (peers : list (string * gset string)) (id : string) :
  Qsum (contribution student_id completed id <$> peers)
  == Qsum ((λ peer, jaccard completed peer.2)
             <$> filter
                   (λ peer, peer.1 ≠ student_id ∧ completed ∩ peer.2 ≠ ∅
                            ∧ id ∈ peer.2) peers).
Proof.
  induction peers as [|peer peers IH]; [reflexivity|].
  rewrite fmap_cons, Qsum_cons, filter_cons, IH. unfold contribution at 1.
  case_decide; [rewrite fmap_cons, Qsum_cons|]; lra.
Qed.

Lemma peer_step_dom (scores : gmap string Q) (peer : string * gset string) :
  dom scores ⊆ candidate ∖ completed →
  dom (peer_step student_id candidate completed scores peer)
    ⊆ candidate ∖ completed.
Proof.
  intros Hd. destruct peer as [other other_courses]. unfold peer_step.
  repeat (case_decide; [done|]). destruct (Qle_bool _ _); [done|].
  generalize dependent scores.
  induction (elements other_courses) as [|x l IH]; intros scores Hd; simpl;
    [done|].
  apply IH. case_decide; [done|]. unfold Py.add_to.
  rewrite dom_insert. apply union_least; [|done].
  apply singleton_subseteq_l, elem_of_difference.
  destruct (decide (x ∈ candidate)); tauto.
Qed.
End collaborative_history.

(** C7: the history-variant collaborative score of a course is, when the
    course is a candidate the requester has not completed, the sum of the
    Jaccard similarities of the requester's completed set with that of
    every other student whose completed set meets it and holds the course,
    once per such student; any other course gets no score. *)
Theorem collaborative_history_is_jaccard_sum (dataset : SyntheticDataset)
    (student_id : string) (candidate completed : gset string) (id : string) :
  (Py.get
     (_score_collaborative_history student_id candidate completed dataset)
     id 0
   == collaborative_history_spec student_id candidate completed dataset id)%Q ∧
  dom (_score_collaborative_history student_id candidate completed dataset)
    ⊆ candidate ∖ completed.
Proof.
  unfold _score_collaborative_history. split.
  - rewrite peers_loop_get, get_empty.
    unfold collaborative_history_spec, contributing_peers.
    case_decide; [rewrite Qsum_contribution|]; lra.
  - generalize (map_to_list (student_completed_courses dataset)).
    intros peers. induction peers as [|peer peers IH] using rev_ind.
    + simpl. rewrite dom_empty. apply empty_subseteq.
    + rewrite foldl_app. simpl. by apply peer_step_dom.
Qed.

(** * Further properties of the code *)

(** ** The normaliser: monotonicity and idempotence *)

Section normalize_more.
Local Open Scope Q_scope.

(** The normalised value of a key, whatever bounds one reads the map with. *)
Lemma normalize_value (scores : gmap string Q) (key : string) (value lo hi : Q) :
  scores !! key = Some value → lowest scores lo → highest scores hi →
  ∃ w, _normalize scores !! key = Some w ∧
       (lo == hi → w = 1) ∧ (¬ lo == hi → w == (value - lo) / (hi - lo)).
Proof.
  intros Hk Hlo Hhi.
  destruct (normalize_lookup scores key value Hk)
    as (lo' & hi' & w & Hlo' & Hhi' & Hw & Heq & Hneq).
  pose proof (lowest_unique _ _ _ Hlo Hlo') as El.
  pose proof (highest_unique _ _ _ Hhi Hhi') as Eh.
  exists w. split; [done|]. split.
  - intros E. apply Heq. by rewrite <- El, <- Eh.
  - intros E. rewrite Hneq.
    + by rewrite El, Eh.
    + intros E'. apply E. by rewrite El, Eh.
Qed.

Lemma lowest_le_highest scores lo hi :
  lowest scores lo → highest scores hi → lo <= hi.
Proof. intros [[k Hk] _] [_ Hhi]. eauto. Qed.

Lemma bounds_exist (scores : gmap string Q) (key : string) (value : Q) :
  scores !! key = Some value →
  ∃ lo hi, lowest scores lo ∧ highest scores hi.
Proof.
  intros Hk.
  destruct (normalize_lookup scores key value Hk)
    as (lo & hi & _ & ? & ? & _). eauto.
Qed.

(** X1: [_normalize] never reverses two scores: of two keys of the map, the
    one with the smaller or equal score gets the smaller or equal normalised
    score; when the two scores differ, the lowest score of the map is sent
    to 0 and the highest to 1. *)
Theorem normalize_monotone (scores : gmap string Q)
    (key1 key2 : string) (value1 value2 : Q) :
  scores !! key1 = Some value1 → scores !! key2 = Some value2 →
  ∃ w1 w2,
    _normalize scores !! key1 = Some w1 ∧
    _normalize scores !! key2 = Some w2 ∧
    (value1 <= value2 → w1 <= w2) ∧
    (value1 < value2 → lowest scores value1 → w1 == 0) ∧
    (value1 < value2 → highest scores value2 → w2 == 1).
Proof.
  intros H1 H2.
  destruct (bounds_exist _ _ _ H1) as (lo & hi & Hlo & Hhi).
  destruct (normalize_value _ _ _ _ _ H1 Hlo Hhi) as (w1 & Hw1 & Heq1 & Hne1).
  destruct (normalize_value _ _ _ _ _ H2 Hlo Hhi) as (w2 & Hw2 & Heq2 & Hne2).
  exists w1, w2. split; [done|]. split; [done|].
  assert (Hb1 : lo <= value1 <= hi) by (split; [eapply Hlo | eapply Hhi]; eauto).
  assert (Hb2 : lo <= value2 <= hi) by (split; [eapply Hlo | eapply Hhi]; eauto).
  destruct (Qeq_dec lo hi) as [E | E].
  - rewrite (Heq1 E), (Heq2 E). split_and!; intros; lra.
  - assert (Hpos : 0 < hi - lo).
    { pose proof (lowest_le_highest _ _ _ Hlo Hhi).
      destruct (Qlt_le_dec lo hi); [lra | exfalso; apply E; lra]. }
    rewrite (Hne1 E), (Hne2 E). split_and!.
    + intros Hle. apply Qmult_le_compat_r; [lra|].
      apply Qlt_le_weak, Qinv_lt_0_compat, Hpos.
    + intros _ Hlow. pose proof (lowest_unique _ _ _ Hlo Hlow) as El.
      rewrite <- El. field. lra.
    + intros _ Hhigh. pose proof (highest_unique _ _ _ Hhi Hhigh) as Eh.
      rewrite <- Eh. field. lra.
Qed.

(** On the sample scores: ["a"], the lowest, goes to 0 and ["b"], the
    highest, to 1. *)
Lemma normalize_monotone_witness :
  ∃ w1 w2,
    _normalize sample_scores !! "a" = Some w1 ∧
    _normalize sample_scores !! "b" = Some w2 ∧
    (w1 <= w2)%Q ∧ (w1 == 0)%Q ∧ (w2 == 1)%Q.
Proof.
  assert (Hlow : lowest sample_scores 1).
  { split; [by exists "a"|]. intros key value Hv.
    unfold sample_scores in Hv.
    repeat (apply lookup_insert_Some in Hv as [[_ <-] | [_ Hv]]; [done|]).
    by rewrite lookup_empty in Hv. }
  assert (Hhigh : highest sample_scores 3).
  { split; [by exists "b"|]. intros key value Hv.
    unfold sample_scores in Hv.
    repeat (apply lookup_insert_Some in Hv as [[_ <-] | [_ Hv]]; [done|]).
    by rewrite lookup_empty in Hv. }
  destruct (normalize_monotone sample_scores "a" "b" 1 3)
    as (w1 & w2 & H1 & H2 & Hle & H0 & Hone).
  - vm_compute. reflexivity.
  - vm_compute. reflexivity.
  - exists w1, w2. split_and!; [done | done | | |].
    + apply Hle. done.
    + apply H0; [reflexivity | exact Hlow].
    + apply Hone; [reflexivity | exact Hhigh].
Defined.

(** X2: normalising twice is normalising once: every key of the normalised map
    keeps its value when [_normalize] is applied again. *)
Theorem normalize_idempotent (scores : gmap string Q) (key : string) (w : Q) :
  _normalize scores !! key = Some w →
  ∃ w', _normalize (_normalize scores) !! key = Some w' ∧ w' == w.
Proof.
  intros Hw.
  destruct (scores !! key) as [value|] eqn:Hk.
  2:{ apply not_elem_of_dom in Hk. rewrite <- dom_normalize in Hk.
      apply not_elem_of_dom in Hk. congruence. }
  destruct (bounds_exist _ _ _ Hk) as (lo & hi & Hlo & Hhi).
  destruct (Qeq_dec lo hi) as [E | E].
  - (* flat: everything is 1, and stays 1 *)
    assert (Hall : ∀ k v, _normalize scores !! k = Some v → v == 1).
    { intros k v Hv. destruct (scores !! k) as [x|] eqn:Hx.
      - destruct (normalize_value _ _ _ _ _ Hx Hlo Hhi) as (v' & Hv' & Heq & _).
        rewrite Hv in Hv'. injection Hv' as <-. by rewrite (Heq E).
      - apply not_elem_of_dom in Hx. rewrite <- dom_normalize in Hx.
        apply not_elem_of_dom in Hx. congruence. }
    exists 1. split; [|symmetry; eauto].
    apply (normalize_flat _ 1); eauto.
  - assert (Hpos : 0 < hi - lo).
    { pose proof (lowest_le_highest _ _ _ Hlo Hhi).
      destruct (Qlt_le_dec lo hi); [lra | exfalso; apply E; lra]. }
    destruct Hlo as [[klo Hklo] Hlo_le]. destruct Hhi as [[khi Hkhi] Hhi_ge].
    assert (Hlo : lowest scores lo) by (split; eauto).
    assert (Hhi : highest scores hi) by (split; eauto).
    destruct (normalize_value _ _ _ _ _ Hklo Hlo Hhi) as (w0 & Hw0 & _ & Hne0).
    destruct (normalize_value _ _ _ _ _ Hkhi Hlo Hhi) as (w1 & Hw1 & _ & Hne1).
    assert (E0 : w0 == 0) by (rewrite (Hne0 E); field; lra).
    assert (E1 : w1 == 1) by (rewrite (Hne1 E); field; lra).
    assert (Hlo' : lowest (_normalize scores) w0).
    { split; [eauto|]. intros k v Hv. apply normalize_range in Hv. lra. }
    assert (Hhi' : highest (_normalize scores) w1).
    { split; [eauto|]. intros k v Hv. apply normalize_range in Hv. lra. }
    destruct (normalize_value _ _ _ _ _ Hw Hlo' Hhi') as (w' & Hw' & _ & Hne').
    exists w'. split; [done|]. rewrite Hne' by lra.
    rewrite E0, E1. field.
Qed.

(** On the sample scores, at ["c"]. *)
Lemma normalize_idempotent_witness :
  ∃ w w',
    _normalize sample_scores !! "c" = Some w ∧
    _normalize (_normalize sample_scores) !! "c" = Some w' ∧ (w' == w)%Q.
Proof.
  eexists. 
  destruct (normalize_idempotent sample_scores "c" (1 # 2)) as (w' & H & E).
  - vm_compute. reflexivity.
  - exists w'. split_and!; [vm_compute; reflexivity | exact H | exact E].
Defined.

End normalize_more.

(** ** Splitting and trimming *)

Lemma lstrip_starts_clean (s : string) : starts_clean (Py.lstrip s).
Proof.
  induction s as [|c s IH]; simpl; [done|].
  destruct (Py.is_space c) eqn:E; [done | simpl; done].
Qed.

Lemma lstrip_clean (s : string) : starts_clean s → Py.lstrip s = s.
Proof. destruct s as [|c s]; simpl; [done|]. by intros ->. Qed.

Lemma rstrip_starts_clean (s : string) :
  starts_clean s → starts_clean (Py.rstrip s).
Proof.
  destruct s as [|c s]; simpl; [done|]. intros Hc.
  destruct (Py.rstrip s); [by rewrite Hc | done].
Qed.

Lemma rstrip_idempotent (s : string) : Py.rstrip (Py.rstrip s) = Py.rstrip s.
Proof.
  induction s as [|c s IH]; simpl; [done|].
  destruct (Py.rstrip s) as [|d t] eqn:E.
  - destruct (Py.is_space c) eqn:Ec; simpl; [done | by rewrite Ec].
  - simpl in IH |- *. by rewrite IH.
Qed.

Lemma strip_idempotent (s : string) : Py.strip (Py.strip s) = Py.strip s.
Proof.
  unfold Py.strip.
  rewrite (lstrip_clean (Py.rstrip (Py.lstrip s))).
  - apply rstrip_idempotent.
  - apply rstrip_starts_clean, lstrip_starts_clean.
Qed.

Lemma lstrip_chars (s : string) (c : Ascii.ascii) :
  c ∈ String.list_ascii_of_string (Py.lstrip s) →
  c ∈ String.list_ascii_of_string s.
Proof.
  induction s as [|d s IH]; simpl; [done|].
  destruct (Py.is_space d); [|done]. intros H. right. by apply IH.
Qed.

Lemma rstrip_chars (s : string) (c : Ascii.ascii) :
  c ∈ String.list_ascii_of_string (Py.rstrip s) →
  c ∈ String.list_ascii_of_string s.
Proof.
  induction s as [|d s IH]; simpl; [done|].
  destruct (Py.rstrip s) as [|e t] eqn:E.
  - destruct (Py.is_space d); simpl.
    + by intros ?%not_elem_of_nil.
    + intros [->|?%not_elem_of_nil]%elem_of_cons; [left | done].
  - simpl. intros [->|H]%elem_of_cons; [left | right; by apply IH].
Qed.

Lemma strip_chars (s : string) (c : Ascii.ascii) :
  c ∈ String.list_ascii_of_string (Py.strip s) →
  c ∈ String.list_ascii_of_string s.
Proof. intros H. by apply lstrip_chars, rstrip_chars. Qed.

Lemma split_nonempty (sep : Ascii.ascii) (s : string) : Py.split sep s ≠ [].
Proof.
  induction s as [|c s IH]; simpl; [done|].
  destruct (Ascii.eqb c sep); [done|]. by destruct (Py.split sep s).
Qed.

Lemma split_pieces_sep_free (sep : Ascii.ascii) (s piece : string) :
  piece ∈ Py.split sep s → sep ∉ String.list_ascii_of_string piece.
Proof.
  revert piece. induction s as [|c s IH]; intros piece; simpl.
  - intros ->%list_elem_of_singleton. simpl. apply not_elem_of_nil.
  - destruct (Ascii.eqb c sep) eqn:E.
    + intros [->|H]%elem_of_cons; [apply not_elem_of_nil | by apply IH].
    + destruct (Py.split sep s) as [|p ps] eqn:Es.
      { by destruct (split_nonempty sep s). }
      intros [->|H]%elem_of_cons.
      * simpl. rewrite not_elem_of_cons. split.
        -- intros <-. by rewrite Ascii.eqb_refl in E.
        -- apply IH. left.
      * apply IH. by right.
Qed.

Lemma elem_of_split_to_set_clean (value tag : string) :
  tag ∈ _split_to_set value → clean_tag tag.
Proof.
  unfold _split_to_set, clean_tag.
  rewrite elem_of_list_to_set, list_elem_of_filter, list_elem_of_fmap.
  intros [Hne (piece & -> & Hin)]. split_and!; [done | apply strip_idempotent|].
  intros Hc. apply strip_chars in Hc.
  by apply (split_pieces_sep_free _ _ _ Hin).
Qed.

Lemma split_sep_free (sep : Ascii.ascii) (s : string) :
  sep ∉ String.list_ascii_of_string s → Py.split sep s = [s].
Proof.
  induction s as [|c s IH]; simpl; [done|].
  rewrite not_elem_of_cons. intros [Hne Hs].
  destruct (Ascii.eqb c sep) eqn:E.
  { apply Ascii.eqb_eq in E. congruence. }
  by rewrite (IH Hs).
Qed.

(** X4: every element of [_split_to_set value] is a non-empty string with no
    leading or trailing whitespace and no separator [|] inside; split
    again, it gives itself alone. *)
Theorem split_to_set_clean (value tag : string) :
  tag ∈ _split_to_set value →
  clean_tag tag ∧ _split_to_set tag = {[tag]}.
Proof.
  intros Hin. pose proof (elem_of_split_to_set_clean _ _ Hin) as Hclean.
  split; [done|]. destruct Hclean as (Hne & Hstrip & Hpipe).
  unfold _split_to_set. rewrite split_sep_free by done.
  rewrite fmap_cons, fmap_nil, filter_cons, Hstrip, decide_True by done.
  rewrite filter_nil. simpl. apply (right_id_L ∅ (∪)).
Qed.

(** A padded field with an empty piece. *)
Lemma split_to_set_clean_witness :
  "cs101" ∈ _split_to_set " cs101 | ml201 || " ∧
  clean_tag "cs101" ∧ _split_to_set "cs101" = {["cs101"]}.
Proof.
  assert (H : "cs101" ∈ _split_to_set " cs101 | ml201 || ").
  { compute_done. }
  split; [exact H|]. exact (split_to_set_clean _ _ H).
Defined.

Lemma split_app_sep (sep : Ascii.ascii) (s rest : string) :
  sep ∉ String.list_ascii_of_string s →
  Py.split sep (s +:+ String sep rest) = s :: Py.split sep rest.
Proof.
  induction s as [|c s IH]; simpl.
  - intros _. by rewrite Ascii.eqb_refl.
  - rewrite not_elem_of_cons. intros [Hne Hs].
    destruct (Ascii.eqb c sep) eqn:E.
    { apply Ascii.eqb_eq in E. congruence. }
    change (String.append s (String sep rest)) with (s +:+ String sep rest).
    by rewrite (IH Hs).
Qed.

Lemma split_join (tags : list string) :
  tags ≠ [] →
  Forall (λ tag, pipe ∉ String.list_ascii_of_string tag) tags →
  Py.split pipe (Py.join "|" tags) = tags.
Proof.
  intros Hne Hall. induction Hall as [|tag tags Htag Hall IH]; [done|].
  destruct tags as [|tag' tags'].
  - simpl. by apply split_sep_free.
  - change (Py.join "|" (tag :: tag' :: tags'))
      with (tag +:+ String pipe (Py.join "|" (tag' :: tags'))).
    rewrite split_app_sep by done. by rewrite IH.
Qed.

(** X5: joining tags with [|] and splitting the result gives the tags back, as a
    set, when every tag is non-empty, has nothing to strip and contains no
    [|]. *)
Theorem split_to_set_join (tags : list string) :
  Forall clean_tag tags →
  _split_to_set (Py.join "|" tags) = list_to_set tags.
Proof.
  intros Hall. destruct tags as [|tag tags]; [done|].
  unfold _split_to_set. rewrite split_join; [|done|].
  2:{ eapply Forall_impl; [exact Hall|]. by intros t (_ & _ & ?). }
  f_equal. generalize (tag :: tags) Hall. clear.
  intros l Hall. induction Hall as [|t l (Hne & Hstrip & _) _ IH]; [done|].
  rewrite fmap_cons, filter_cons, Hstrip, decide_True by done. by rewrite IH.
Qed.

(** Two tags joined and split again. *)
Lemma split_to_set_join_witness :
  Forall clean_tag ["ml"; "python"] ∧
  _split_to_set (Py.join "|" ["ml"; "python"]) = list_to_set ["ml"; "python"].
Proof.
  assert (H : Forall clean_tag ["ml"; "python"]).
  { unfold clean_tag. repeat constructor; compute_done. }
  split; [exact H|]. exact (split_to_set_join _ H).
Defined.

(** ** Loops that may raise *)

Lemma for_each_Ok_iff {A S : Type} (body : S → A → result S) (P : A → Prop)
    (l : list A) (s : S) :
  (∀ s x, (∃ s', body s x = Ok s') ↔ P x) →
  (∃ out, for_each body l s = Ok out) ↔ Forall P l.
Proof.
  intros Hbody. revert s. induction l as [|x l IH]; intros s; simpl.
  - split; [constructor | eauto].
  - split.
    + intros [out H]. inv_bind H. constructor.
      * apply (Hbody s). eauto.
      * apply (IH a). eauto.
    + intros [Hx Hl]%Forall_cons. apply (Hbody s) in Hx as [s' ->]. simpl.
      by apply IH.
Qed.

Lemma for_each_KeyError {A S : Type} (body : S → A → result S)
    (Q : string → Prop) (l : list A) (s : S) (key : string) :
  (∀ s x key, body s x = KeyError key → Q key) →
  for_each body l s = KeyError key → Q key.
Proof.
  intros Hbody. revert s. induction l as [|x l IH]; intros s; simpl; [done|].
  destruct (body s x) as [s'|k] eqn:E; simpl.
  - apply IH.
  - intros [= <-]. eauto.
Qed.

Lemma for_each_invariant {A S : Type} (body : S → A → result S)
    (I : S → Prop) (l : list A) (s out : S) :
  (∀ s x s', I s → body s x = Ok s' → I s') →
  I s → for_each body l s = Ok out → I out.
Proof.
  intros Hbody. revert s. induction l as [|x l IH]; intros s Hs H; simpl in H.
  - by injection H as <-.
  - inv_bind H. eauto.
Qed.

(** ** Prerequisite gating, function by function *)

(** X6: [_prerequisites_met] raises [KeyError] with the course identifier when
    the course has no row; otherwise it returns, and returns [True] exactly
    when every prerequisite the row declares is in the completed set; a gate
    that is open stays open when more courses are completed. *)
Theorem prerequisites_met_behaviour (dataset : SyntheticDataset)
    (id : string) (completed completed' : gset string) :
  (courses dataset !! id = None →
   _prerequisites_met id completed dataset = KeyError id) ∧
  (∀ course,
     courses dataset !! id = Some course →
     ∃ met,
       _prerequisites_met id completed dataset = Ok met ∧
       (met = true ↔ prerequisites_of course ⊆ completed)) ∧
  (completed ⊆ completed' →
   _prerequisites_met id completed dataset = Ok true →
   _prerequisites_met id completed' dataset = Ok true).
Proof.
  split_and!.
  - intros Hnone. unfold _prerequisites_met, Py.item. by rewrite Hnone.
  - intros course Hc. rewrite (prerequisites_met_spec _ _ _ _ Hc).
    eexists. split; [done|]. apply bool_decide_eq_true.
  - intros Hsub. destruct (courses dataset !! id) as [course|] eqn:Hc.
    + rewrite !(prerequisites_met_spec _ _ _ _ Hc).
      intros [= H]. apply bool_decide_eq_true in H. f_equal.
      apply bool_decide_eq_true. by etrans.
    + unfold _prerequisites_met, Py.item. by rewrite Hc.
Qed.

(** ** The content scorer, function by function *)

Section content_more.
Local Open Scope Q_scope.

Lemma get_nonneg (m : gmap string Q) (key : string) :
  nonneg m → 0 <= Py.get m key 0.
Proof.
  intros Hm. unfold Py.get. destruct (m !! key) as [w|] eqn:E; simpl.
  - eauto.
  - lra.
Qed.

Lemma foldl_add_nonneg {A : Type} (g : A → Q) (l : list A) (init : Q) :
  (∀ x, 0 <= g x) → 0 <= init → 0 <= foldl (λ score x, score + g x) init l.
Proof.
  intros Hg. revert init. induction l as [|x l IH]; intros init Hi; simpl.
  - done.
  - apply IH. specialize (Hg x). lra.
Qed.

Lemma content_score_of_nonneg profile dataset id course category :
  nonneg profile → 0 <= content_score_of profile dataset id course category.
Proof.
  intros Hp. unfold content_score_of.
  apply (foldl_add_nonneg
    (λ term, 0.1 * Py.get profile ("term::" +:+ Py.lower term) 0)).
  - intros term. pose proof (get_nonneg profile ("term::" +:+ Py.lower term) Hp).
    lra.
  - pose proof (get_nonneg profile ("category::" +:+ category) Hp).
    pose proof (get_nonneg profile
      ("delivery::" +:+ Py.get course "delivery_mode" EmptyString) Hp).
    assert (0 <= foldl (λ score skill, score + Py.get profile skill 0) 0
                   (elements (Py.get (course_skill_tags dataset) id ∅))).
    { apply (foldl_add_nonneg (λ skill, Py.get profile skill 0)); [|lra].
      intros skill. by apply get_nonneg. }
    lra.
Qed.

Lemma score_course_Ok_iff profile dataset scores id :
  (∃ scores', score_course profile dataset scores id = Ok scores') ↔
  scorable dataset id.
Proof.
  split.
  - intros [scores' H]. unfold score_course in H.
    inv_bind H. apply item_Ok_inv in E. inv_bind H. apply item_Ok_inv in E0.
    exists a. eauto.
  - intros (course & Hc & [category Hcat]).
    rewrite (score_course_Ok _ _ _ _ _ _ Hc Hcat). eauto.
Qed.

Lemma score_course_KeyError profile dataset scores id key :
  score_course profile dataset scores id = KeyError key →
  (key = id ∧ courses dataset !! id = None) ∨ key = "category".
Proof.
  unfold score_course, Py.item.
  destruct (courses dataset !! id) as [course|]; simpl.
  - destruct (course !! "category"); simpl; [done|]. intros [= <-]. by right.
  - intros [= <-]. by left.
Qed.

Lemma add_to_positive (c : gmap string Q) (key : string) (w : Q) :
  0 < w → positive c → positive (Py.add_to c key w).
Proof.
  intros Hw Hc k v. unfold Py.add_to.
  destruct (decide (key = k)) as [-> | Hne].
  - rewrite lookup_insert_eq. intros [= <-].
    unfold Py.get. destruct (c !! k) as [x|] eqn:E; simpl.
    + specialize (Hc _ _ E). lra.
    + lra.
  - rewrite lookup_insert_ne by done. apply Hc.
Qed.

Lemma foldl_add_to_positive {A : Type} (key_of : A → string) (w : Q)
    (l : list A) (c : gmap string Q) :
  0 < w → positive c →
  positive (foldl (λ c x, Py.add_to c (key_of x) w) c l).
Proof.
  intros Hw. revert c. induction l as [|x l IH]; intros c Hc; simpl; [done|].
  apply IH. by apply add_to_positive.
Qed.

Lemma profile_course_positive dataset profile id profile' :
  positive profile → profile_course dataset profile id = Ok profile' →
  positive profile'.
Proof.
  intros Hp. unfold profile_course.
  assert (Hskills : positive
    (foldl (λ profile skill, Py.add_to profile skill 1) profile
       (elements (Py.get (course_skill_tags dataset) id ∅)))).
  { apply (foldl_add_to_positive (λ skill, skill)); [lra | done]. }
  destruct (courses dataset !! id) as [course|]; [|by intros [= <-]].
  case_decide as Hd; [by intros [= <-]|].
  intros H. inv_bind H. simpl in H. injection H as <-.
  apply add_to_positive; [lra|].
  apply (foldl_add_to_positive (λ term, "term::" +:+ Py.lower term));
    [lra|].
  apply add_to_positive; [lra | done].
Qed.

Lemma profile_course_Ok_iff dataset profile id :
  (∃ profile', profile_course dataset profile id = Ok profile') ↔
  profilable dataset id.
Proof.
  unfold profile_course, profilable.
  destruct (courses dataset !! id) as [course|]; [|split; [done | eauto]].
  case_decide as He.
  - split; [|eauto]. intros _ c [= <-]. done.
  - split.
    + intros [profile' H] c [= <-] _. inv_bind H. apply item_Ok_inv in E. eauto.
    + intros H. destruct (H course eq_refl He) as [category Hcat].
      rewrite (item_Some _ _ _ Hcat). simpl. eauto.
Qed.

Lemma profile_course_KeyError dataset profile id key :
  profile_course dataset profile id = KeyError key → key = "category".
Proof.
  unfold profile_course.
  destruct (courses dataset !! id) as [course|]; [|done].
  case_decide; [done|]. unfold Py.item.
  destruct (course !! "category"); simpl; [done|]. by intros [= <-].
Qed.

Lemma content_profile_unfold course_ids dataset :
  _content_profile_from_courses course_ids dataset =
  for_each (profile_course dataset) (elements course_ids) ∅.
Proof. reflexivity. Qed.

End content_more.

Lemma score_content_Ok_iff candidate profile dataset :
  (∃ raw, _score_content candidate profile dataset = Ok raw) ↔
  ∀ id, id ∈ candidate → scorable dataset id.
Proof.
  unfold _score_content.
  rewrite (for_each_Ok_iff _ (scorable dataset)).
  - rewrite Forall_forall. by setoid_rewrite elem_of_elements.
  - intros s x. apply score_course_Ok_iff.
Qed.

Lemma score_content_KeyError candidate profile dataset key :
  _score_content candidate profile dataset = KeyError key →
  (key ∈ candidate ∧ courses dataset !! key = None) ∨ key = "category".
Proof.
  unfold _score_content.
  generalize (∅ : gmap string Q).
  assert (Hl : ∀ x, x ∈ elements candidate → x ∈ candidate)
    by (intros x; by rewrite elem_of_elements).
  induction (elements candidate) as [|x l IH]; intros s; simpl; [done|].
  destruct (score_course profile dataset s x) as [s'|k] eqn:E; simpl.
  - apply IH. intros y Hy. apply Hl. by right.
  - intros [= <-]. apply score_course_KeyError in E as [[-> Hn] | ->].
    + left. split; [apply Hl; left | done].
    + by right.
Qed.

(** X7: [_score_content] returns exactly when every candidate has a row with a
    [category]; it then scores each candidate and nothing else, with
    non-negative scores when the profile weights are non-negative; the key
    of a [KeyError] is a candidate without a row, or ["category"]. *)
Theorem score_content_returns (candidate : gset string)
    (profile : gmap string Q) (dataset : SyntheticDataset) :
  ((∃ raw, _score_content candidate profile dataset = Ok raw) ↔
   ∀ id, id ∈ candidate → scorable dataset id) ∧
  (∀ raw,
     _score_content candidate profile dataset = Ok raw →
     dom raw = candidate ∧ (nonneg profile → nonneg raw)) ∧
  (∀ key,
     _score_content candidate profile dataset = KeyError key →
     (key ∈ candidate ∧ courses dataset !! key = None) ∨ key = "category").
Proof.
  split_and!.
  - apply score_content_Ok_iff.
  - intros raw H. split; [by eapply dom_score_content|].
    intros Hp key w Hw.
    destruct (score_content_inv _ _ _ _ H key) as [Hin Hout].
    destruct (decide (key ∈ candidate)) as [Hk | Hk].
    + destruct (Hin Hk) as (course & category & _ & _ & E).
      rewrite E in Hw. injection Hw as <-. by apply content_score_of_nonneg.
    + rewrite (Hout Hk) in Hw. done.
  - apply score_content_KeyError.
Qed.

(** X8: [_content_profile_from_courses] passes over identifiers without a row
    and over empty rows, and returns exactly when every other row has a
    [category]; every weight of the profile it returns is positive; the only
    [KeyError] it raises is for ["category"]. *)
Theorem content_profile_from_courses_behaviour (course_ids : gset string)
    (dataset : SyntheticDataset) :
  ((∃ profile, _content_profile_from_courses course_ids dataset = Ok profile)
   ↔ ∀ id, id ∈ course_ids → profilable dataset id) ∧
  (∀ profile,
     _content_profile_from_courses course_ids dataset = Ok profile →
     positive profile) ∧
  (∀ key,
     _content_profile_from_courses course_ids dataset = KeyError key →
     key = "category").
Proof.
  rewrite content_profile_unfold. split_and!.
  - rewrite (for_each_Ok_iff _ (profilable dataset)).
    + rewrite Forall_forall. by setoid_rewrite elem_of_elements.
    + intros s x. apply profile_course_Ok_iff.
  - intros profile. apply (for_each_invariant _ positive).
    + intros s x s' Hs. by apply profile_course_positive.
    + intros key w. by rewrite lookup_empty.
  - intros key. apply (for_each_KeyError _ (λ key, key = "category")).
    intros s x k. apply profile_course_KeyError.
Qed.

(** ** The entry points at the edges *)

Lemma candidate_courses_all dataset :
  _candidate_courses ∅ dataset = dom (courses dataset).
Proof.
  apply set_eq. intros id. rewrite elem_of_candidate_courses, elem_of_dom.
  split; [tauto|]. intros H. split; [done | apply not_elem_of_empty].
Qed.

Lemma payload_no_KeyError combined content collab dataset top_n key :
  dom combined ⊆ dom (courses dataset) →
  _build_recommendation_payload combined content collab dataset top_n
  ≠ KeyError key.
Proof.
  intros Hsub H.
  destruct (payload_total combined content collab dataset top_n Hsub) as [l Hl].
  congruence.
Qed.

(** X9: [recommend_for_interests] returns a list exactly when every course row
    of the snapshot has a [category], whatever the tags and [top_n]; the only
    [KeyError] it raises is for ["category"]. *)
Theorem recommend_for_interests_returns (dataset : SyntheticDataset)
    (interest_tags : list string) (top_n : Z) :
  ((∃ l, recommend_for_interests dataset interest_tags top_n = Ok l) ↔
   well_formed dataset) ∧
  (∀ key,
     recommend_for_interests dataset interest_tags top_n = KeyError key →
     key = "category").
Proof.
  split.
  - split; [|apply recommend_for_interests_total].
    intros [l H]. apply recommend_for_interests_inv in H
      as [[Hc _] | (_ & combined & content & collab & Hs & _)].
    + rewrite candidate_courses_all in Hc. apply dom_empty_inv_L in Hc.
      unfold well_formed. rewrite Hc. apply map_Forall_empty.
    + unfold interest_scores in Hs. inv_bind Hs.
      assert (Hall : ∀ id, id ∈ _candidate_courses ∅ dataset →
                           scorable dataset id).
      { apply (proj1 (score_content_Ok_iff _ (interest_profile interest_tags)
                        dataset)). eauto. }
      intros id course Hc.
      destruct (Hall id) as (course' & Hc' & Hcat).
      { rewrite candidate_courses_all. apply elem_of_dom. eauto. }
      rewrite Hc in Hc'. by injection Hc' as <-.
  - intros key. unfold recommend_for_interests. case_decide as Hd; [done|].
    unfold interest_scores.
    destruct (_score_content _ _ _) as [raw|k] eqn:E; simpl.
    + intros H. exfalso. revert H. apply payload_no_KeyError.
      rewrite dom_combine. apply candidate_courses_subseteq.
    + intros [= <-].
      apply score_content_KeyError in E as [[Hin Hnone] | ->]; [|done].
      apply candidate_courses_subseteq, elem_of_dom in Hin as [? ?].
      congruence.
Qed.

(** X10: [recommend_for_student] returns the empty list when no course passes
    the gate, in particular when the student has completed every course; for
    [0 < top_n] the empty list is returned only in that case. *)
Theorem recommend_for_student_empty (dataset : SyntheticDataset)
    (student_id : string) (top_n : Z) :
  let completed := Py.get (student_completed_courses dataset) student_id ∅ in
  (eligible_courses completed dataset = Ok ∅ →
   recommend_for_student dataset student_id top_n = Ok []) ∧
  (dom (courses dataset) ⊆ completed →
   recommend_for_student dataset student_id top_n = Ok []) ∧
  ((0 < top_n)%Z →
   recommend_for_student dataset student_id top_n = Ok [] →
   eligible_courses completed dataset = Ok ∅).
Proof.
  intros completed.
  assert (H1 : eligible_courses completed dataset = Ok ∅ →
               recommend_for_student dataset student_id top_n = Ok []).
  { intros H. unfold recommend_for_student. fold completed. rewrite H. simpl.
    by rewrite decide_True. }
  split_and!; [done | |].
  - intros Hall. apply H1.
    destruct (eligible_courses_spec completed dataset) as (c & Hc & Hspec).
    rewrite Hc. f_equal. apply set_eq. intros id. rewrite Hspec. split.
    + intros (course & Hcourse & Hn & _). exfalso. apply Hn, Hall.
      apply elem_of_dom. eauto.
    + by intros ?%not_elem_of_empty.
  - intros Hn H. pose proof H as H'.
    apply recommend_for_student_inv in H'
      as (candidate & Hc & [[-> _] | (Hne & combined & content & collab & Hs & Hp)]);
      [done|]. exfalso.
    apply history_scores_blended in Hs as [_ _ Hcomb].
    pose proof (payload_length _ _ _ _ _ _ Hp ltac:(lia)) as Hlen.
    rewrite Hcomb, dom_combine in Hlen. simpl in Hlen.
    assert (size candidate ≠ 0%nat).
    { rewrite size_non_empty_iff. by intros ?%leibniz_equiv. }
    lia.
Qed.

(** ** What a request without evidence is answered *)


(** X11: a student with no completed course gets, in history mode, every record
    with content score 1, collaborative score 0 and combined score 0.6, the
    records in ascending order of course identifier. *)
Theorem cold_start_history (dataset : SyntheticDataset)
    (student_id : string) (top_n : Z) :
  well_formed dataset →
  Py.get (student_completed_courses dataset) student_id ∅ = ∅ →
  ∃ l,
    recommend_for_student dataset student_id top_n = Ok l ∧
    (∀ r, r ∈ l →
       (content_score r == 1)%Q ∧ (collab_score r == 0)%Q ∧
       (combined_score r == 0.6)%Q) ∧
    ascending (course_id <$> l).
Proof.
  intros Hwf Hnone.
  destruct (recommend_for_student_total dataset student_id top_n Hwf) as [l Hl].
  exists l. split; [done|].
  apply recommend_for_student_inv in Hl
    as (candidate & Hc
        & [[_ ->] | (_ & combined & content & collab & Hs & Hp)]).
  { split; [by intros r ?%not_elem_of_nil | constructor]. }
  rewrite Hnone in Hs.
  pose proof (history_scores_blended _ _ _ _ _ _ _ Hs) as Hb.
  unfold history_scores in Hs. rewrite content_profile_of_nothing in Hs.
  simpl in Hs. inv_bind Hs. simpl in Hs.
  rewrite collaborative_history_no_history in Hs. injection Hs as _ <- <-.
  destruct (flat_request _ _ _ _ _ _ _ _ _ Hb (flat_content _ _ _ E)
              eq_refl Hp) as [Hrec Hasc].
  split; [|done]. intros r Hr. destruct (Hrec r Hr) as (-> & -> & ->).
  split_and!; reflexivity.
Qed.

(** On the sample: ["zed"] has no completed course. *)
Lemma cold_start_history_witness :
  ∃ l,
    recommend_for_student sample "zed" 6 = Ok l ∧
    (∀ r, r ∈ l →
       (content_score r == 1)%Q ∧ (collab_score r == 0)%Q ∧
       (combined_score r == 0.6)%Q) ∧
    ascending (course_id <$> l).
Proof.
  apply (cold_start_history sample "zed" 6 sample_well_formed).
  vm_compute. reflexivity.
Defined.

(** X12: a request whose interest tags are all empty strings gets every record
    with content score 1, collaborative score 0 and combined score 0.7, the
    records in ascending order of course identifier. *)
Theorem empty_interests_ranking (dataset : SyntheticDataset)
    (interest_tags : list string) (top_n : Z) :
  well_formed dataset →
  Forall (λ tag, tag = EmptyString) interest_tags →
  ∃ l,
    recommend_for_interests dataset interest_tags top_n = Ok l ∧
    (∀ r, r ∈ l →
       (content_score r == 1)%Q ∧ (collab_score r == 0)%Q ∧
       (combined_score r == 0.7)%Q) ∧
    ascending (course_id <$> l).
Proof.
  intros Hwf Hblank.
  assert (Hclean : cleaned_interests interest_tags = ∅).
  { apply set_eq. intros tag. rewrite elem_of_cleaned_interests.
    rewrite Forall_forall in Hblank. split; [|by intros ?%not_elem_of_empty].
    intros [Hin Hne]. by apply Hblank in Hin. }
  destruct (recommend_for_interests_total dataset interest_tags top_n Hwf)
    as [l Hl].
  exists l. split; [done|].
  apply recommend_for_interests_inv in Hl
    as [[_ ->] | (_ & combined & content & collab & Hs & Hp)].
  { split; [by intros r ?%not_elem_of_nil | constructor]. }
  pose proof (interest_scores_blended _ _ _ _ _ _ Hs) as Hb.
  unfold interest_scores, interest_profile in Hs. rewrite Hclean in Hs.
  rewrite elements_empty in Hs. simpl in Hs.
  change (_content_profile_from_interests []) with (∅ : gmap string Q) in Hs.
  inv_bind Hs. simpl in Hs. injection Hs as _ <- <-.
  destruct (flat_request _ _ _ _ _ _ _ _ _ Hb (flat_content _ _ _ E)
              eq_refl Hp) as [Hrec Hasc].
  split; [|done]. intros r Hr. destruct (Hrec r Hr) as (-> & -> & ->).
  split_and!; reflexivity.
Qed.

(** On the sample, with two empty tags. *)
Lemma empty_interests_ranking_witness :
  ∃ l,
    recommend_for_interests sample [EmptyString; EmptyString] 4 = Ok l ∧
    (∀ r, r ∈ l →
       (content_score r == 1)%Q ∧ (collab_score r == 0)%Q ∧
       (combined_score r == 0.7)%Q) ∧
    ascending (course_id <$> l).
Proof.
  apply (empty_interests_ranking sample _ 4 sample_well_formed).
  repeat constructor.
Defined.

(** X13: [recommend_for_interests] reads its tags as a set: two tag sequences
    with the same non-empty tags, in any order and with any repetition, get
    the same answer. *)
Theorem interests_as_a_set (dataset : SyntheticDataset)
    (tags tags' : list string) (top_n : Z) :
  (∀ tag, tag ≠ EmptyString → tag ∈ tags ↔ tag ∈ tags') →
  recommend_for_interests dataset tags top_n
  = recommend_for_interests dataset tags' top_n.
Proof.
  intros Hsame.
  assert (Hclean : cleaned_interests tags = cleaned_interests tags').
  { apply set_eq. intros tag. rewrite !elem_of_cleaned_interests.
    split; intros [Hin Hne]; (split; [by apply (Hsame tag Hne) | done]). }
  unfold recommend_for_interests, interest_scores, interest_profile.
  by rewrite Hclean.
Qed.

(** On the sample: a repeated tag and an empty one change nothing. *)
Lemma interests_as_a_set_witness :
  recommend_for_interests sample ["ml"; EmptyString; "ml"] 3
  = recommend_for_interests sample ["ml"] 3.
Proof.
  apply interests_as_a_set. intros tag Hne.
  rewrite !elem_of_cons. split.
  - intros [-> | [-> | [-> | H]]]; auto. done.
  - intros [-> | H]; auto.
Defined.

(** ** Negative [top_n] *)

Lemma length_slice_to_neg {A : Type} (l : list A) (n : Z) :
  (n < 0)%Z →
  length (Py.slice_to l n) = Z.to_nat (Z.of_nat (length l) + n).
Proof.
  intros Hn. unfold Py.slice_to.
  destruct (n <? 0)%Z eqn:E; [|apply Z.ltb_ge in E; lia].
  rewrite length_take. lia.
Qed.

Lemma payload_length_neg combined content collab dataset top_n l :
  _build_recommendation_payload combined content collab dataset top_n = Ok l →
  (top_n < 0)%Z →
  length l = Z.to_nat (Z.of_nat (size (dom combined)) + top_n).
Proof.
  intros H Hn. apply payload_ids in H.
  rewrite <- (length_fmap course_id), H, length_fmap. unfold ranked_items.
  rewrite length_slice_to_neg by done.
  rewrite merge_sort_Permutation, length_map_to_list. by rewrite size_dom.
Qed.

(** X14: a negative [top_n] is not rejected: the slice [[:top_n]] drops the last
    [-top_n] records, so both entry points return
    [max(0, candidates + top_n)] records. *)
Theorem negative_top_n (dataset : SyntheticDataset) (top_n : Z) :
  well_formed dataset → (top_n < 0)%Z →
  (∀ student_id,
     ∃ candidate l,
       eligible_courses
         (Py.get (student_completed_courses dataset) student_id ∅) dataset
         = Ok candidate ∧
       recommend_for_student dataset student_id top_n = Ok l ∧
       length l = Z.to_nat (Z.of_nat (size candidate) + top_n)) ∧
  (∀ interest_tags,
     ∃ l,
       recommend_for_interests dataset interest_tags top_n = Ok l ∧
       length l
       = Z.to_nat (Z.of_nat (size (_candidate_courses ∅ dataset)) + top_n)).
Proof.
  intros Hwf Hn. split.
  - intros student_id.
    destruct (recommend_for_student_total dataset student_id top_n Hwf)
      as [l Hl].
    pose proof Hl as Hl'.
    apply recommend_for_student_inv in Hl'
      as (candidate & Hc
          & [[-> ->] | (_ & combined & content & collab & Hs & Hp)]).
    { exists ∅, []. rewrite size_empty. split_and!; try done. simpl. lia. }
    exists candidate, l. split_and!; try done.
    apply history_scores_blended in Hs as [_ _ Hcomb].
    rewrite (payload_length_neg _ _ _ _ _ _ Hp Hn).
    by rewrite Hcomb, dom_combine.
  - intros interest_tags.
    destruct (recommend_for_interests_total dataset interest_tags top_n Hwf)
      as [l Hl].
    pose proof Hl as Hl'.
    apply recommend_for_interests_inv in Hl'
      as [[Hc ->] | (_ & combined & content & collab & Hs & Hp)].
    { exists []. rewrite Hc, size_empty. split; [done|]. simpl. lia. }
    exists l. split; [done|].
    apply interest_scores_blended in Hs as [_ _ Hcomb].
    rewrite (payload_length_neg _ _ _ _ _ _ Hp Hn).
    by rewrite Hcomb, dom_combine.
Qed.

(** On the sample, with [top_n = -1]: all candidates but the last. *)
Lemma negative_top_n_witness :
  ∃ l,
    recommend_for_interests sample ["ml"] (-1) = Ok l ∧
    length l
    = Z.to_nat (Z.of_nat (size (_candidate_courses ∅ sample)) + -1).
Proof.
  destruct (negative_top_n sample (-1) sample_well_formed) as [_ H];
    [lia|].
  exact (H ["ml"]).
Defined.

(** ** The interest-variant collaborative scorer *)

Section collaborative_interests.
Local Open Scope Q_scope.
Context (candidate interest_tags : gset string) (dataset : SyntheticDataset).

Lemma interest_courses_loop (similarity : Q) (l : list string)
    (scores : gmap string Q) (id : string) :
  NoDup l →
  Py.get
    (foldl
       (λ collab_scores course_id,
          if decide (course_id ∉ candidate) then collab_scores
          else Py.add_to collab_scores course_id similarity)
       scores l) id 0
  == Py.get scores id 0
     + (if decide (id ∈ l ∧ id ∈ candidate) then similarity else 0).
Proof.
  intros Hnd. revert scores.
  induction Hnd as [|x l Hx _ IH]; intros scores; cbn [foldl].
  - rewrite decide_False; [lra|]. intros [H _]. by apply not_elem_of_nil in H.
  - rewrite IH.
    destruct (decide (id = x)) as [-> | Hne].
    + rewrite (decide_False (P := x ∈ l ∧ _)) by tauto.
      destruct (decide (x ∉ candidate)) as [Hskip | Hadd].
      * rewrite decide_False by tauto. lra.
      * rewrite get_add_to, decide_True by done.
        rewrite decide_True; [lra|].
        split; [left|]. destruct (decide (x ∈ candidate)); tauto.
    + assert (Hsame :
        Py.get
          (if decide (x ∉ candidate) then scores
           else Py.add_to scores x similarity) id 0
        = Py.get scores id 0).
      { destruct (decide (x ∉ candidate)); [reflexivity|].
        rewrite get_add_to. by rewrite decide_False by done. }
      rewrite Hsame.
      destruct (decide (id ∈ l ∧ id ∈ candidate)) as [Hin | Hnin].
      * rewrite decide_True; [lra|]. rewrite elem_of_cons. tauto.
      * rewrite decide_False; [lra|]. rewrite elem_of_cons. tauto.
Qed.

Lemma tag_overlap_pos (tags : gset string) :
  tags ∩ interest_tags ≠ ∅ → 0 < tag_overlap tags interest_tags.
Proof.
  intros Hne. unfold tag_overlap.
  assert (Hi : (0 < size (tags ∩ interest_tags))%nat).
  { assert (size (tags ∩ interest_tags) ≠ 0%nat); [|lia].
    rewrite size_non_empty_iff. by intros ?%leibniz_equiv. }
  assert (Hu : (size (tags ∩ interest_tags) ≤ size interest_tags)%nat).
  { apply subseteq_size. intros y Hy.
    by apply elem_of_intersection in Hy as [_ Hy]. }
  apply Qlt_shift_div_l.
  - change 0 with (inject_Z 0). rewrite <- Zlt_Qlt. lia.
  - rewrite Qmult_0_l. change 0 with (inject_Z 0). rewrite <- Zlt_Qlt. lia.
Qed.

Lemma tag_overlap_le_1 (tags : gset string) :
  tags ∩ interest_tags ≠ ∅ → tag_overlap tags interest_tags <= 1.
Proof.
  intros Hne. unfold tag_overlap.
  assert (Hi : (0 < size (tags ∩ interest_tags))%nat).
  { assert (size (tags ∩ interest_tags) ≠ 0%nat); [|lia].
    rewrite size_non_empty_iff. by intros ?%leibniz_equiv. }
  assert (Hu : (size (tags ∩ interest_tags) ≤ size interest_tags)%nat).
  { apply subseteq_size. intros y Hy.
    by apply elem_of_intersection in Hy as [_ Hy]. }
  apply Qle_shift_div_r.
  - change 0 with (inject_Z 0). rewrite <- Zlt_Qlt. lia.
  - rewrite Qmult_1_l. rewrite <- Zle_Qle. lia.
Qed.

Lemma interest_peer_step_get (scores : gmap string Q)
    (peer : string * gset string) (id : string) :
  Py.get (interest_peer_step candidate interest_tags dataset scores peer) id 0
  == Py.get scores id 0
     + (if decide (id ∈ candidate)
        then interest_contribution interest_tags dataset id peer else 0).
Proof.
  destruct peer as [student tags].
  unfold interest_peer_step, interest_contribution. simpl.
  destruct (decide (size (tags ∩ interest_tags) = 0%nat)) as [Hz | Hnz].
  { apply size_empty_iff, leibniz_equiv in Hz.
    rewrite (decide_False (P := tags ∩ interest_tags ≠ ∅ ∧ _)) by tauto.
    case_decide; lra. }
  assert (Hmeet : tags ∩ interest_tags ≠ ∅).
  { intros E. apply Hnz. by rewrite E, size_empty. }
  pose proof (tag_overlap_pos tags Hmeet) as Hpos.
  unfold tag_overlap in Hpos |- *.
  destruct (Qle_bool _ 0) eqn:Hle.
  { apply Qle_bool_iff in Hle. lra. }
  rewrite interest_courses_loop by apply NoDup_elements.
  destruct (decide (id ∈ candidate)) as [Hc | Hc].
  - destruct (decide
      (id ∈ Py.get (student_completed_courses dataset) student ∅))
      as [Hin | Hnin].
    + rewrite decide_True by (rewrite elem_of_elements; tauto).
      rewrite decide_True by tauto. lra.
    + rewrite decide_False by (rewrite elem_of_elements; tauto).
      rewrite decide_False by tauto. lra.
  - rewrite decide_False by tauto. lra.
Qed.

Lemma interest_peers_loop_get (peers : list (string * gset string))
    (scores : gmap string Q) (id : string) :
  Py.get
    (foldl (interest_peer_step candidate interest_tags dataset) scores peers)
    id 0
  == Py.get scores id 0
     + (if decide (id ∈ candidate)
        then Qsum (interest_contribution interest_tags dataset id <$> peers)
        else 0).
Proof.
  revert scores. induction peers as [|peer peers IH]; intros scores.
  - simpl. case_decide; lra.
  - rewrite fmap_cons, Qsum_cons. cbn [foldl].
    rewrite IH, interest_peer_step_get. case_decide; lra.
Qed.

Lemma Qsum_interest_contribution (peers : list (string * gset string))
    (id : string) :
  Qsum (interest_contribution interest_tags dataset id <$> peers)
  == Qsum ((λ peer, tag_overlap peer.2 interest_tags)
             <$> filter
                   (λ peer,
                      peer.2 ∩ interest_tags ≠ ∅ ∧
                      id ∈ Py.get (student_completed_courses dataset)
                             peer.1 ∅) peers).
Proof.
  induction peers as [|peer peers IH]; [reflexivity|].
  rewrite fmap_cons, Qsum_cons, filter_cons, IH.
  unfold interest_contribution at 1.
  case_decide; [rewrite fmap_cons, Qsum_cons|]; lra.
Qed.

Lemma interest_peer_step_dom (scores : gmap string Q)
    (peer : string * gset string) :
  dom scores ⊆ candidate →
  dom (interest_peer_step candidate interest_tags dataset scores peer)
    ⊆ candidate.
Proof.
  intros Hd. destruct peer as [student tags]. unfold interest_peer_step.
  case_decide; [done|]. destruct (Qle_bool _ _); [done|].
  generalize dependent scores.
  induction (elements _) as [|x l IH]; intros scores Hd; simpl; [done|].
  apply IH. case_decide as Hx; [done|]. unfold Py.add_to.
  rewrite dom_insert. apply union_least; [|done].
  apply singleton_subseteq_l. destruct (decide (x ∈ candidate)); tauto.
Qed.

Lemma score_collaborative_interests_unfold :
  interest_tags ≠ ∅ →
  _score_collaborative_interests candidate interest_tags dataset
  = foldl (interest_peer_step candidate interest_tags dataset) ∅
      (map_to_list (student_interest_tags dataset)).
Proof.
  intros Hne. unfold _score_collaborative_interests.
  rewrite decide_False by done.
  generalize (∅ : gmap string Q).
  induction (map_to_list (student_interest_tags dataset))
    as [|[student tags] l IH]; intros scores; simpl; [done|].
  apply IH.
Qed.

Lemma Qsum_nonneg_le (l : list Q) :
  Forall (λ x, 0 <= x <= 1) l → 0 <= Qsum l <= inject_Z (Z.of_nat (length l)).
Proof.
  induction 1 as [|x l Hx _ IH].
  - split; apply Qle_refl.
  - rewrite Qsum_cons. simpl length.
    rewrite Nat2Z.inj_succ, <- Z.add_1_r, inject_Z_plus.
    change (inject_Z 1) with 1. lra.
Qed.

Lemma collaborative_interests_spec_bounds (id : string) :
  0 <= collaborative_interests_spec candidate interest_tags dataset id
    <= inject_Z
         (Z.of_nat (length (interested_peers interest_tags dataset id))).
Proof.
  unfold collaborative_interests_spec. case_decide.
  2:{ split; [lra|]. change 0 with (inject_Z 0). rewrite <- Zle_Qle. lia. }
  rewrite <- (length_fmap (λ peer, tag_overlap peer.2 interest_tags)).
  apply Qsum_nonneg_le.
  apply Forall_fmap, Forall_forall. intros peer Hin.
  apply list_elem_of_filter in Hin as [[Hmeet _] _]. simpl. split.
  - apply Qlt_le_weak. by apply tag_overlap_pos.
  - by apply tag_overlap_le_1.
Qed.

End collaborative_interests.

(** X15: the raw score [_score_collaborative_interests] gives a candidate is the
    sum, over the students who share a tag with the request and have
    completed the course, of the share of the requested tags the student
    holds; with no tag the map is empty; only candidates get a key; the score
    lies between 0 and the number of such students. *)
Theorem collaborative_interests_is_overlap_sum (dataset : SyntheticDataset)
    (candidate interest_tags : gset string) (id : string) :
  (interest_tags = ∅ →
   _score_collaborative_interests candidate interest_tags dataset = ∅) ∧
  (Py.get (_score_collaborative_interests candidate interest_tags dataset)
     id 0
   == collaborative_interests_spec candidate interest_tags dataset id)%Q ∧
  dom (_score_collaborative_interests candidate interest_tags dataset)
    ⊆ candidate ∧
  (0 <= collaborative_interests_spec candidate interest_tags dataset id
     <= inject_Z
          (Z.of_nat (length (interested_peers interest_tags dataset id))))%Q.
Proof.
  split_and!.
  - intros ->. unfold _score_collaborative_interests. by rewrite decide_True.
  - destruct (decide (interest_tags = ∅)) as [-> | Hne].
    + unfold _score_collaborative_interests. rewrite decide_True by done.
      rewrite get_empty. unfold collaborative_interests_spec.
      case_decide; [|reflexivity].
      unfold interested_peers.
      induction (map_to_list (student_interest_tags dataset))
        as [|peer peers IH]; [reflexivity|].
      rewrite filter_cons, decide_False; [done|].
      intros [Hmeet _]. apply Hmeet. apply (right_absorb_L ∅ (∩)).
    + rewrite score_collaborative_interests_unfold by done.
      rewrite interest_peers_loop_get, get_empty.
      unfold collaborative_interests_spec, interested_peers.
      case_decide; [rewrite Qsum_interest_contribution|]; lra.
  - destruct (decide (interest_tags = ∅)) as [-> | Hne].
    + unfold _score_collaborative_interests. rewrite decide_True by done.
      rewrite dom_empty. apply empty_subseteq.
    + rewrite score_collaborative_interests_unfold by done.
      generalize (map_to_list (student_interest_tags dataset)).
      intros peers. induction peers as [|peer peers IH] using rev_ind.
      * simpl. rewrite dom_empty. apply empty_subseteq.
      * rewrite foldl_app. simpl. by apply interest_peer_step_dom.
  - apply collaborative_interests_spec_bounds.
  - apply collaborative_interests_spec_bounds.
Qed.

(** ** The loader's monad *)

Lemma loaded_bind_inv {A B : Type} (m : loaded A) (k : A → loaded B) (b : B) :
  m ≫= k = Loaded b → ∃ a, m = Loaded a ∧ k a = Loaded b.
Proof. destruct m; simpl; [eauto | discriminate | discriminate]. Qed.

Lemma raised_Loaded {A : Type} (r : result A) (a : A) :
  raised r = Loaded a ↔ r = Ok a.
Proof. destruct r; simpl; split; congruence. Qed.

Lemma read_csv_Loaded (files : gmap string (list (gmap string string)))
    (filename : string) (rows : list (gmap string string)) :
  _read_csv files filename = Loaded rows ↔ files !! filename = Some rows.
Proof. unfold _read_csv. destruct (files !! filename); split; congruence. Qed.

(** What a successful load was built from. *)
Lemma build_dataset_inv (files : gmap string (list (gmap string string)))
    (dataset : SyntheticDataset) :
  _build_dataset files = Loaded dataset ↔
  ∃ courses_rows students_rows preferences_rows performance_rows,
    files !! "courses.csv" = Some courses_rows ∧
    files !! "students.csv" = Some students_rows ∧
    files !! "enrollments.csv" = Some (enrollments dataset) ∧
    files !! "student_preferences.csv" = Some preferences_rows ∧
    files !! "student_performance.csv" = Some performance_rows ∧
    index_by "course_id" courses_rows = Ok (courses dataset) ∧
    index_by "student_id" students_rows = Ok (students dataset) ∧
    index_by "student_id" performance_rows = Ok (performance dataset) ∧
    for_each group_preference preferences_rows ∅ = Ok (preferences dataset) ∧
    for_each record_enrollment (enrollments dataset) (∅, ∅)
    = Ok (student_completed_courses dataset, collaborative_matrix dataset) ∧
    course_skill_tags dataset
    = (λ row, _split_tags (Py.get row "skills" EmptyString))
        <$> courses dataset ∧
    student_interest_tags dataset
    = map_imap
        (λ student_id student,
           Some (interest_tags_of (preferences dataset) student_id student))
        (students dataset) ∧
    interest_catalog dataset
    = Py.sorted_strs
        (elements
           (⋃ (map_to_list (student_interest_tags dataset)).*2 : gset string)).
Proof.
  unfold _build_dataset. split.
  - intros H.
    apply loaded_bind_inv in H as (courses_rows & E1 & H).
    apply loaded_bind_inv in H as (students_rows & E2 & H).
    apply loaded_bind_inv in H as (enrollments_rows & E3 & H).
    apply loaded_bind_inv in H as (preferences_rows & E4 & H).
    apply loaded_bind_inv in H as (performance_rows & E5 & H).
    apply loaded_bind_inv in H as (courses & E6 & H).
    apply loaded_bind_inv in H as (students & E7 & H).
    apply loaded_bind_inv in H as (performance & E8 & H).
    apply loaded_bind_inv in H as (preferences & E9 & H).
    apply loaded_bind_inv in H as ([completed matrix] & E10 & H).
    apply read_csv_Loaded in E1, E2, E3, E4, E5.
    apply raised_Loaded in E6, E7, E8, E9, E10.
    injection H as <-. simpl.
    exists courses_rows, students_rows, preferences_rows, performance_rows.
    done.
  - intros (courses_rows & students_rows & preferences_rows
            & performance_rows & E1 & E2 & E3 & E4 & E5 & E6 & E7 & E8 & E9
            & E10 & E11 & E12 & E13).
    apply read_csv_Loaded in E1, E2, E3, E4, E5.
    rewrite E1, E2, E3, E4, E5. simpl.
    rewrite E6, E7, E8, E9, E10. simpl.
    rewrite <- E12, <- E13, <- E11. by destruct dataset.
Qed.

(** The sample directory loads, to the sample snapshot. *)
Lemma sample_files_load : _build_dataset sample_files = Loaded sample_loaded.
Proof. vm_compute. reflexivity. Qed.

Lemma sample_loaded_preferences :
  sample_files !! "student_preferences.csv" = Some sample_preferences_rows.
Proof.
  unfold sample_files. rewrite !lookup_insert_ne by done.
  apply lookup_insert_eq.
Qed.

(** ** The loader's loops *)

Lemma get_missing {V : Type} (k : string) (dflt : V) :
  Py.get (∅ : gmap string V) k dflt = dflt.
Proof. unfold Py.get. by rewrite lookup_empty. Qed.

Section loader_loops.
Implicit Types (row : gmap string string) (rows : list (gmap string string)).

Lemma index_by_loop (key : string) rows
    (index out : gmap string (gmap string string)) (k : string) :
  for_each (λ index row, k ← Py.item row key; Ok (<[k := row]> index))
    rows index = Ok out →
  out !! k
  = match last (filter (λ row, row !! key = Some k) rows) with
    | Some row => Some row
    | None => index !! k
    end.
Proof.
  revert index. induction rows as [|row rows IH]; intros index H; simpl in H.
  - by injection H as <-.
  - inv_bind H. inv_bind E. injection E as <-.
    apply item_Ok_inv in E0. rewrite (IH _ H), filter_cons.
    destruct (decide (row !! key = Some k)) as [Hk | Hk].
    + rewrite last_cons.
      destruct (last (filter _ rows)); [done|].
      assert (a0 = k) as -> by congruence. by rewrite lookup_insert_eq.
    + destruct (last (filter _ rows)); [done|].
      rewrite lookup_insert_ne; [done | congruence].
Qed.

Lemma index_by_lookup (key : string) rows
    (index : gmap string (gmap string string)) (k : string) :
  index_by key rows = Ok index →
  index !! k = last (filter (λ row, row !! key = Some k) rows).
Proof.
  intros H. rewrite (index_by_loop _ _ _ _ k H), lookup_empty.
  by destruct (last _).
Qed.



Lemma group_preference_loop rows
    (preferences out : gmap string (list (gmap string string)))
    (student_id : string) :
  for_each group_preference rows preferences = Ok out →
  Py.get out student_id []
  = Py.get preferences student_id []
    ++ filter (λ row, row !! "student_id" = Some student_id) rows.
Proof.
  revert preferences.
  induction rows as [|row rows IH]; intros preferences H; simpl in H.
  - injection H as <-. by rewrite app_nil_r.
  - unfold group_preference at 1 in H. inv_bind H. inv_bind E.
    injection E as <-. apply item_Ok_inv in E0.
    rewrite (IH _ H), filter_cons. unfold Py.get at 1.
    destruct (decide (row !! "student_id" = Some student_id)) as [Hk | Hk].
    + assert (a0 = student_id) as -> by congruence.
      rewrite lookup_insert_eq. simpl. by rewrite <- app_assoc.
    + rewrite lookup_insert_ne by congruence. done.
Qed.

Lemma group_preference_nonempty rows
    (preferences out : gmap string (list (gmap string string))) :
  for_each group_preference rows preferences = Ok out →
  map_Forall (λ _ prefs, prefs ≠ []) preferences →
  map_Forall (λ _ prefs, prefs ≠ []) out.
Proof.
  intros H Hinit. revert H.
  apply (for_each_invariant _ (map_Forall (λ _ prefs, prefs ≠ []))); [|done].
  intros s row s' Hs Hbody. unfold group_preference in Hbody.
  inv_bind Hbody. injection Hbody as <-.
  apply map_Forall_insert_2; [|done]. by destruct (Py.get s a []).
Qed.



Lemma elem_of_add_member (index : gmap string (gset string))
    (k x k' x' : string) :
  x' ∈ Py.get (add_member index k x) k' ∅
  ↔ x' ∈ Py.get index k' ∅ ∨ (k' = k ∧ x' = x).
Proof.
  unfold add_member, Py.get at 1.
  destruct (decide (k' = k)) as [-> | Hne].
  - rewrite lookup_insert_eq. simpl.
    rewrite elem_of_union, elem_of_singleton. tauto.
  - rewrite lookup_insert_ne by done. fold (Py.get index k' ∅). tauto.
Qed.

Lemma record_enrollment_Ok row
    (indexes out : gmap string (gset string) * gmap string (gset string)) :
  record_enrollment indexes row = Ok out →
  (¬ completed_row row ∧ out = indexes)
  ∨ ∃ student_id course_id,
      completion student_id course_id row ∧
      out = (add_member indexes.1 student_id course_id,
             add_member indexes.2 course_id student_id).
Proof.
  unfold record_enrollment, completion, completed_row.
  case_decide as Hs.
  - intros [= <-]. by left.
  - intros H. inv_bind H. inv_bind H. injection H as <-.
    apply item_Ok_inv in E, E0. right. exists a, a0.
    split; [|done]. split_and!; [|done|done].
    by destruct (decide (row !! "completion_status" = Some "completed")).
Qed.

Lemma completion_cons (student_id course_id : string) row rows :
  (∃ r, r ∈ row :: rows ∧ completion student_id course_id r)
  ↔ completion student_id course_id row
    ∨ ∃ r, r ∈ rows ∧ completion student_id course_id r.
Proof.
  split.
  - intros (r & [-> | Hr]%elem_of_cons & Hc); eauto.
  - intros [Hc | (r & Hr & Hc)].
    + exists row. split; [left | done].
    + exists r. split; [by right | done].
Qed.

Lemma record_enrollment_loop rows
    (indexes out : gmap string (gset string) * gmap string (gset string))
    (student_id course_id : string) :
  for_each record_enrollment rows indexes = Ok out →
  (course_id ∈ Py.get out.1 student_id ∅
   ↔ course_id ∈ Py.get indexes.1 student_id ∅
     ∨ ∃ row, row ∈ rows ∧ completion student_id course_id row) ∧
  (student_id ∈ Py.get out.2 course_id ∅
   ↔ student_id ∈ Py.get indexes.2 course_id ∅
     ∨ ∃ row, row ∈ rows ∧ completion student_id course_id row).
Proof.
  revert indexes.
  induction rows as [|row rows IH]; intros indexes H; simpl in H.
  - injection H as <-.
    assert (Hnone :
      ¬ ∃ row, row ∈ @nil (gmap string string)
               ∧ completion student_id course_id row).
    { intros (r & Hr & _). by apply elem_of_nil in Hr. }
    tauto.
  - inv_bind H. destruct (IH _ H) as [IH1 IH2].
    rewrite IH1, IH2, completion_cons.
    apply record_enrollment_Ok in E
      as [[Hskip ->] | (sid & cid & Hrow & ->)].
    + assert (¬ completion student_id course_id row)
        by (intros [? _]; done).
      tauto.
    + simpl. rewrite !elem_of_add_member.
      assert (Hsame :
        completion student_id course_id row
        ↔ student_id = sid ∧ course_id = cid).
      { destruct Hrow as (Hst & Hs & Hc). unfold completion. split.
        - intros (_ & Hs' & Hc'). split; congruence.
        - intros [-> ->]. done. }
      tauto.
Qed.

Lemma add_member_nonempty (index : gmap string (gset string)) (k x : string) :
  map_Forall (λ _ members, members ≠ ∅) index →
  map_Forall (λ _ members, members ≠ ∅) (add_member index k x).
Proof.
  intros H. apply map_Forall_insert_2; [|done].
  intros E. apply (not_elem_of_empty (C := gset string) x). rewrite <- E.
  apply elem_of_union_r, elem_of_singleton. done.
Qed.

Lemma record_enrollment_nonempty rows
    (indexes out : gmap string (gset string) * gmap string (gset string)) :
  for_each record_enrollment rows indexes = Ok out →
  map_Forall (λ _ members, members ≠ ∅) indexes.1 →
  map_Forall (λ _ members, members ≠ ∅) indexes.2 →
  map_Forall (λ _ members, members ≠ ∅) out.1
  ∧ map_Forall (λ _ members, members ≠ ∅) out.2.
Proof.
  intros H H1 H2. revert H.
  apply (for_each_invariant _
           (λ s, map_Forall (λ _ members, members ≠ ∅) s.1
                 ∧ map_Forall (λ _ members, members ≠ ∅) s.2)); [|done].
  intros s row s' [Hs1 Hs2] Hbody.
  apply record_enrollment_Ok in Hbody as [[_ ->] | (sid & cid & _ & ->)];
    [done|].
  simpl. split; by apply add_member_nonempty.
Qed.



End loader_loops.

(** ** Tags read by the loader *)

Lemma split_tags_split_to_set (value : string) :
  _split_tags value = _split_to_set value.
Proof.
  unfold _split_tags, _split_to_set. case_decide as Hv; [|done].
  subst value. done.
Qed.

Lemma elem_of_preference_tags (prefs : list (gmap string string))
    (tag : string) :
  tag ∈ preference_tags prefs
  ↔ ∃ pref,
      pref ∈ prefs ∧ interest_preference pref ∧
      tag ∈ _split_to_set (Py.get pref "preference_value" EmptyString).
Proof.
  unfold preference_tags. rewrite elem_of_union_list. split.
  - intros (tags & Hin & Htag).
    apply list_elem_of_fmap in Hin as (pref & -> & Hin).
    apply list_elem_of_filter in Hin as [Hp Hin].
    rewrite split_tags_split_to_set in Htag. by exists pref.
  - intros (pref & Hin & Hp & Htag).
    exists (_split_tags (Py.get pref "preference_value" EmptyString)).
    split; [|by rewrite split_tags_split_to_set].
    apply list_elem_of_fmap. exists pref. split; [done|].
    by apply list_elem_of_filter.
Qed.

Lemma elem_of_values_union (m : gmap string (gset string)) (tag : string) :
  tag ∈ (⋃ (map_to_list m).*2 : gset string)
  ↔ ∃ key tags, m !! key = Some tags ∧ tag ∈ tags.
Proof.
  rewrite elem_of_union_list. split.
  - intros (tags & Hin & Htag).
    apply list_elem_of_fmap in Hin as ([key tags'] & -> & Hin).
    apply elem_of_map_to_list in Hin. by exists key, tags'.
  - intros (key & tags & Hm & Htag). exists tags. split; [|done].
    apply list_elem_of_fmap. exists (key, tags). split; [done|].
    by apply elem_of_map_to_list.
Qed.

(** ** What [_build_dataset] raises *)





(** ** The indexes of a loaded snapshot *)

Section loaded_snapshot.
Context (files : gmap string (list (gmap string string))).
Context (dataset : SyntheticDataset).
Hypothesis Hloaded : _build_dataset files = Loaded dataset.

Lemma loaded_completed (student_id course_id : string) :
  course_id ∈ Py.get (student_completed_courses dataset) student_id ∅
  ↔ ∃ row, row ∈ enrollments dataset ∧ completion student_id course_id row.
Proof using Hloaded.
  apply build_dataset_inv in Hloaded
    as (c & s & p & f & _ & _ & _ & _ & _ & _ & _ & _ & _ & H5 & _).
  destruct (record_enrollment_loop _ _ _ student_id course_id H5) as [H _].
  simpl in H. rewrite H, get_missing.
  split; [intros [?%not_elem_of_empty | ?]; done | auto].
Qed.

Lemma loaded_matrix (student_id course_id : string) :
  student_id ∈ Py.get (collaborative_matrix dataset) course_id ∅
  ↔ ∃ row, row ∈ enrollments dataset ∧ completion student_id course_id row.
Proof using Hloaded.
  apply build_dataset_inv in Hloaded
    as (c & s & p & f & _ & _ & _ & _ & _ & _ & _ & _ & _ & H5 & _).
  destruct (record_enrollment_loop _ _ _ student_id course_id H5) as [_ H].
  simpl in H. rewrite H, get_missing.
  split; [intros [?%not_elem_of_empty | ?]; done | auto].
Qed.

Lemma loaded_indexes_nonempty :
  map_Forall (λ _ members, members ≠ ∅) (student_completed_courses dataset)
  ∧ map_Forall (λ _ members, members ≠ ∅) (collaborative_matrix dataset).
Proof using Hloaded.
  apply build_dataset_inv in Hloaded
    as (c & s & p & f & _ & _ & _ & _ & _ & _ & _ & _ & _ & H5 & _).
  apply (record_enrollment_nonempty _ _ _ H5); apply map_Forall_empty.
Qed.

Lemma loaded_interest_tags (student_id : string) :
  student_interest_tags dataset !! student_id
  = interest_tags_of (preferences dataset) student_id
      <$> students dataset !! student_id.
Proof using Hloaded.
  apply build_dataset_inv in Hloaded
    as (c & s & p & f & _ & _ & _ & _ & _ & _ & _ & _ & _ & _ & _ & H & _).
  rewrite H, map_lookup_imap. by destruct (students dataset !! student_id).
Qed.

Lemma loaded_preferences (preferences_rows : list (gmap string string))
    (student_id : string) :
  files !! "student_preferences.csv" = Some preferences_rows →
  Py.get (preferences dataset) student_id []
  = filter (λ row, row !! "student_id" = Some student_id) preferences_rows.
Proof using Hloaded.
  intros Hf. apply build_dataset_inv in Hloaded
    as (c & s & p & f & _ & _ & _ & E4 & _ & _ & _ & _ & H4 & _).
  assert (p = preferences_rows) as -> by congruence.
  by rewrite (group_preference_loop _ _ _ student_id H4), get_missing.
Qed.

Lemma loaded_courses (courses_rows : list (gmap string string))
    (course_id : string) :
  files !! "courses.csv" = Some courses_rows →
  courses dataset !! course_id
  = last (filter (λ row, row !! "course_id" = Some course_id) courses_rows).
Proof using Hloaded.
  intros Hf. apply build_dataset_inv in Hloaded
    as (c & s & p & f & E1 & _ & _ & _ & _ & H1 & _).
  assert (c = courses_rows) as -> by congruence.
  by apply index_by_lookup.
Qed.

End loaded_snapshot.

(** X18: in a loaded snapshot a course is in a student's completed set exactly
    when an enrollment row with status [completed] names both, and
    [collaborative_matrix] is the transpose of
    [student_completed_courses]. *)
Theorem completion_indexes (files : gmap string (list (gmap string string)))
    (dataset : SyntheticDataset) :
  _build_dataset files = Loaded dataset →
  files !! "enrollments.csv" = Some (enrollments dataset) ∧
  (∀ student_id course_id,
     course_id ∈ Py.get (student_completed_courses dataset) student_id ∅
     ↔ ∃ row, row ∈ enrollments dataset
              ∧ completion student_id course_id row) ∧
  (∀ student_id course_id,
     student_id ∈ Py.get (collaborative_matrix dataset) course_id ∅
     ↔ course_id ∈ Py.get (student_completed_courses dataset) student_id ∅).
Proof.
  intros H. split_and!.
  - apply build_dataset_inv in H as (c & s & p & f & _ & _ & E & _). done.
  - intros student_id course_id. by apply (loaded_completed files).
  - intros student_id course_id.
    by rewrite (loaded_matrix files), (loaded_completed files).
Qed.

(** On the sample files. *)
Lemma completion_indexes_witness :
  _build_dataset sample_files = Loaded sample_loaded ∧
  ∀ student_id course_id,
    student_id ∈ Py.get (collaborative_matrix sample_loaded) course_id ∅
    ↔ course_id
        ∈ Py.get (student_completed_courses sample_loaded) student_id ∅.
Proof.
  split; [exact sample_files_load|].
  exact (proj2 (proj2 (completion_indexes sample_files sample_loaded
                         sample_files_load))).
Defined.

(** X19: the keys of [student_completed_courses] are the students with a
    completed enrollment row, the keys of [collaborative_matrix] the courses
    with one; neither index maps a key to the empty set. *)
Theorem completion_index_keys
    (files : gmap string (list (gmap string string)))
    (dataset : SyntheticDataset) :
  _build_dataset files = Loaded dataset →
  (∀ student_id,
     student_id ∈ dom (student_completed_courses dataset)
     ↔ ∃ course_id row,
         row ∈ enrollments dataset ∧ completion student_id course_id row) ∧
  (∀ course_id,
     course_id ∈ dom (collaborative_matrix dataset)
     ↔ ∃ student_id row,
         row ∈ enrollments dataset ∧ completion student_id course_id row) ∧
  map_Forall (λ _ courses, courses ≠ ∅) (student_completed_courses dataset) ∧
  map_Forall (λ _ students, students ≠ ∅) (collaborative_matrix dataset).
Proof.
  intros H. destruct (loaded_indexes_nonempty files dataset H) as [Hc Hm].
  split_and!; [| |done|done].
  - intros student_id. rewrite elem_of_dom. split.
    + intros [members Hs].
      destruct (set_choose_L members) as [course_id Hin]; [by eapply Hc|].
      exists course_id. apply (loaded_completed files dataset H).
      unfold Py.get. by rewrite Hs.
    + intros (course_id & Hrow).
      apply (loaded_completed files dataset H) in Hrow. unfold Py.get in Hrow.
      destruct (student_completed_courses dataset !! student_id); [eauto|].
      by apply not_elem_of_empty in Hrow.
  - intros course_id. rewrite elem_of_dom. split.
    + intros [members Hs].
      destruct (set_choose_L members) as [student_id Hin]; [by eapply Hm|].
      exists student_id. apply (loaded_matrix files dataset H).
      unfold Py.get. by rewrite Hs.
    + intros (student_id & Hrow).
      apply (loaded_matrix files dataset H) in Hrow. unfold Py.get in Hrow.
      destruct (collaborative_matrix dataset !! course_id); [eauto|].
      by apply not_elem_of_empty in Hrow.
Qed.

(** On the sample files. *)
Lemma completion_index_keys_witness :
  _build_dataset sample_files = Loaded sample_loaded ∧
  map_Forall (λ _ courses, courses ≠ ∅)
    (student_completed_courses sample_loaded).
Proof.
  split; [exact sample_files_load|].
  exact (proj1 (proj2 (proj2 (completion_index_keys sample_files
                                sample_loaded sample_files_load)))).
Defined.

(** X20: [course_skill_tags] has the keys of [courses]; the tags of a course are
    what the engine's [_split_to_set] reads from the [skills] column of its
    row, and every tag is non-empty, stripped and free of [|]. *)
Theorem course_skill_tags_loaded
    (files : gmap string (list (gmap string string)))
    (dataset : SyntheticDataset) :
  _build_dataset files = Loaded dataset →
  dom (course_skill_tags dataset) = dom (courses dataset) ∧
  (∀ course_id course,
     courses dataset !! course_id = Some course →
     course_skill_tags dataset !! course_id
     = Some (_split_to_set (Py.get course "skills" EmptyString))) ∧
  (∀ course_id tags tag,
     course_skill_tags dataset !! course_id = Some tags → tag ∈ tags →
     clean_tag tag).
Proof.
  intros H. apply build_dataset_inv in H
    as (c & s & p & f & _ & _ & _ & _ & _ & _ & _ & _ & _ & _ & -> & _).
  split_and!.
  - apply dom_fmap_L.
  - intros course_id course Hc.
    by rewrite lookup_fmap, Hc, <- split_tags_split_to_set.
  - intros course_id tags tag Hc Htag. rewrite lookup_fmap in Hc.
    destruct (courses dataset !! course_id) as [course|]; [|done].
    injection Hc as <-. rewrite split_tags_split_to_set in Htag.
    by apply elem_of_split_to_set_clean in Htag.
Qed.

(** On the sample files. *)
Lemma course_skill_tags_loaded_witness :
  _build_dataset sample_files = Loaded sample_loaded ∧
  dom (course_skill_tags sample_loaded) = dom (courses sample_loaded).
Proof.
  split; [exact sample_files_load|].
  exact (proj1 (course_skill_tags_loaded sample_files sample_loaded
                  sample_files_load)).
Defined.

(** X21: [student_interest_tags] has the keys of [students]; the tags of a
    student are those of the [interests] column together with those of the
    values of the student's preference rows of type [skills_to_build] or
    [career_goal]. *)
Theorem student_interest_tags_loaded
    (files : gmap string (list (gmap string string)))
    (dataset : SyntheticDataset)
    (preferences_rows : list (gmap string string)) :
  _build_dataset files = Loaded dataset →
  files !! "student_preferences.csv" = Some preferences_rows →
  dom (student_interest_tags dataset) = dom (students dataset) ∧
  ∀ student_id student,
    students dataset !! student_id = Some student →
    ∃ tags,
      student_interest_tags dataset !! student_id = Some tags ∧
      ∀ tag,
        tag ∈ tags
        ↔ tag ∈ _split_to_set (Py.get student "interests" EmptyString)
          ∨ ∃ pref,
              pref ∈ preferences_rows ∧
              pref !! "student_id" = Some student_id ∧
              interest_preference pref ∧
              tag ∈ _split_to_set
                      (Py.get pref "preference_value" EmptyString).
Proof.
  intros H Hf. split.
  - apply set_eq. intros student_id.
    rewrite !elem_of_dom, (loaded_interest_tags files dataset H).
    by rewrite fmap_is_Some.
  - intros student_id student Hs.
    rewrite (loaded_interest_tags files dataset H), Hs. simpl.
    eexists. split; [done|]. intros tag. unfold interest_tags_of.
    rewrite elem_of_union, split_tags_split_to_set, elem_of_preference_tags.
    rewrite (loaded_preferences files dataset H _ _ Hf).
    split; (intros [? | (pref & Hin & Hrest)]; [by left | right]);
      exists pref.
    + apply list_elem_of_filter in Hin as [? ?]. tauto.
    + split; [|tauto]. apply list_elem_of_filter. tauto.
Qed.

(** On the sample files. *)
Lemma student_interest_tags_loaded_witness :
  _build_dataset sample_files = Loaded sample_loaded ∧
  sample_files !! "student_preferences.csv" = Some sample_preferences_rows ∧
  dom (student_interest_tags sample_loaded) = dom (students sample_loaded).
Proof.
  split; [exact sample_files_load|].
  split; [exact sample_loaded_preferences|].
  exact (proj1 (student_interest_tags_loaded sample_files sample_loaded
                  sample_preferences_rows sample_files_load
                  sample_loaded_preferences)).
Defined.

(** X22: [interest_catalog] lists, in strictly ascending order and so without
    repetition, exactly the tags some student holds; every entry is
    non-empty, stripped and free of [|]. *)
Theorem interest_catalog_loaded
    (files : gmap string (list (gmap string string)))
    (dataset : SyntheticDataset) :
  _build_dataset files = Loaded dataset →
  ascending (interest_catalog dataset) ∧
  (∀ tag,
     tag ∈ interest_catalog dataset
     ↔ ∃ student_id tags,
         student_interest_tags dataset !! student_id = Some tags
         ∧ tag ∈ tags) ∧
  Forall clean_tag (interest_catalog dataset).
Proof.
  intros H.
  assert (Hmem : ∀ tag,
    tag ∈ interest_catalog dataset
    ↔ ∃ student_id tags,
        student_interest_tags dataset !! student_id = Some tags ∧ tag ∈ tags).
  { intros tag. pose proof H as H'. apply build_dataset_inv in H'
      as (c & s & p & f & _ & _ & _ & _ & _ & _ & _ & _ & _ & _ & _ & _ & ->).
    by rewrite elem_of_sorted_strs, elem_of_values_union. }
  split_and!; [|done|].
  - apply build_dataset_inv in H
      as (c & s & p & f & _ & _ & _ & _ & _ & _ & _ & _ & _ & _ & _ & _ & ->).
    apply sorted_strs_ascending.
  - apply Forall_forall. intros tag Htag.
    apply Hmem in Htag as (student_id & tags & Hs & Htag).
    rewrite (loaded_interest_tags files dataset H) in Hs.
    destruct (students dataset !! student_id) as [student|]; [|done].
    injection Hs as <-. unfold interest_tags_of in Htag.
    apply elem_of_union in Htag as [Htag | Htag].
    + rewrite split_tags_split_to_set in Htag.
      by apply elem_of_split_to_set_clean in Htag.
    + apply elem_of_preference_tags in Htag as (pref & _ & _ & Htag).
      by apply elem_of_split_to_set_clean in Htag.
Qed.

(** On the sample files. *)
Lemma interest_catalog_loaded_witness :
  _build_dataset sample_files = Loaded sample_loaded ∧
  ascending (interest_catalog sample_loaded) ∧
  Forall clean_tag (interest_catalog sample_loaded).
Proof.
  split; [exact sample_files_load|].
  destruct (interest_catalog_loaded sample_files sample_loaded
              sample_files_load) as (H1 & _ & H2).
  split; [exact H1 | exact H2].
Defined.

(** X23: [courses], [students] and [performance] map an identifier to the last
    row of their file that carries it, and to nothing when no row does. *)
Theorem last_row_wins (files : gmap string (list (gmap string string)))
    (dataset : SyntheticDataset) :
  _build_dataset files = Loaded dataset →
  ∃ courses_rows students_rows performance_rows,
    files !! "courses.csv" = Some courses_rows ∧
    files !! "students.csv" = Some students_rows ∧
    files !! "student_performance.csv" = Some performance_rows ∧
    (∀ id,
       courses dataset !! id
       = last (filter (λ row, row !! "course_id" = Some id) courses_rows)) ∧
    (∀ id,
       students dataset !! id
       = last (filter (λ row, row !! "student_id" = Some id) students_rows)) ∧
    (∀ id,
       performance dataset !! id
       = last
           (filter (λ row, row !! "student_id" = Some id) performance_rows)).
Proof.
  intros H. apply build_dataset_inv in H
    as (c & s & p & f & E1 & E2 & _ & _ & E5 & H1 & H2 & H3 & _).
  exists c, s, f. split_and!; try done; intros id; by apply index_by_lookup.
Qed.

(** On the sample files, where ["cs101"] has two rows. *)
Lemma last_row_wins_witness :
  _build_dataset sample_files = Loaded sample_loaded ∧
  ∃ courses_rows,
    sample_files !! "courses.csv" = Some courses_rows ∧
    ∀ id,
      courses sample_loaded !! id
      = last (filter (λ row, row !! "course_id" = Some id) courses_rows).
Proof.
  split; [exact sample_files_load|].
  destruct (last_row_wins sample_files sample_loaded sample_files_load)
    as (c & s & f & E1 & _ & _ & H & _).
  exists c. split; [exact E1 | exact H].
Defined.

(** X24: [preferences] groups the preference rows by student, each group in the
    order of the file; no student is mapped to an empty list. *)
Theorem preferences_in_file_order
    (files : gmap string (list (gmap string string)))
    (dataset : SyntheticDataset)
    (preferences_rows : list (gmap string string)) :
  _build_dataset files = Loaded dataset →
  files !! "student_preferences.csv" = Some preferences_rows →
  (∀ student_id,
     Py.get (preferences dataset) student_id []
     = filter (λ row, row !! "student_id" = Some student_id)
         preferences_rows) ∧
  map_Forall (λ _ prefs, prefs ≠ []) (preferences dataset).
Proof.
  intros H Hf. split.
  - intros student_id. by apply (loaded_preferences files).
  - apply build_dataset_inv in H
      as (c & s & p & f & _ & _ & _ & _ & _ & _ & _ & _ & H4 & _).
    apply (group_preference_nonempty _ _ _ H4), map_Forall_empty.
Qed.

(** On the sample files. *)
Lemma preferences_in_file_order_witness :
  _build_dataset sample_files = Loaded sample_loaded ∧
  sample_files !! "student_preferences.csv" = Some sample_preferences_rows ∧
  map_Forall (λ _ prefs, prefs ≠ []) (preferences sample_loaded).
Proof.
  split; [exact sample_files_load|].
  split; [exact sample_loaded_preferences|].
  exact (proj2 (preferences_in_file_order sample_files sample_loaded
                  sample_preferences_rows sample_files_load
                  sample_loaded_preferences)).
Defined.

(** ** The engine on a loaded snapshot *)

Lemma history_result_candidate (dataset : SyntheticDataset)
    (student_id : string) (top_n : Z) (l : list Recommendation)
    (r : Recommendation) :
  recommend_for_student dataset student_id top_n = Ok l → r ∈ l →
  (course_id r ∉ Py.get (student_completed_courses dataset) student_id ∅) ∧
  ∃ course,
    courses dataset !! course_id r = Some course ∧
    prerequisites_of course
      ⊆ Py.get (student_completed_courses dataset) student_id ∅.
Proof.
  intros H Hr.
  apply recommend_for_student_inv in H
    as (candidate & Hc
        & [[_ ->] | (_ & combined & content & collab & Hs & Hp)]).
  { by apply not_elem_of_nil in Hr. }
  destruct (payload_record _ _ _ _ _ _ _ Hp Hr) as (score & Hscore & _).
  apply history_scores_blended in Hs as [_ _ ->].
  assert (Hin : course_id r ∈ candidate).
  { rewrite <- (dom_combine 0.6 0.4 candidate content collab).
    apply elem_of_dom. eauto. }
  destruct (eligible_courses_spec
              (Py.get (student_completed_courses dataset) student_id ∅)
              dataset) as (c & Hc' & Hspec).
  rewrite Hc in Hc'. injection Hc' as Heq. rewrite <- Heq in Hspec.
  destruct (proj1 (Hspec _) Hin) as (course & ? & ? & ?). eauto.
Qed.

(** X26: on a loaded snapshot, history mode never returns a course the student
    has a completed enrollment row for, and every prerequisite a returned
    course declares has a completed enrollment row of that student. *)
Theorem loaded_history_respects_enrollments
    (files : gmap string (list (gmap string string)))
    (dataset : SyntheticDataset) (student_id : string) (top_n : Z)
    (l : list Recommendation) (r : Recommendation) :
  _build_dataset files = Loaded dataset →
  recommend_for_student dataset student_id top_n = Ok l → r ∈ l →
  (∀ row,
     row ∈ enrollments dataset → ¬ completion student_id (course_id r) row) ∧
  ∃ course,
    courses dataset !! course_id r = Some course ∧
    ∀ prerequisite,
      prerequisite ∈ prerequisites_of course →
      ∃ row,
        row ∈ enrollments dataset ∧ completion student_id prerequisite row.
Proof.
  intros H Hl Hr.
  destruct (history_result_candidate _ _ _ _ _ Hl Hr)
    as (Hnot & course & Hc & Hpre).
  split.
  - intros row Hrow Hcompl. apply Hnot.
    apply (loaded_completed files dataset H). eauto.
  - exists course. split; [done|]. intros prerequisite Hin.
    apply (loaded_completed files dataset H). by apply Hpre.
Qed.

(** On the sample files: what ["bob"], who completed ["cs101"], is offered. *)
Lemma loaded_history_respects_enrollments_witness :
  _build_dataset sample_files = Loaded sample_loaded ∧
  ∃ l r,
    recommend_for_student sample_loaded "bob" 5 = Ok l ∧ r ∈ l ∧
    ∀ row,
      row ∈ enrollments sample_loaded →
      ¬ completion "bob" (course_id r) row.
Proof.
  split; [exact sample_files_load|].
  eexists _, _. split; [vm_compute; reflexivity|]. split; [left|].
  refine (proj1 (loaded_history_respects_enrollments sample_files
                   sample_loaded "bob" 5 _ _ sample_files_load _ _)).
  - vm_compute. reflexivity.
  - left.
Defined.

(** ** The model at work on the sample snapshot *)

Example sample_history_ranking :
  ∃ l, recommend_for_student sample "ann" 6 = Ok l ∧
       course_id <$> l = ["ml201"; "db110"] ∧
       explanation <$> l
       = ["matches your focus on ml, python"
          +:+ " and popular with 2 similar students";
          "matches your focus on sql, stats"].
Proof. eexists. split; [vm_compute; reflexivity|]. split; reflexivity. Qed.

Example sample_interest_ranking :
  ∃ l, recommend_for_interests sample ["ml"; "ml"] 3 = Ok l ∧
       course_id <$> l = ["ml201"; "ai301"; "cs101"] ∧
       Forall2 Qeq (combined_score <$> l) [1; 0.7; 0.3]%Q.
Proof.
  eexists. split; [vm_compute; reflexivity|]. split; [reflexivity|].
  repeat constructor.
Qed.

Example sample_ties_by_identifier :
  ∃ l, recommend_for_interests sample [] 10 = Ok l ∧
       course_id <$> l = ["ai301"; "cs101"; "db110"; "ml201"] ∧
       Forall (λ r, (combined_score r == 0.7)%Q) l.
Proof.
  eexists. split; [vm_compute; reflexivity|]. split; [reflexivity|].
  repeat constructor.
Qed.

Example sample_negative_top_n :
  ∃ l, recommend_for_interests sample [] (-1) = Ok l ∧
       course_id <$> l = ["ai301"; "cs101"; "db110"].
Proof. eexists. split; [vm_compute; reflexivity | reflexivity]. Qed.

Example sample_collaborative_history :
  (Py.get
     (_score_collaborative_history "ann" {["ml201"; "db110"]} {["cs101"]}
        sample)
     "ml201" 0
   == 0.5 + 0.25)%Q.
Proof. vm_compute. reflexivity. Qed.

Example split_to_set_trims :
  _split_to_set " cs101 | ml201 || " = {["cs101"; "ml201"]}.
Proof. vm_compute. reflexivity. Qed.

(** Rounding is for display only: two scores that differ below the third
    decimal keep the order of the unrounded scores, here ["ml201"] before
    ["cs101"], and show the same [combined_score]. *)
Example rounding_keeps_the_ranked_order :
  ∃ l,
    _build_recommendation_payload
      (<["cs101" := 0.5001%Q]> (<["ml201" := 0.5004%Q]> ∅)) ∅ ∅ sample 6
    = Ok l ∧
    course_id <$> l = ["ml201"; "cs101"] ∧
    Forall (λ r, (combined_score r == 0.5)%Q) l.
Proof.
  eexists. split; [vm_compute; reflexivity|]. split; [reflexivity|].
  repeat constructor.
Qed.

Example normalize_rescales :
  let scores : gmap string Q :=
    <["a" := 1%Q]> (<["b" := 3%Q]> (<["c" := 2%Q]> ∅)) in
  (Py.get (_normalize scores) "a" 7 == 0)%Q ∧
  (Py.get (_normalize scores) "b" 7 == 1)%Q ∧
  (Py.get (_normalize scores) "c" 7 == 0.5)%Q.
Proof. vm_compute. repeat split. Qed.

Example normalize_flat_map :
  _normalize (<["a" := 2%Q]> (<["b" := 2%Q]> ∅))
  = <["a" := 1%Q]> (<["b" := 1%Q]> ∅).
Proof. vm_compute. reflexivity. Qed.

Example gated_course_is_withheld :
  eligible_courses {["cs101"]} sample = Ok {["ml201"; "db110"]}.
Proof. vm_compute. reflexivity. Qed.
